(** * bitbucket-github-migrator: a shallow embedding and its properties

    The migrator is a sequential Go program.  Its pure parts (identifier
    clean-up, topic clean-up, the pull-request decoder, the id sort) are
    embedded as functions; its effectful parts (every call to Bitbucket, to
    GitHub, to git, to the clock) are embedded as terminating programs over
    a signature of calls, run against an environment that answers them. *)

From Stdlib Require Import List NArith ZArith Bool Lia String Ascii.
From Stdlib Require Import Sorted Permutation DecimalString.
Import ListNotations.

Set Warnings "-register-all".
Local Open Scope list_scope.

(** ** Go strings

    A Go string holding UTF-8 text is modelled as the sequence of its code
    points.  The functions of package [strings] that the program uses are
    given on that representation, each after its documentation. *)

Module Strings.

Definition rune := N.
Definition gostring := list rune.

(** Literals of the source are written as Rocq strings of ASCII characters. *)
Definition str (s : string) : gostring :=
  map N_of_ascii (list_ascii_of_string s).

Fixpoint streq (a b : gostring) : bool :=
  match a, b with
  | [], [] => true
  | x :: a', y :: b' => N.eqb x y && streq a' b'
  | _, _ => false
  end.

Definition mem (c : rune) (cutset : gostring) : bool :=
  existsb (N.eqb c) cutset.

(** [unicode.IsSpace]: the white space of Latin-1 and of the Unicode
    property White_Space. *)
Definition IsSpace (r : rune) : bool :=
  mem r [9; 10; 11; 12; 13; 32; 133; 160; 5760; 8232; 8233; 8239; 8287; 12288]%N
  || (N.leb 8192 r && N.leb r 8202).

Fixpoint TrimLeftFunc (s : gostring) (f : rune -> bool) : gostring :=
  match s with
  | [] => []
  | c :: s' => if f c then TrimLeftFunc s' f else s
  end.

Fixpoint TrimRightFunc (s : gostring) (f : rune -> bool) : gostring :=
  match s with
  | [] => []
  | c :: s' =>
      match TrimRightFunc s' f with
      | [] => if f c then [] else [c]
      | t => c :: t
      end
  end.

Definition TrimFunc (s : gostring) (f : rune -> bool) : gostring :=
  TrimRightFunc (TrimLeftFunc s f) f.

(** [strings.TrimSpace]: leading and trailing white space removed. *)
Definition TrimSpace (s : gostring) : gostring := TrimFunc s IsSpace.

(** [strings.Trim]: leading and trailing code points of [cutset] removed. *)
Definition Trim (s cutset : gostring) : gostring :=
  TrimFunc s (fun c => mem c cutset).

Fixpoint HasPrefix (s prefix : gostring) {struct prefix} : bool :=
  match prefix, s with
  | [], _ => true
  | p :: prefix', c :: s' => N.eqb c p && HasPrefix s' prefix'
  | _ :: _, [] => false
  end.

Definition HasSuffix (s suffix : gostring) : bool :=
  HasPrefix (rev s) (rev suffix).

(** [strings.Contains]: [substr] occurs somewhere in [s]. *)
Fixpoint Contains (s substr : gostring) : bool :=
  HasPrefix s substr ||
  match s with
  | [] => false
  | _ :: s' => Contains s' substr
  end.

(** [strings.ReplaceAll]: the non-overlapping occurrences of [old], found
    from the left, are replaced by [new].  [skip] counts the code points of
    an occurrence that are still to be passed over.  With an empty [old], Go
    puts [new] before every code point and at the end. *)
Fixpoint replace_from (skip : nat) (s old new : gostring) : gostring :=
  match s with
  | [] => []
  | c :: s' =>
      match skip with
      | S n => replace_from n s' old new
      | O =>
          if HasPrefix s old
          then new ++ replace_from (List.length old - 1) s' old new
          else c :: replace_from 0 s' old new
      end
  end.

Definition ReplaceAll (s old new : gostring) : gostring :=
  match old with
  | [] => new ++ flat_map (fun c => c :: new) s
  | _ :: _ => replace_from 0 s old new
  end.

(** [strings.Split]: the pieces of [s] between the occurrences of [sep];
    a string without [sep] is its own single piece.  With an empty [sep],
    Go splits after every code point. *)
Fixpoint split_from (skip : nat) (s sep : gostring) : list gostring :=
  match s with
  | [] => [[]]
  | c :: s' =>
      match skip with
      | S n => split_from n s' sep
      | O =>
          if HasPrefix s sep
          then [] :: split_from (List.length sep - 1) s' sep
          else
            match split_from 0 s' sep with
            | [] => [[c]]
            | piece :: pieces => (c :: piece) :: pieces
            end
      end
  end.

Definition Split (s sep : gostring) : list gostring :=
  match sep with
  | [] => map (fun c => [c]) s
  | _ :: _ => split_from 0 s sep
  end.

(** [strings.Join] *)
Fixpoint Join (elems : list gostring) (sep : gostring) : gostring :=
  match elems with
  | [] => []
  | [e] => e
  | e :: rest => e ++ sep ++ Join rest sep
  end.

(** [strconv.Itoa] *)
Definition Itoa (i : Z) : gostring :=
  str (NilZero.string_of_int (Z.to_int i)).

End Strings.
Export Strings.

(** ** Numbers

    A number of a JSON document reaches the program as a [float64].  Such a
    value is finite; it is kept as the integer [mantissa] and the power of
    two [exponent] it is the product of (every finite [float64] is one; the
    bounds on the two are not used).  An integer is the number with
    exponent 0. *)
Record float64 : Type := {
  mantissa : Z;
  exponent : Z
}.

Definition float64_of_int (n : Z) : float64 := {| mantissa := n; exponent := 0 |}.
Coercion float64_of_int : Z >-> float64.

(** The integral part of a number: the fraction is discarded, towards
    zero. *)
Definition truncate (x : float64) : Z :=
  if (0 <=? exponent x)%Z
  then (mantissa x * 2 ^ exponent x)%Z
  else Z.quot (mantissa x) (2 ^ (- exponent x)).

(** The values of [int] and [int64] ([int] is taken 64 bits wide). *)
Definition in_int64 (n : Z) : bool := ((- 2 ^ 63 <=? n) && (n <? 2 ^ 63))%Z.

(** ** What the model takes from outside the repository

    The Unicode case tables and the [time] package are libraries the
    program links against.  Their parts that no property below depends on
    are taken as an interface.  So is the one point the language leaves to
    the implementation: the result of converting to an integer a number
    whose integral part no integer holds. *)

Class GoLib : Type := {
  (** [int(x)] and [int64(x)] for a [float64] out of range *)
  int_out_of_range : float64 -> Z;
  (** [unicode.ToLower] above ASCII *)
  unicode_ToLower : rune -> rune;
  (** [strings.EqualFold] *)
  EqualFold : gostring -> gostring -> bool;
  (** [time.Time], its zero value, [time.Parse] with the layout of
      [stringToTimeHookFunc], [Time.String] and [Time.Format] *)
  Time : Type;
  time_zero : Time;
  time_Parse : gostring -> option Time;
  time_String : Time -> gostring;
  time_Format : gostring -> Time -> gostring
}.

(** [int(x)], [int64(x)] for [x] a [float64]: the fraction is discarded. *)
Definition int_of_float64 {lib : GoLib} (x : float64) : Z :=
  if in_int64 (truncate x) then truncate x else int_out_of_range x.

Section StringsToLower.
Context {lib : GoLib}.

Definition ToLower_rune (r : rune) : rune :=
  if N.leb 65 r && N.leb r 90 then (r + 32)%N
  else if N.ltb r 128 then r
  else unicode_ToLower r.

(** [strings.ToLower] *)
Definition ToLower (s : gostring) : gostring := map ToLower_rune s.

End StringsToLower.

(** ** main.go: the list of repositories *)

(** The body of the loop of [parseRepos] on one line of the file: [None]
    when the line adds nothing to [cleaned_repos] (blank, or commented out),
    [Some repo] when [repo] is appended. *)
Definition cleanRepo (repo : gostring) : option gostring :=
  let repo := TrimSpace repo in
  match repo with
  | [] => None
  | c :: _ =>
      if N.eqb c 35 (* '#' *) then None
      else
        let repo := ReplaceAll repo (str " ") (str "-") in
        let repo := ReplaceAll repo (str "/") (str "-") in
        let repo := ReplaceAll repo (str "+") (str "-") in
        let repo := ReplaceAll repo (str "&") (str "-") in
        let repo := ReplaceAll repo (str "(") (str "-") in
        let repo := ReplaceAll repo (str ")") (str "-") in
        Some (Trim repo (str "-"))
  end.

(** [parseRepos] once the file named by REPO_FILE has been read: [data] is
    its contents. *)
Definition parseRepos (data : gostring) : list gostring :=
  let repos := Split data [10%N] in
  fold_left
    (fun cleaned_repos repo =>
       match cleanRepo repo with
       | Some repo => cleaned_repos ++ [repo]
       | None => cleaned_repos
       end)
    repos [].

(** ** The data of the program *)

(** [settings], the configuration built once in [main]. *)
Module settings.
Record t : Type := {
  bbWorkspace : gostring;
  bbUsername : gostring;
  bbPassword : gostring;
  revokeOldPerms : bool;
  cloneVia : gostring;
  ghOrg : gostring;
  ghUser : gostring;
  ghOwner : gostring;
  ghToken : gostring;
  dryRun : bool;
  overwrite : bool;
  visibility : gostring;
  runProgram : gostring;
  repoFile : gostring;
  migrateRepoContents : bool;
  migrateRepoSettings : bool;
  migrateOpenPrs : bool;
  migrateClosedPrs : bool
}.
End settings.

(** A value of type [interface{}] as the JSON decoder of the Bitbucket
    client builds it.  A Go map is kept as the list of its entries; its order
    stands for the order in which a [range] over the map visits them.
    Numbers are [float64] in Go. *)
Inductive value : Type :=
| VNil
| VBool (b : bool)
| VNum (x : float64)
| VStr (s : gostring)
| VList (l : list value)
| VMap (m : list (gostring * value)).

Arguments VNum x%_Z.

Definition gomap := list (gostring * value).

(** [m[key]] with the presence flag, and without it ([nil] when absent). *)
Fixpoint map_lookup (m : gomap) (key : gostring) : option value :=
  match m with
  | [] => None
  | (k, v) :: m' => if streq k key then Some v else map_lookup m' key
  end.

Definition map_index (m : gomap) (key : gostring) : value :=
  match map_lookup m key with
  | Some v => v
  | None => VNil
  end.

(** The types of package [bitbucket] (client library) that the program
    reads or builds, with the fields it uses. *)
Module bitbucket.

Record Repository : Type := {
  Slug : gostring;
  Is_private : bool;
  Description : gostring;
  Mainbranch_Name : gostring;
  Language : gostring;
  Project_Name : gostring
}.

Record RepositoryOptions : Type := {
  Owner : gostring;
  RepoSlug : gostring
}.

Record User : Type := {
  AccountId : gostring;
  Username : gostring
}.

Record RepositoryUserPermissionsOptions : Type := {
  UserPerm_Owner : gostring;
  UserPerm_RepoSlug : gostring;
  UserPerm_User : gostring;
  UserPerm_Permission : gostring
}.

Record RepositoryGroupPermissionsOptions : Type := {
  GroupPerm_Owner : gostring;
  GroupPerm_RepoSlug : gostring;
  GroupPerm_Group : gostring;
  GroupPerm_Permission : gostring
}.

Record PullRequestsOptions : Type := {
  PRs_Owner : gostring;
  PRs_RepoSlug : gostring;
  DestinationBranch : gostring;
  Query : gostring
}.

(** [bitbucket.BitbucketError], the target of [DecodeError]. *)
Record BitbucketError : Type := {
  Message : gostring;
  Fields : list (gostring * list gostring)
}.

End bitbucket.

(** The types of package [github] (client library) that the program builds
    or reads.  A field set through [github.Ptr] is never nil and is kept as
    its value; a pointer field of a response may be nil and is an option. *)
Module github.

Record Repository : Type := {
  Name : gostring;
  Visibility : gostring;
  Description : gostring;
  DefaultBranch : gostring;
  Language : gostring;
  Organization_Name : gostring;
  Topics : list gostring
}.

Record CustomPropertyValue : Type := {
  PropertyName : gostring;
  Value : gostring
}.

Record NewPullRequest : Type := {
  Title : gostring;
  Body : gostring;
  Head : gostring;
  Base : gostring;
  Draft : bool
}.

Record PullRequest : Type := {
  PR_Number : option Z
}.

Record IssueRequest : Type := {
  Issue_Title : gostring;
  Issue_Body : gostring;
  Labels : list gostring;
  State : gostring
}.

Record Issue : Type := {
  Number : option Z;
  URL : option gostring
}.

End github.

(** A Go result [(v, err)]: the value when [err] is nil, the error
    otherwise. *)
Inductive result (A E : Type) : Type :=
| Ok (a : A)
| Err (e : E).
Arguments Ok {A E} a.
Arguments Err {A E} e.

(** The errors the decoder returns: [errors.New(text)], or the error of
    [mapstructure], which names the fields it could not decode. *)
Inductive error : Type :=
| errors_New (text : gostring)
| mapstructure_Error (fields : list gostring).

(** The error of a client or process call is known to the program by its
    text, [err.Error()], alone. *)
Definition errtext := gostring.

(** An operand of [log.Fatalf]. *)
Inductive operand : Type :=
| a_string (s : gostring)
| a_int (i : Z)
| a_error (e : error).

(** ** Calls, programs and runs

    Every interaction of the program with the outside is a call of the
    signature [Call]; [Call R] is a call answered by a value of type [R].
    A program is a finite tree of calls: all loops of the source are
    bounded (by a list, or by the 20 attempts of the creation wait). *)

Section Model.
Context {lib : GoLib}.

(** bitbucket.go: the typed view of a pull request. *)
Record PRText : Type := {
  Text_Raw : gostring;
  Text_Markup : gostring;
  Text_HTML : gostring
}.

Record PRRendered : Type := {
  Rendered_Title : PRText;
  Rendered_Description : PRText;
  Rendered_Reason : PRText
}.

Record PRSummary : Type := {
  Raw : gostring;
  Markup : gostring;
  HTML : gostring
}.

Record PRMergeCommit : Type := {
  Hash : gostring
}.

(** The field [c], a client handle that is never set, is left out. *)
Record PullRequest : Type := {
  Type_ : gostring;
  ID : Z;
  Title : gostring;
  Rendered : PRRendered;
  Summary : PRSummary;
  State : gostring;
  Author : gomap;
  Source : gomap;
  Destination : gomap;
  MergeCommit : PRMergeCommit;
  CommentCount : Z;
  TaskCount : Z;
  CloseSourceBranch : bool;
  ClosedBy : gomap;
  Reason : gostring;
  CreatedOn : Time;
  UpdatedOn : Time;
  Reviewers : list gomap;
  Participants : list gomap;
  Draft : bool;
  Queued : bool
}.

Record PullRequests : Type := {
  Size : Z;
  Page : Z;
  Pagelen : Z;
  Next : gostring;
  Previous : gostring;
  Values : list PullRequest
}.

Inductive Call : Type -> Type :=
(* the Bitbucket client *)
| bb_Repository_Get (ro : bitbucket.RepositoryOptions)
    : Call (result bitbucket.Repository errtext)
| bb_ListUserPermissions (ro : bitbucket.RepositoryOptions)
    : Call (result (list bitbucket.User) errtext)
| bb_ListGroupPermissions (ro : bitbucket.RepositoryOptions)
    : Call (result (list gostring) errtext)
| bb_SetUserPermissions (o : bitbucket.RepositoryUserPermissionsOptions)
    : Call (option errtext)
| bb_SetGroupPermissions (o : bitbucket.RepositoryGroupPermissionsOptions)
    : Call (option errtext)
| bb_PullRequests_Gets (o : bitbucket.PullRequestsOptions)
    : Call (result value errtext)
(* the GitHub client *)
| gh_Repositories_Create (org : gostring) (repo : github.Repository)
    : Call (option errtext)
| gh_Repositories_Get (owner repo : gostring)
    : Call bool (* the response is not nil *)
| gh_Repositories_ReplaceAllTopics (owner repo : gostring)
    (topics : list gostring) : Call (option errtext)
| gh_Repositories_CreateOrUpdateCustomProperties (org repo : gostring)
    (props : list github.CustomPropertyValue) : Call (option errtext)
| gh_Repositories_Edit (owner repo : gostring) (r : github.Repository)
    : Call (option errtext)
| gh_PullRequests_Create (owner repo : gostring) (pr : github.NewPullRequest)
    : Call (result github.PullRequest errtext)
| gh_Issues_Create (owner repo : gostring) (issue : github.IssueRequest)
    : Call (result github.Issue errtext)
| gh_Repositories_CreateComment (owner repo sha body : gostring)
    : Call (option errtext)
| gh_Issues_Edit (owner repo : gostring) (number : Z)
    (issue : github.IssueRequest) : Call (option errtext)
(* processes: each answers with the combined output and the error *)
| os_MkdirTemp (pattern : gostring) : Call (result gostring errtext)
| git_clone_mirror (cloneURL tempDir : gostring)
    : Call (gostring * option errtext)
| git_remote_add (dir name url : gostring)
    : Call (gostring * option errtext)
| exec_program (program repoFolder : gostring)
    : Call (gostring * option errtext)
| git_push_mirror (dir remote : gostring)
    : Call (gostring * option errtext)
(* the clock and the standard output *)
| time_Now : Call Time
| time_Sleep (milliseconds : Z) : Call unit
| fmt_Print (text : gostring) : Call unit.

(** A program returns, or stops the process: [log.Fatalf] (exit status 1)
    or a run-time panic (failed type assertion, nil dereference). *)
Inductive Prog (A : Type) : Type :=
| Ret (a : A)
| Fatalf (format : gostring) (args : list operand)
| Panic
| Do (R : Type) (c : Call R) (k : R -> Prog A).
Arguments Ret {A} a.
Arguments Fatalf {A} format args.
Arguments Panic {A}.
Arguments Do {A R} c k.

Fixpoint bind {A B : Type} (p : Prog A) (f : A -> Prog B) : Prog B :=
  match p with
  | Ret a => f a
  | Fatalf format args => Fatalf format args
  | Panic => Panic
  | Do c k => Do c (fun r => bind (k r) f)
  end.

Definition call {R : Type} (c : Call R) : Prog R := Do c Ret.

End Model.

Arguments Ret {lib A} a.
Arguments Fatalf {lib A} format args.
Arguments Panic {lib A}.
Arguments Do {lib A R} c k.
Arguments bind {lib A B} p f.
Arguments call {lib R} c.

Declare Scope prog_scope.
Delimit Scope prog_scope with prog.
Notation "x <- p ;; q" := (bind p (fun x => q))
  (at level 100, p at next level, right associativity) : prog_scope.
Notation "' pat <- p ;; q" := (bind p (fun x => match x with pat => q end))
  (at level 100, pat pattern, p at next level, right associativity) : prog_scope.
Notation "p ;; q" := (bind p (fun _ => q))
  (at level 100, right associativity) : prog_scope.

Local Open Scope prog_scope.

(** Characters and layouts that cannot be written inside a literal. *)
Definition LF : gostring := [10%N].
Definition DQ : gostring := [34%N].
Definition RFC3339Nano : gostring := str "2006-01-02T15:04:05.999999999Z07:00".
Definition DateTime : gostring := str "2006-01-02 15:04:05".

(** [GitHubRateLimitSleep], in milliseconds. *)
Definition GitHubRateLimitSleep : Z := 500.

Section Decoder.
Context {lib : GoLib}.

(** Type assertions [v.(T)] in their one-result form: a panic unless [v]
    holds a [T]. *)
Definition assert_string (v : value) : Prog gostring :=
  match v with
  | VStr s => Ret s
  | _ => Panic
  end.

Definition assert_map (v : value) : Prog gomap :=
  match v with
  | VMap m => Ret m
  | _ => Panic
  end.

Definition assert_slice (v : value) : Prog (list value) :=
  match v with
  | VList l => Ret l
  | _ => Panic
  end.

(** [x, ok := v.(float64); if !ok { x = 0 }; int(x)]: a number loses its
    fraction. *)
Definition float64_or_zero (v : value) : Z :=
  match v with
  | VNum x => int_of_float64 x
  | _ => 0%Z
  end.

(** *** The decoder of [mapstructure]

    The library is not part of the repository.  The model follows its
    documented behaviour with the default configuration: a field takes the
    entry whose key is its name (or its tag), or failing that the first entry
    whose key matches it up to case; a field without entry, or with a nil
    entry, keeps its zero value; an entry of the wrong kind is an error that
    names the field; the errors of all fields are collected. *)

Definition decoded (T : Type) : Type := (T * list gostring)%type.

Definition dpure {T : Type} (x : T) : decoded T := (x, []).

Definition dap {A B : Type} (f : decoded (A -> B)) (x : decoded A) : decoded B :=
  (fst f (fst x), snd f ++ snd x).

Definition field_lookup (m : gomap) (fieldName : gostring) : option value :=
  match map_lookup m fieldName with
  | Some v => Some v
  | None =>
      match find (fun kv => EqualFold (fst kv) fieldName) m with
      | Some kv => Some (snd kv)
      | None => None
      end
  end.

Definition sub (name fieldName : gostring) : gostring :=
  match name with
  | [] => fieldName
  | _ :: _ => name ++ str "." ++ fieldName
  end.

Definition decodeString (name : gostring) (input : option value) : decoded gostring :=
  match input with
  | None | Some VNil => ([], [])
  | Some (VStr s) => (s, [])
  | Some _ => ([], [name])
  end.

(** An [int] field: the library converts a number by [int64(x)]. *)
Definition decodeInt (name : gostring) (input : option value) : decoded Z :=
  match input with
  | None | Some VNil => (0%Z, [])
  | Some (VNum x) => (int_of_float64 x, [])
  | Some _ => (0%Z, [name])
  end.

Definition decodeBool (name : gostring) (input : option value) : decoded bool :=
  match input with
  | None | Some VNil => (false, [])
  | Some (VBool b) => (b, [])
  | Some _ => (false, [name])
  end.

Definition decodeMap (name : gostring) (input : option value) : decoded gomap :=
  match input with
  | None | Some VNil => ([], [])
  | Some (VMap m) => (m, [])
  | Some _ => ([], [name])
  end.

Definition decodeStruct {T : Type} (zero : T) (fields : gostring -> gomap -> decoded T)
    (name : gostring) (input : option value) : decoded T :=
  match input with
  | None | Some VNil => (zero, [])
  | Some (VMap m) => fields name m
  | Some _ => (zero, [name])
  end.

Fixpoint decodeElems {T : Type} (elem : gostring -> option value -> decoded T)
    (name : gostring) (i : Z) (l : list value) : decoded (list T) :=
  match l with
  | [] => ([], [])
  | v :: l' =>
      let d := elem (name ++ str "[" ++ Itoa i ++ str "]") (Some v) in
      let ds := decodeElems elem name (i + 1) l' in
      (fst d :: fst ds, snd d ++ snd ds)
  end.

Definition decodeSlice {T : Type} (elem : gostring -> option value -> decoded T)
    (name : gostring) (input : option value) : decoded (list T) :=
  match input with
  | None | Some VNil => ([], [])
  | Some (VList l) => decodeElems elem name 0 l
  | Some _ => ([], [name])
  end.

(** A [time.Time] field under [stringToTimeHookFunc]: a string goes through
    [time.Parse]; any other entry is decoded as into a struct, and
    [time.Time] has no field that can be set. *)
Definition decodeTime (name : gostring) (input : option value) : decoded Time :=
  match input with
  | None | Some VNil => (time_zero, [])
  | Some (VStr s) =>
      match time_Parse s with
      | Some t => (t, [])
      | None => (time_zero, [name])
      end
  | Some (VMap _) => (time_zero, [])
  | Some _ => (time_zero, [name])
  end.

Definition field {T : Type} (dec : gostring -> option value -> decoded T)
    (name : gostring) (m : gomap) (key : string) : decoded T :=
  dec (sub name (str key)) (field_lookup m (str key)).

Definition decodePRText : gostring -> option value -> decoded PRText :=
  decodeStruct (Build_PRText [] [] [])
    (fun name m =>
       dap (dap (dap (dpure Build_PRText)
         (field decodeString name m "Raw"))
         (field decodeString name m "Markup"))
         (field decodeString name m "HTML")).

Definition decodePRRendered : gostring -> option value -> decoded PRRendered :=
  let zero := Build_PRText [] [] [] in
  decodeStruct (Build_PRRendered zero zero zero)
    (fun name m =>
       dap (dap (dap (dpure Build_PRRendered)
         (field decodePRText name m "Title"))
         (field decodePRText name m "Description"))
         (field decodePRText name m "Reason")).

Definition decodePRSummary : gostring -> option value -> decoded PRSummary :=
  decodeStruct (Build_PRSummary [] [] [])
    (fun name m =>
       dap (dap (dap (dpure Build_PRSummary)
         (field decodeString name m "Raw"))
         (field decodeString name m "Markup"))
         (field decodeString name m "HTML")).

Definition decodePRMergeCommit : gostring -> option value -> decoded PRMergeCommit :=
  decodeStruct (Build_PRMergeCommit [])
    (fun name m => dap (dpure Build_PRMergeCommit) (field decodeString name m "Hash")).

(** The fields of [PullRequest] in the order of the declaration, each under
    its name or its [mapstructure] tag. *)
Definition decodePullRequestFields (name : gostring) (m : gomap) : decoded PullRequest :=
  dap (dap (dap (dap (dap (dap (dap (dap (dap (dap (dap (dap (dap (dap (dap
  (dap (dap (dap (dap (dap (dap (dpure Build_PullRequest)
    (field decodeString name m "Type"))
    (field decodeInt name m "ID"))
    (field decodeString name m "Title"))
    (field decodePRRendered name m "Rendered"))
    (field decodePRSummary name m "Summary"))
    (field decodeString name m "State"))
    (field decodeMap name m "Author"))
    (field decodeMap name m "Source"))
    (field decodeMap name m "Destination"))
    (field decodePRMergeCommit name m "merge_commit"))
    (field decodeInt name m "comment_count"))
    (field decodeInt name m "task_count"))
    (field decodeBool name m "close_source_branch"))
    (field decodeMap name m "closed_by"))
    (field decodeString name m "Reason"))
    (field decodeTime name m "created_on"))
    (field decodeTime name m "updated_on"))
    (field (decodeSlice decodeMap) name m "Reviewers"))
    (field (decodeSlice decodeMap) name m "Participants"))
    (field decodeBool name m "Draft"))
    (field decodeBool name m "Queued").

(** A [map[string][]string] field: every entry is a slice of strings. *)
Fixpoint decodeStringSlices (name : gostring) (m : gomap)
    : decoded (list (gostring * list gostring)) :=
  match m with
  | [] => ([], [])
  | (k, v) :: m' =>
      let d := decodeSlice decodeString (name ++ str "[" ++ k ++ str "]") (Some v) in
      let ds := decodeStringSlices name m' in
      ((k, fst d) :: fst ds, snd d ++ snd ds)
  end.

Definition decodeStringSliceMap (name : gostring) (input : option value)
    : decoded (list (gostring * list gostring)) :=
  match input with
  | None | Some VNil => ([], [])
  | Some (VMap m) => decodeStringSlices name m
  | Some _ => ([], [name])
  end.

Definition decodeBitbucketErrorFields (name : gostring) (m : gomap)
    : decoded bitbucket.BitbucketError :=
  dap (dap (dpure bitbucket.Build_BitbucketError)
    (field decodeString name m "Message"))
    (field decodeStringSliceMap name m "Fields").

(** [mapstructure.Decode(input, &bitbucketError)] *)
Definition mapstructure_Decode_BitbucketError (input : value)
    : result bitbucket.BitbucketError error :=
  let d := decodeStruct (bitbucket.Build_BitbucketError [] [])
             decodeBitbucketErrorFields [] (Some input) in
  match snd d with
  | [] => Ok (fst d)
  | errs => Err (mapstructure_Error errs)
  end.

(** *** bitbucket.go: the adapter *)

Definition DecodeError (e : gomap) : error :=
  match mapstructure_Decode_BitbucketError (map_index e (str "error")) with
  | Err err => err
  | Ok bitbucketError => errors_New (bitbucket.Message bitbucketError)
  end.

(** [prMap["type"] == "error"] *)
Definition is_string (v : value) (s : gostring) : bool :=
  match v with
  | VStr s' => streq s' s
  | _ => false
  end.

Definition decodePullRequest (response : value) : Prog (result PullRequest error) :=
  prMap <- assert_map response ;;
  if is_string (map_index prMap (str "type")) (str "error")
  then Ret (Err (DecodeError prMap))
  else
    let d := decodePullRequestFields [] prMap in
    match snd d with
    | [] => Ret (Ok (fst d))
    | errs => Ret (Err (mapstructure_Error errs))
    end.

(** The loop of [decodePullRequests] over [prArray]; [prs] is the slice
    built so far. *)
Fixpoint decodePullRequests_loop (prArray : list value) (prs : list PullRequest)
    : Prog (result (list PullRequest) error) :=
  match prArray with
  | [] => Ret (Ok prs)
  | prEntry :: prArray' =>
      r <- decodePullRequest prEntry ;;
      match r with
      | Ok pr => decodePullRequests_loop prArray' (prs ++ [pr])
      | Err err => Ret (Err err)
      end
  end.

Definition decodePullRequests (prsResponse : value) : Prog (result PullRequests error) :=
  match prsResponse with
  | VMap prResponseMap =>
      prArray <- assert_slice (map_index prResponseMap (str "values")) ;;
      r <- decodePullRequests_loop prArray [] ;;
      match r with
      | Err err => Ret (Err err)
      | Ok prs =>
          let page := float64_or_zero (map_index prResponseMap (str "page")) in
          let pagelen := float64_or_zero (map_index prResponseMap (str "pagelen")) in
          let size := float64_or_zero (map_index prResponseMap (str "size")) in
          Ret (Ok {| Size := size; Page := page; Pagelen := pagelen;
                     Next := []; Previous := []; Values := prs |})
      end
  | _ => Ret (Err (errors_New (str "not a valid format")))
  end.

(** *** [slices.SortFunc] with [cmp.Compare]

    The library sorts by pattern-defeating quicksort, which on at most 12
    elements is the insertion sort below: each element in turn is swapped
    leftwards while it compares less than its left neighbour.  [before] is
    the part already sorted, nearest neighbour first.  The model takes that
    insertion sort at every length; on longer slices the library promises the
    same order up to the placement of elements that compare equal. *)

Definition cmp_Compare (x y : Z) : Z :=
  match Z.compare x y with
  | Lt => (-1)%Z
  | Eq => 0%Z
  | Gt => 1%Z
  end.

Fixpoint insert_leftwards {E : Type} (cmp : E -> E -> Z) (x : E) (before : list E) : list E :=
  match before with
  | [] => [x]
  | y :: before' =>
      if Z.ltb (cmp x y) 0 then y :: insert_leftwards cmp x before'
      else x :: before
  end.

Definition SortFunc {E : Type} (data : list E) (cmp : E -> E -> Z) : list E :=
  rev (fold_left (fun before x => insert_leftwards cmp x before) data []).

End Decoder.

(** ** The stages *)

Section Stages.
Context {lib : GoLib}.

(** [fmt.Print], and [fmt.Println] on string operands: the operands
    separated by spaces, then a line feed. *)
Definition Print (text : gostring) : Prog unit := call (fmt_Print text).

Definition Println (operands : list gostring) : Prog unit :=
  Print (Join operands (str " ") ++ LF).

Definition Sleep (milliseconds : Z) : Prog unit := call (time_Sleep milliseconds).

(** *** github.go *)

(** replaces invalid chars in input that are not allowed in Github topics *)
Definition cleanTopic (input : gostring) : gostring :=
  ReplaceAll (ToLower input) (str " ") (str "-").

(** The descriptor [ghRepo] that [createRepo] builds before anything else. *)
Definition createRepo_ghRepo (repo : bitbucket.Repository) (config : settings.t)
    : github.Repository :=
  let visibility :=
    if bitbucket.Is_private repo then settings.visibility config
    else str "public" in
  {| github.Name := bitbucket.Slug repo;
     github.Visibility := visibility;
     github.Description := bitbucket.Description repo;
     github.DefaultBranch := bitbucket.Mainbranch_Name repo;
     github.Language := bitbucket.Language repo;
     github.Organization_Name := settings.ghOrg config;
     github.Topics := [str "migratedFromBitbucket";
                       cleanTopic (bitbucket.Project_Name repo)] |}.

(** The wait for the new repository: [attempts] polls are left, [i] is the
    loop counter. *)
Fixpoint createRepo_wait (attempts : nat) (i : Z) (repo : bitbucket.Repository)
    (config : settings.t) (ghRepo : github.Repository) : Prog github.Repository :=
  match attempts with
  | O => Fatalf (str "Repo has still not been created") []
  | S attempts' =>
      Sleep 200 ;;
      response <- call (gh_Repositories_Get (settings.ghOwner config) (bitbucket.Slug repo)) ;;
      if response : bool then
        Println [str "Repo has been created!"] ;;
        Ret ghRepo
      else
        Print (str "Waiting for repo " ++ bitbucket.Slug repo
               ++ str " to be available on GitHub (attempt " ++ Itoa (i + 1) ++ str ")...") ;;
        Sleep 1000 ;;
        createRepo_wait attempts' (i + 1) repo config ghRepo
  end.

Definition createRepo (repo : bitbucket.Repository) (config : settings.t)
    : Prog github.Repository :=
  let ghRepo := createRepo_ghRepo repo config in
  if settings.dryRun config then Ret ghRepo
  else
    Print (str "Creating repo " ++ settings.ghOwner config ++ str "/"
           ++ bitbucket.Slug repo ++ LF) ;;
    err <- call (gh_Repositories_Create (settings.ghOrg config) ghRepo) ;;
    match err with
    | Some err =>
        if Contains err (str "name already exists on this account") then
          if negb (settings.overwrite config)
          then Fatalf (str "Refusing to overwrite Github repo %s")
                 [a_string (bitbucket.Slug repo)]
          else Ret tt
        else Fatalf (str "failed to create repo %s, error: %s")
               [a_string (bitbucket.Slug repo); a_string err]
    | None => Ret tt
    end ;;
    createRepo_wait 20 0 repo config ghRepo.

Definition updateRepoTopics (githubOwner : gostring) (ghRepo : github.Repository)
    (dryRun : bool) : Prog unit :=
  if dryRun then Println [str "Mock updating repo topics"]
  else
    Print (str "Updating repo " ++ githubOwner ++ str "/" ++ github.Name ghRepo
           ++ str " topics" ++ LF) ;;
    err <- call (gh_Repositories_ReplaceAllTopics githubOwner (github.Name ghRepo)
                   (github.Topics ghRepo)) ;;
    match err with
    | Some err => Fatalf (str "failed to update topics for repo %s, error: %s")
                    [a_string (github.Name ghRepo); a_string err]
    | None => Ret tt
    end.

Definition updateCustomProperties (githubOrg : gostring) (ghRepo : github.Repository)
    (dryRun : bool) (projectName : gostring) : Prog unit :=
  if streq githubOrg [] then Ret tt
  else
    let customProps :=
      [ {| github.PropertyName := str "bitbucket"; github.Value := str "true" |};
        {| github.PropertyName := str "project"; github.Value := cleanTopic projectName |} ] in
    if dryRun then Ret tt
    else
      _ <- call (gh_Repositories_CreateOrUpdateCustomProperties githubOrg
                   (github.Name ghRepo) customProps) ;;
      Ret tt.

Definition updateRepo (githubOwner : gostring) (ghRepo : github.Repository)
    (dryRun : bool) : Prog unit :=
  if dryRun then Println [str "Mock updating repo default branch"]
  else
    Print (str "Updating repo " ++ githubOwner ++ str "/" ++ github.Name ghRepo
           ++ str " default branch" ++ LF) ;;
    err <- call (gh_Repositories_Edit githubOwner (github.Name ghRepo) ghRepo) ;;
    match err with
    | Some err => Fatalf (str "failed to update repo %s, error: %s")
                    [a_string (github.Name ghRepo); a_string err]
    | None => Ret tt
    end.

(** cleans pr summary to nicely display in Github *)
Definition cleanBitbucketPRSummary (prSummary : gostring) : gostring :=
  let prSummary := ReplaceAll prSummary (str "{: data-inline-card='' }") [] in
  let prSummary := ReplaceAll prSummary [8204%N] [] in
  prSummary.

(** The request for one open pull request: what an iteration of
    [migrateOpenPrs] computes before it looks at [dryRun].  The two type
    assertions panic on a record without the keys they read.  The operands of
    [fmt.Sprintf] are taken from left to right: the assertion on the author,
    then the reading of the clock. *)
Definition migrateOpenPrs_request (ghRepo : github.Repository) (pr : PullRequest)
    : Prog github.NewPullRequest :=
  let prID := Itoa (ID pr) in
  let prSummary := cleanBitbucketPRSummary (Raw (Summary pr)) in
  author <- assert_string (map_index (Author pr) (str "display_name")) ;;
  now <- call time_Now ;;
  let text :=
    str "PR originally created by " ++ author ++ str " on " ++ time_String (CreatedOn pr)
    ++ str ". Migrated from bitbucket on " ++ time_Format RFC3339Nano now
    ++ LF ++ LF ++ str "---" ++ LF ++ prSummary in
  let title := str "Historical Bitbucket PR #" ++ prID ++ str ": " ++ Title pr in
  source_branch <- assert_map (map_index (Source pr) (str "branch")) ;;
  branch <- assert_string (map_index source_branch (str "name")) ;;
  Ret {| github.Title := title;
         github.Body := text;
         github.Head := branch;
         github.Base := github.DefaultBranch ghRepo;
         github.Draft := Draft pr |}.

(** The [range] of [migrateOpenPrs] over [prs.Values]. *)
Fixpoint migrateOpenPrs_range (githubOwner : gostring) (ghRepo : github.Repository)
    (dryRun : bool) (values : list PullRequest) : Prog unit :=
  match values with
  | [] => Ret tt
  | pr :: values' =>
      if negb (streq (State pr) (str "OPEN"))
      then migrateOpenPrs_range githubOwner ghRepo dryRun values'
      else
        let prID := Itoa (ID pr) in
        gh_pr <- migrateOpenPrs_request ghRepo pr ;;
        if dryRun then Ret tt
        else
          r <- call (gh_PullRequests_Create githubOwner (github.Name ghRepo) gh_pr) ;;
          match r with
          | Err err =>
              if Contains err (str "A pull request already exists") then
                Print (str "Skipping PR creation for PR " ++ prID
                       ++ str ", PR already exists" ++ LF)
              else if Contains err
                   (str "422 Validation Failed [{Resource:PullRequest Field:head Code:invalid Message:}]")
              then
                Print (str "Could not make PR " ++ prID ++ str ", originating branch "
                       ++ github.Head gh_pr ++ str " likely no longer exists" ++ LF)
              else
                Fatalf (str "failed to create PR %s, error: %s") [a_string prID; a_string err]
          | Ok newPr =>
              match github.PR_Number newPr with
              | Some number =>
                  Print (str "Migrated BB PR " ++ prID ++ str " as GH PR "
                         ++ Itoa number ++ LF)
              | None => Panic
              end
          end ;;
          Sleep GitHubRateLimitSleep ;;
          migrateOpenPrs_range githubOwner ghRepo dryRun values'
  end.

(** migrate open pull requests *)
Definition migrateOpenPrs (githubOwner : gostring) (ghRepo : github.Repository)
    (prs : PullRequests) (dryRun : bool) : Prog unit :=
  migrateOpenPrs_range githubOwner ghRepo dryRun (Values prs).

(** The issue for one merged pull request: what an iteration of
    [createClosedPrs] computes before it looks at [dryRun]. *)
Definition createClosedPrs_request (pr : PullRequest) : Prog github.IssueRequest :=
  author <- assert_string (map_index (Author pr) (str "display_name")) ;;
  let prSummary := cleanBitbucketPRSummary (Raw (Summary pr)) in
  source_branch <- assert_map (map_index (Source pr) (str "branch")) ;;
  branch <- assert_string (map_index source_branch (str "name")) ;;
  mergedBy <- assert_string (map_index (ClosedBy pr) (str "display_name")) ;;
  let creationTime := time_Format DateTime (CreatedOn pr) in
  let title := str "Historical Bitbucket PR #" ++ Itoa (ID pr) ++ str ": " ++ Title pr in
  let text :=
    str "**Bitbucket PR created from branch " ++ branch ++ str " on " ++ creationTime
    ++ str " by " ++ author ++ str ". Merged by " ++ mergedBy ++ str "**"
    ++ LF ++ LF ++ str "---" ++ LF ++ prSummary in
  Ret {| github.Issue_Title := title;
         github.Issue_Body := text;
         github.Labels := [str "bitbucketPR"];
         github.State := str "closed" |}.

(** The [range] of [createClosedPrs] over [prs.Values]. *)
Fixpoint createClosedPrs_range (githubOwner : gostring) (ghRepo : github.Repository)
    (dryRun : bool) (values : list PullRequest) : Prog unit :=
  match values with
  | [] => Ret tt
  | pr :: values' =>
      if negb (streq (State pr) (str "MERGED"))
      then createClosedPrs_range githubOwner ghRepo dryRun values'
      else
        issue <- createClosedPrs_request pr ;;
        if dryRun then Ret tt
        else
          Print (str "Updating issue for PR " ++ Itoa (ID pr) ++ LF) ;;
          r <- call (gh_Issues_Create githubOwner (github.Name ghRepo) issue) ;;
          match r with
          | Err err =>
              Fatalf (str "failed to create issue for PR %d, error: %s")
                [a_int (ID pr); a_string err]
          | Ok issueResponse =>
              let commitHash := Hash (MergeCommit pr) in
              match github.Number issueResponse with
              | None => Panic
              | Some number =>
                  let comment := str "Bitbucket PR details: #" ++ Itoa number in
                  err <- call (gh_Repositories_CreateComment githubOwner
                                 (github.Name ghRepo) commitHash comment) ;;
                  match err with
                  | Some err =>
                      Fatalf (str "failed to comment on commit %s: %s")
                        [a_string commitHash; a_string err]
                  | None => Ret tt
                  end ;;
                  (* we can't create a closed issue directly so we have to
                     edit the issue to close it *)
                  err <- call (gh_Issues_Edit githubOwner (github.Name ghRepo)
                                 number issue) ;;
                  match err with
                  | Some err =>
                      match github.URL issueResponse with
                      | Some url =>
                          Fatalf (str "failed to close issue %s: %s")
                            [a_string url; a_string err]
                      | None => Panic
                      end
                  | None => Ret tt
                  end ;;
                  Sleep GitHubRateLimitSleep ;;
                  createClosedPrs_range githubOwner ghRepo dryRun values'
              end
          end
  end.

(** create pull requests *)
Definition createClosedPrs (githubOwner : gostring) (ghRepo : github.Repository)
    (prs : PullRequests) (dryRun : bool) : Prog unit :=
  createClosedPrs_range githubOwner ghRepo dryRun (Values prs).

Definition runProgram (repoFolder program : gostring)
    : Prog (gostring * option errtext) :=
  if negb (streq program (str "noop"))
  then call (exec_program program repoFolder)
  else Ret ([], None).

(** pushes all repo branches&tags to Github with --mirror option. *)
Definition pushRepoToGithub (repoFolder repoName : gostring) (config : settings.t)
    : Prog unit :=
  let newOrigin := str "newOrigin" in
  r <- call (git_remote_add repoFolder newOrigin
               (str "https://github.com/" ++ settings.ghOwner config ++ str "/"
                ++ repoName ++ str ".git")) ;;
  let (output, err) := r : gostring * option errtext in
  Print output ;;
  match err with
  | Some err =>
      Fatalf (str "Failed to add new git origin: %s" ++ LF ++ str "Output: %s")
        [a_string err; a_string output]
  | None => Ret tt
  end ;;
  r <- runProgram repoFolder (settings.runProgram config) ;;
  let (output, err) := r : gostring * option errtext in
  Print output ;;
  match err with
  | Some err =>
      Fatalf (str "Failed to run custom program %s. err: %s")
        [a_string (settings.runProgram config); a_string err]
  | None => Ret tt
  end ;;
  if settings.dryRun config then Ret tt
  else
    Println [str "Pushing repo"; repoName; str "to github"] ;;
    r <- call (git_push_mirror repoFolder newOrigin) ;;
    let (output, err) := r : gostring * option errtext in
    match err with
    | Some err =>
        Fatalf (str "Failed to push: %s" ++ LF ++ str "Output: %s")
          [a_string err; a_string output]
    | None => Ret tt
    end ;;
    Print output.

(** *** bitbucket.go *)

Definition getRepo (owner repoName : gostring) : Prog bitbucket.Repository :=
  let ro := {| bitbucket.Owner := owner; bitbucket.RepoSlug := repoName |} in
  r <- call (bb_Repository_Get ro) ;;
  match r with
  | Err err => Fatalf (str "Failed to get repo from bitbucket: %v") [a_string err]
  | Ok repo => Ret repo
  end.

(** clones repo to a temp folder *)
Definition cloneRepo (repo : gostring) (config : settings.t) : Prog gostring :=
  r <- call (os_MkdirTemp (settings.bbWorkspace config ++ str "-" ++ repo ++ str "-*")) ;;
  match r with
  | Err err => Fatalf (str "Failed to create temp directory: %s") [a_string err]
  | Ok tempDir =>
      let cloneURL :=
        if streq (ToLower (settings.cloneVia config)) (str "ssh")
        then str "git@bitbucket.org:" ++ settings.bbWorkspace config ++ str "/"
             ++ repo ++ str ".git"
        else str "https://bitbucket.org/" ++ settings.bbWorkspace config ++ str "/"
             ++ repo ++ str ".git" in
      Print (str "Cloning repository " ++ repo ++ str " to " ++ tempDir ++ LF) ;;
      r <- call (git_clone_mirror cloneURL tempDir) ;;
      let (output, err) := r : gostring * option errtext in
      match err with
      | Some err =>
          Fatalf (str "Failed to clone repository: %s" ++ LF ++ str "Output: %s")
            [a_string err; a_string output]
      | None => Ret tt
      end ;;
      Println [output] ;;
      Ret tempDir
  end.

(** [apiWaitTime], in milliseconds. *)
Definition apiWaitTime : Z := 16.

Fixpoint updatePermissionsToReadOnly_users (owner repoName : gostring)
    (user_perms : list bitbucket.User) : Prog unit :=
  match user_perms with
  | [] => Ret tt
  | user :: user_perms' =>
      let permOpts :=
        {| bitbucket.UserPerm_Owner := owner;
           bitbucket.UserPerm_RepoSlug := repoName;
           bitbucket.UserPerm_User := bitbucket.AccountId user;
           bitbucket.UserPerm_Permission := str "read" |} in
      err <- call (bb_SetUserPermissions permOpts) ;;
      match err with
      | Some err =>
          Fatalf (str "Failed to update user permission for %s: %v")
            [a_string (bitbucket.Username user); a_string err]
      | None => Ret tt
      end ;;
      Sleep apiWaitTime ;;
      updatePermissionsToReadOnly_users owner repoName user_perms'
  end.

Fixpoint updatePermissionsToReadOnly_groups (owner repoName : gostring)
    (group_perms : list gostring) : Prog unit :=
  match group_perms with
  | [] => Ret tt
  | groupSlug :: group_perms' =>
      let permOpts :=
        {| bitbucket.GroupPerm_Owner := owner;
           bitbucket.GroupPerm_RepoSlug := repoName;
           bitbucket.GroupPerm_Group := groupSlug;
           bitbucket.GroupPerm_Permission := str "read" |} in
      err <- call (bb_SetGroupPermissions permOpts) ;;
      match err with
      | Some err =>
          Fatalf (str "Failed to update group permission for %s: %v")
            [a_string groupSlug; a_string err]
      | None => Ret tt
      end ;;
      Sleep apiWaitTime ;;
      updatePermissionsToReadOnly_groups owner repoName group_perms'
  end.

Definition updatePermissionsToReadOnly (owner repoName : gostring) (dryRun : bool)
    : Prog unit :=
  let ro := {| bitbucket.Owner := owner; bitbucket.RepoSlug := repoName |} in
  r <- call (bb_ListUserPermissions ro) ;;
  match r with
  | Err err => Fatalf (str "Failed to get user permissions: %v") [a_string err]
  | Ok user_perms =>
      r <- call (bb_ListGroupPermissions ro) ;;
      match r with
      | Err err => Fatalf (str "Failed to get group permissions: %v") [a_string err]
      | Ok group_perms =>
          if dryRun then Ret tt
          else
            updatePermissionsToReadOnly_users owner repoName user_perms ;;
            updatePermissionsToReadOnly_groups owner repoName group_perms
      end
  end.

Definition getPrs (owner repo destinationBranch : gostring) : Prog PullRequests :=
  let opt :=
    {| bitbucket.PRs_Owner := owner;
       bitbucket.PRs_RepoSlug := repo;
       bitbucket.DestinationBranch := destinationBranch;
       bitbucket.Query := str "state IN (" ++ DQ ++ str "MERGED" ++ DQ ++ str ", "
                          ++ DQ ++ str "OPEN" ++ DQ ++ str ")" |} in
  Println [str "getting prs for"; repo] ;;
  r <- call (bb_PullRequests_Gets opt) ;;
  match r with
  | Err err => Fatalf (str "Failed to get PRs: %v") [a_string err]
  | Ok response =>
      r <- decodePullRequests response ;;
      match r with
      | Err err => Fatalf (str "Error decoding PRs: %v") [a_error err]
      | Ok prs =>
          Ret {| Size := Size prs; Page := Page prs; Pagelen := Pagelen prs;
                 Next := Next prs; Previous := Previous prs;
                 Values := SortFunc (Values prs)
                             (fun i j => cmp_Compare (ID i) (ID j)) |}
      end
  end.

(** *** main.go *)

Definition migrateRepo (repoName : gostring) (config : settings.t) : Prog unit :=
  Println [str "Getting bitbucket settings for"; repoName] ;;
  bbRepo <- getRepo (settings.bbWorkspace config) repoName ;;
  (if settings.revokeOldPerms config then
     Println [str "revoking old bitbucket permissions to prevent accidental writes"] ;;
     updatePermissionsToReadOnly (settings.bbWorkspace config) repoName
       (settings.dryRun config)
   else Println [str "skipping revoking old bitbucket permissions"]) ;;
  repoFolder <- (if settings.migrateRepoContents config
                 then cloneRepo repoName config
                 else Ret []) ;;
  prs <- (if settings.migrateOpenPrs config || settings.migrateClosedPrs config
          then
            prs <- getPrs (settings.bbWorkspace config) repoName
                     (bitbucket.Mainbranch_Name bbRepo) ;;
            Ret (Some prs)
          else Ret None) ;;
  Println [str "Migrating to Github"] ;;
  ghRepo <- createRepo bbRepo config ;;
  (if settings.migrateRepoContents config
   then pushRepoToGithub repoFolder repoName config
   else Println [str "Skipping repo contents"]) ;;
  (if settings.migrateRepoSettings config then
     updateRepo (settings.ghOwner config) ghRepo (settings.dryRun config) ;;
     updateRepoTopics (settings.ghOwner config) ghRepo (settings.dryRun config) ;;
     updateCustomProperties (settings.ghOwner config) ghRepo (settings.dryRun config)
       (bitbucket.Project_Name bbRepo)
   else Println [str "Skipping repo settings"]) ;;
  (if settings.migrateOpenPrs config then
     match prs with
     | Some prs => migrateOpenPrs (settings.ghOwner config) ghRepo prs
                     (settings.dryRun config)
     | None => Panic
     end
   else Println [str "Skipping open PR's"]) ;;
  (if settings.migrateClosedPrs config then
     match prs with
     | Some prs => createClosedPrs (settings.ghOwner config) ghRepo prs
                     (settings.dryRun config)
     | None => Panic
     end
   else Println [str "Skipping closed PR's"]) ;;
  Println [str "done migrating repo"] ;;
  Print (str "-----------------------" ++ LF ++ LF) ;;
  Sleep GitHubRateLimitSleep.

Fixpoint migrateRepos_range (repoList : list gostring) (config : settings.t) : Prog unit :=
  match repoList with
  | [] => Ret tt
  | repo :: repoList' =>
      migrateRepo repo config ;;
      migrateRepos_range repoList' config
  end.

Definition migrateRepos (repoList : list gostring) (config : settings.t) : Prog unit :=
  (if settings.dryRun config
   then Println [str "Dry Run - not actually migrating anything"]
   else Ret tt) ;;
  migrateRepos_range repoList config.

End Stages.

(** ** Runs

    An environment answers every call, knowing the calls made so far.  A
    run threads the history of calls through the program. *)

Section Runs.
Context {lib : GoLib}.

Inductive Event : Type :=
| Called {R : Type} (c : Call R).

Definition Env : Type := forall R : Type, list Event -> Call R -> R.

Inductive Outcome (A : Type) : Type :=
| Returned (a : A)
| Exited (format : gostring) (args : list operand)
| Panicked.
Arguments Returned {A} a.
Arguments Exited {A} format args.
Arguments Panicked {A}.

Fixpoint run {A : Type} (env : Env) (p : Prog A) (history : list Event)
    : list Event * Outcome A :=
  match p with
  | Ret a => (history, Returned a)
  | Fatalf format args => (history, Exited format args)
  | Panic => (history, Panicked)
  | Do c k => run env (k (env _ history c)) (history ++ [Called c])
  end.

(** The calls that change something at Bitbucket or at GitHub. *)
Definition mutating {R : Type} (c : Call R) : bool :=
  match c with
  | bb_SetUserPermissions _ | bb_SetGroupPermissions _
  | gh_Repositories_Create _ _
  | gh_Repositories_ReplaceAllTopics _ _ _
  | gh_Repositories_CreateOrUpdateCustomProperties _ _ _
  | gh_Repositories_Edit _ _ _
  | gh_PullRequests_Create _ _ _
  | gh_Issues_Create _ _ _
  | gh_Repositories_CreateComment _ _ _ _
  | gh_Issues_Edit _ _ _ _
  | git_push_mirror _ _ => true
  | _ => false
  end.

Definition is_custom_properties {R : Type} (c : Call R) : bool :=
  match c with
  | gh_Repositories_CreateOrUpdateCustomProperties _ _ _ => true
  | _ => false
  end.

Definition event_is (P : forall R : Type, Call R -> bool) (e : Event) : bool :=
  match e with
  | Called c => P _ c
  end.

(** Every call the program can make, whatever the answers, satisfies [P]. *)
Inductive Forall_calls (P : forall R : Type, Call R -> bool) {A : Type} : Prog A -> Prop :=
| Forall_calls_Ret : forall a, Forall_calls P (Ret a)
| Forall_calls_Fatalf : forall format args, Forall_calls P (Fatalf format args)
| Forall_calls_Panic : Forall_calls P Panic
| Forall_calls_Do : forall (R : Type) (c : Call R) (k : R -> Prog A),
    P R c = true ->
    (forall r, Forall_calls P (k r)) ->
    Forall_calls P (Do c k).

(** The program never looks at the answer of a custom-property call: what
    it does after such a call is the same for all answers. *)
Inductive Ignores_custom_properties {A : Type} : Prog A -> Prop :=
| Ignores_Ret : forall a, Ignores_custom_properties (Ret a)
| Ignores_Fatalf : forall format args, Ignores_custom_properties (Fatalf format args)
| Ignores_Panic : Ignores_custom_properties Panic
| Ignores_Do : forall (R : Type) (c : Call R) (k : R -> Prog A),
    (is_custom_properties c = true -> forall r r', k r = k r') ->
    (forall r, Ignores_custom_properties (k r)) ->
    Ignores_custom_properties (Do c k).

(** Two environments that answer every call alike, except perhaps the
    custom-property calls. *)
Definition same_but_custom_properties (env1 env2 : Env) : Prop :=
  forall (R : Type) (history : list Event) (c : Call R),
    is_custom_properties c = false -> env1 R history c = env2 R history c.

(** The failures of [gh.PullRequests.Create] that [migrateOpenPrs] skips. *)
Definition open_pr_skippable (err : errtext) : bool :=
  Contains err (str "A pull request already exists")
  || Contains err
       (str "422 Validation Failed [{Resource:PullRequest Field:head Code:invalid Message:}]").

Definition is_open (pr : PullRequest) : bool := streq (State pr) (str "OPEN").
Definition is_merged (pr : PullRequest) : bool := streq (State pr) (str "MERGED").

End Runs.

Arguments Returned {A} a.
Arguments Exited {A} format args.
Arguments Panicked {A}.

(** ** A concrete setting

    For closed examples: a number out of range converted as on amd64 (the
    least integer), ASCII text, a time kept as the text it was parsed
    from (a text is taken when it has digits where the layout has the digits
    of a date and of a time of day, and the rest of the layout as it stands;
    ranges are not checked), one private repository with an open and a merged
    pull request. *)

Definition ascii_ToLower (s : gostring) : gostring :=
  map (fun r => if N.leb 65 r && N.leb r 90 then (r + 32)%N else r) s.

Definition is_digit (r : rune) : bool := N.leb 48 r && N.leb r 57.

Fixpoint layout_shape (layout s : gostring) : bool :=
  match layout, s with
  | [], [] => true
  | l :: layout', c :: s' =>
      (if is_digit l then is_digit c else N.eqb l c) && layout_shape layout' s'
  | _, _ => false
  end.

#[export] Instance ascii_lib : GoLib := {|
  int_out_of_range := fun _ => (- 2 ^ 63)%Z;
  unicode_ToLower := fun r => r;
  EqualFold := fun s t => streq (ascii_ToLower s) (ascii_ToLower t);
  Time := gostring;
  time_zero := str "0001-01-01 00:00:00 +0000 UTC";
  time_Parse := fun s =>
    if layout_shape (str "2006-01-02T15:04:05.000000") (firstn 26 s)
       && streq (skipn 26 s) (str "+00:00")
    then Some s else None;
  time_String := fun t => t;
  time_Format := fun _ t => t
|}.

Definition demo_repository : bitbucket.Repository :=
  {| bitbucket.Slug := str "demo";
     bitbucket.Is_private := true;
     bitbucket.Description := str "a demonstration";
     bitbucket.Mainbranch_Name := str "main";
     bitbucket.Language := str "go";
     bitbucket.Project_Name := str "My Project" |}.

Definition demo_open_entry : value :=
  VMap [ (str "type", VStr (str "pullrequest"));
         (str "id", VNum 12);
         (str "title", VStr (str "Add parser"));
         (str "state", VStr (str "OPEN"));
         (str "author", VMap [(str "display_name", VStr (str "Ada"))]);
         (str "source", VMap [(str "branch", VMap [(str "name", VStr (str "feature"))])]);
         (str "summary", VMap [(str "raw", VStr (str "adds the parser"))]);
         (str "created_on", VStr (str "2024-01-15T10:30:00.000000+00:00"));
         (str "draft", VBool false) ].

Definition demo_merged_entry : value :=
  VMap [ (str "type", VStr (str "pullrequest"));
         (str "id", VNum 7);
         (str "title", VStr (str "Fix typo"));
         (str "state", VStr (str "MERGED"));
         (str "author", VMap [(str "display_name", VStr (str "Bob"))]);
         (str "source", VMap [(str "branch", VMap [(str "name", VStr (str "typo"))])]);
         (str "closed_by", VMap [(str "display_name", VStr (str "Ada"))]);
         (str "merge_commit", VMap [(str "hash", VStr (str "abc123"))]);
         (str "summary", VMap [(str "raw", VStr (str "fixes a typo"))]);
         (str "created_on", VStr (str "2023-11-02T08:00:00.000000+00:00")) ].

Definition demo_response : value :=
  VMap [ (str "values", VList [demo_open_entry; demo_merged_entry]);
         (str "page", VNum 1);
         (str "pagelen", VNum 10);
         (str "size", VNum 2) ].

(** An environment in which Bitbucket serves [prs_response] and GitHub
    answers the creation of a pull request with [pr_create] and the
    custom-property update with [custom_properties]; every other call
    succeeds. *)
Definition demo_env (prs_response : value)
    (pr_create : result github.PullRequest errtext)
    (custom_properties : option errtext) : Env :=
  fun R _ c =>
    match c in Call R return R with
    | bb_Repository_Get _ => Ok demo_repository
    | bb_ListUserPermissions _ =>
        Ok [ {| bitbucket.AccountId := str "u-1"; bitbucket.Username := str "ada" |} ]
    | bb_ListGroupPermissions _ => Ok [str "developers"]
    | bb_SetUserPermissions _ => None
    | bb_SetGroupPermissions _ => None
    | bb_PullRequests_Gets _ => Ok prs_response
    | gh_Repositories_Create _ _ => None
    | gh_Repositories_Get _ _ => true
    | gh_Repositories_ReplaceAllTopics _ _ _ => None
    | gh_Repositories_CreateOrUpdateCustomProperties _ _ _ => custom_properties
    | gh_Repositories_Edit _ _ _ => None
    | gh_PullRequests_Create _ _ _ => pr_create
    | gh_Issues_Create _ _ _ =>
        Ok {| github.Number := Some 3%Z;
              github.URL := Some (str "https://github.com/acme/demo/issues/3") |}
    | gh_Repositories_CreateComment _ _ _ _ => None
    | gh_Issues_Edit _ _ _ _ => None
    | os_MkdirTemp _ => Ok (str "/tmp/acme-demo-1")
    | git_clone_mirror _ _ => ([], None)
    | git_remote_add _ _ _ => ([], None)
    | exec_program _ _ => ([], None)
    | git_push_mirror _ _ => ([], None)
    | time_Now => str "2024-02-01T00:00:00Z"
    | time_Sleep _ => tt
    | fmt_Print _ => tt
    end.

Definition demo_config (dryRun : bool) : settings.t :=
  {| settings.bbWorkspace := str "acme";
     settings.bbUsername := str "migrator";
     settings.bbPassword := str "secret";
     settings.revokeOldPerms := true;
     settings.cloneVia := str "ssh";
     settings.ghOrg := str "acme";
     settings.ghUser := [];
     settings.ghOwner := str "acme";
     settings.ghToken := str "token";
     settings.dryRun := dryRun;
     settings.overwrite := false;
     settings.visibility := str "internal";
     settings.runProgram := str "noop";
     settings.repoFile := str "repos.txt";
     settings.migrateRepoContents := true;
     settings.migrateRepoSettings := true;
     settings.migrateOpenPrs := true;
     settings.migrateClosedPrs := true |}.

(** The test of the repository, [TestParseRepos]. *)
Definition tab : string := String (ascii_of_nat 9) EmptyString.
Definition nl : string := String (ascii_of_nat 10) EmptyString.

Definition TestParseRepos_file : gostring :=
  str (" repo1 " ++ nl ++ tab ++ nl ++
       tab ++ "repo2" ++ nl ++
       tab ++ "repo/With+Invalid&Chars" ++ nl ++
       tab ++ "#commented out repo" ++ nl ++
       tab ++ "repo(4)" ++ nl ++ tab)%string.

(** ** Vocabulary of the properties *)

(** The characters that [parseRepos] replaces by a hyphen. *)
Definition replaced_chars : gostring := str " /+&()".

(** The characters GitHub keeps in a repository name: ASCII letters,
    digits, and the characters [.], [-] and [_]. *)
Definition github_name_char (c : rune) : bool :=
  (N.leb 48 c && N.leb c 57) || (N.leb 65 c && N.leb c 90)
  || (N.leb 97 c && N.leb c 122) || mem c (str ".-_").

(** The six replacements of [parseRepos] taken together. *)
Definition hyphenate (s : gostring) : gostring :=
  map (fun c => if mem c replaced_chars then 45%N else c) s.

Definition emitted (line : gostring) : list gostring :=
  match cleanRepo line with
  | Some repo => [repo]
  | None => []
  end.

(** The two properties of calls that the dry run and the custom-property
    update are about. *)
Definition not_mutating {lib : GoLib} : forall R : Type, Call R -> bool :=
  fun R c => negb (mutating c).

Definition not_custom_properties {lib : GoLib} : forall R : Type, Call R -> bool :=
  fun R c => negb (is_custom_properties c).

(** Every value the program can return, whatever the answers, satisfies
    [Q]. *)
Inductive Returns_only {lib : GoLib} {A : Type} (Q : A -> Prop) : Prog A -> Prop :=
| Returns_only_Ret : forall a, Q a -> Returns_only Q (Ret a)
| Returns_only_Fatalf : forall format args, Returns_only Q (Fatalf format args)
| Returns_only_Panic : Returns_only Q Panic
| Returns_only_Do : forall (R : Type) (c : Call R) (k : R -> Prog A),
    (forall r, Returns_only Q (k r)) ->
    Returns_only Q (Do c k).

(** The records of the concrete setting, as [decodePullRequest] makes them. *)
Definition decoded_entry (entry : value) : PullRequest :=
  match decodePullRequest entry with
  | Ret (Ok pr) => pr
  | _ => fst (decodePullRequestFields [] [])
  end.

Definition demo_open_pr : PullRequest := decoded_entry demo_open_entry.
Definition demo_merged_pr : PullRequest := decoded_entry demo_merged_entry.

Definition demo_ghRepo : github.Repository :=
  createRepo_ghRepo demo_repository (demo_config false).

(** A failure of the creation of a pull request that the open-PR pass
    skips, as GitHub words it. *)
Definition already_exists : errtext :=
  str "422 Validation Failed [{Resource:PullRequest Field: Code:custom Message:A pull request already exists for acme:feature.}]".

(** A response of Bitbucket with one open pull request whose author
    mapping has no [display_name]. *)
Definition keyless_entry : value :=
  VMap [ (str "type", VStr (str "pullrequest"));
         (str "id", VNum 5);
         (str "title", VStr (str "Anonymous change"));
         (str "state", VStr (str "OPEN"));
         (str "author", VMap [(str "nickname", VStr (str "ghost"))]);
         (str "source", VMap [(str "branch", VMap [(str "name", VStr (str "patch"))])]) ].

Definition keyless_response : value :=
  VMap [ (str "values", VList [keyless_entry]) ].

(** The same entry with the key the passes read from the author. *)
Definition named_entry : value :=
  VMap [ (str "type", VStr (str "pullrequest"));
         (str "id", VNum 5);
         (str "title", VStr (str "Anonymous change"));
         (str "state", VStr (str "OPEN"));
         (str "author", VMap [(str "display_name", VStr (str "Ghost"))]);
         (str "source", VMap [(str "branch", VMap [(str "name", VStr (str "patch"))])]) ].

(** The fields of [PullRequest] other than [Author] and [Source], each under
    the name the decoder looks it up by. *)
Definition other_fields : list gostring :=
  map str ["Type"; "ID"; "Title"; "Rendered"; "Summary"; "State"; "Destination";
           "merge_commit"; "comment_count"; "task_count"; "close_source_branch";
           "closed_by"; "Reason"; "created_on"; "updated_on"; "Reviewers";
           "Participants"; "Draft"; "Queued"]%string.

(** Two entries with an author mapping and a source mapping each, which
    differ at most in what these two mappings hold. *)
Definition same_but_author_and_source {lib : GoLib} (m m' : gomap) : Prop :=
  map_index m (str "type") = map_index m' (str "type") /\
  Forall (fun name => field_lookup m name = field_lookup m' name) other_fields /\
  (exists a a', field_lookup m (str "Author") = Some (VMap a) /\
                field_lookup m' (str "Author") = Some (VMap a')) /\
  (exists s s', field_lookup m (str "Source") = Some (VMap s) /\
                field_lookup m' (str "Source") = Some (VMap s')).

(** The keys that both passes read from a record with unchecked type
    assertions: the [display_name] of the author, a string; the [branch] of
    the source, a mapping, and its [name], a string. *)
Definition has_display_name {lib : GoLib} (pr : PullRequest) : bool :=
  match map_index (Author pr) (str "display_name") with
  | VStr _ => true
  | _ => false
  end.

Definition has_branch_name {lib : GoLib} (pr : PullRequest) : bool :=
  match map_index (Source pr) (str "branch") with
  | VMap branch =>
      match map_index branch (str "name") with
      | VStr _ => true
      | _ => false
      end
  | _ => false
  end.

(** The comparison that [getPrs] hands to [slices.SortFunc], for any key. *)
Definition by_key {E : Type} (key : E -> Z) (i j : E) : Z :=
  cmp_Compare (key i) (key j).

(** A slice in non-decreasing order of [key]. *)
Definition non_decreasing {E : Type} (key : E -> Z) (l : list E) : Prop :=
  StronglySorted (fun a b => (key a <= key b)%Z) l.

(** ** main.go: start-up

    The part of [main] that runs before the migration reads the environment
    and the list of repositories.  The environment is given by [Getenv], the
    value of [os.Getenv] once [godotenv.Load] has run; [godotenv_Load] is the
    error of that load, and [ReadFile] stands for [os.ReadFile]. *)

(** [strconv.ParseBool] *)
Definition ParseBool (s : gostring) : option bool :=
  if existsb (streq s) (map str ["1"; "t"; "T"; "TRUE"; "true"; "True"]%string)
  then Some true
  else if existsb (streq s) (map str ["0"; "f"; "F"; "FALSE"; "false"; "False"]%string)
  then Some false
  else None.

(** How start-up ends: it goes on with a value, or stops the process through
    [os.Exit] after printing a line, or through [log.Fatalf]. *)
Inductive Startup (A : Type) : Type :=
| Started (a : A)
| os_Exit (code : Z) (printed : gostring)
| log_Fatalf (format : gostring) (args : list operand).
Arguments Started {A} a.
Arguments os_Exit {A} code printed.
Arguments log_Fatalf {A} format args.

Definition startup_bind {A B : Type} (s : Startup A) (f : A -> Startup B) : Startup B :=
  match s with
  | Started a => f a
  | os_Exit code printed => os_Exit code printed
  | log_Fatalf format args => log_Fatalf format args
  end.

(** returns defaultVal if envVar is not present or empty *)
Definition getEnvOrDefault (Getenv : gostring -> gostring) (envVar defaultVal : gostring)
    : gostring :=
  let result := Getenv envVar in
  if streq result [] then defaultVal else result.

Definition getEnvVarAsBool (Getenv : gostring -> gostring) (envVar : gostring)
    : Startup bool :=
  match ParseBool (Getenv envVar) with
  | Some result => Started result
  | None =>
      os_Exit 2 (Join [str "could not parse bool env var "; envVar] (str " ") ++ LF)
  end.

(** [main] up to the assignment of [config.ghOwner]: the configuration, or
    the way the process stops. *)
Definition main_config (godotenv_Load : option errtext) (Getenv : gostring -> gostring)
    : Startup settings.t :=
  match godotenv_Load with
  | Some _ => log_Fatalf (str "Error loading .env file") []
  | None =>
      startup_bind (getEnvVarAsBool Getenv (str "BITBUCKET_REVOKEOLDPERMS")) (fun revokeOldPerms =>
      startup_bind (getEnvVarAsBool Getenv (str "GITHUB_DRYRUN")) (fun dryRun =>
      startup_bind (getEnvVarAsBool Getenv (str "GITHUB_OVERWRITE")) (fun overwrite =>
      startup_bind (getEnvVarAsBool Getenv (str "MIGRATE_REPO_CONTENTS")) (fun migrateRepoContents =>
      startup_bind (getEnvVarAsBool Getenv (str "MIGRATE_REPO_SETTINGS")) (fun migrateRepoSettings =>
      startup_bind (getEnvVarAsBool Getenv (str "MIGRATE_OPEN_PRS")) (fun migrateOpenPrs =>
      startup_bind (getEnvVarAsBool Getenv (str "MIGRATE_CLOSED_PRS")) (fun migrateClosedPrs =>
      let config :=
        {| settings.bbWorkspace := Getenv (str "BITBUCKET_WORKSPACE");
           settings.bbUsername := Getenv (str "BITBUCKET_USER");
           settings.bbPassword := Getenv (str "BITBUCKET_TOKEN");
           settings.revokeOldPerms := revokeOldPerms;
           settings.cloneVia := Getenv (str "CLONE_VIA");
           settings.ghOrg := Getenv (str "GITHUB_ORG");
           settings.ghUser := Getenv (str "GITHUB_USER");
           settings.ghOwner := [];
           settings.ghToken := Getenv (str "GITHUB_TOKEN");
           settings.dryRun := dryRun;
           settings.overwrite := overwrite;
           settings.visibility :=
             getEnvOrDefault Getenv (str "GITHUB_PRIVATE_VISIBILITY") (str "internal");
           settings.runProgram :=
             getEnvOrDefault Getenv (str "GITHUB_RUN_PROGRAM") (str "noop");
           settings.repoFile := Getenv (str "REPO_FILE");
           settings.migrateRepoContents := migrateRepoContents;
           settings.migrateRepoSettings := migrateRepoSettings;
           settings.migrateOpenPrs := migrateOpenPrs;
           settings.migrateClosedPrs := migrateClosedPrs |} in
      if streq (settings.bbWorkspace config) [] || streq (settings.bbUsername config) []
         || streq (settings.bbPassword config) []
      then os_Exit 2
             (str "BITBUCKET_WORKSPACE or BITBUCKET_USER or BITBUCKET_TOKEN not set in .env file or env vars"
              ++ LF)
      else if streq (settings.ghToken config) []
      then os_Exit 2 (str "GITHUB_TOKEN not set in .env file or env vars" ++ LF)
      else if (streq (settings.ghUser config) [] && streq (settings.ghOrg config) [])
              || (negb (streq (settings.ghUser config) [])
                  && negb (streq (settings.ghOrg config) []))
      then os_Exit 2 (str "You must set either org or user but not both" ++ LF)
      else
        Started
          {| settings.bbWorkspace := settings.bbWorkspace config;
             settings.bbUsername := settings.bbUsername config;
             settings.bbPassword := settings.bbPassword config;
             settings.revokeOldPerms := settings.revokeOldPerms config;
             settings.cloneVia := settings.cloneVia config;
             settings.ghOrg := settings.ghOrg config;
             settings.ghUser := settings.ghUser config;
             settings.ghOwner :=
               Join [settings.ghOrg config; settings.ghUser config] [];
             settings.ghToken := settings.ghToken config;
             settings.dryRun := settings.dryRun config;
             settings.overwrite := settings.overwrite config;
             settings.visibility := settings.visibility config;
             settings.runProgram := settings.runProgram config;
             settings.repoFile := settings.repoFile config;
             settings.migrateRepoContents := settings.migrateRepoContents config;
             settings.migrateRepoSettings := settings.migrateRepoSettings config;
             settings.migrateOpenPrs := settings.migrateOpenPrs config;
             settings.migrateClosedPrs := settings.migrateClosedPrs config |})))))))
  end.

(** [parseRepos] with its reading of the file. *)
Definition parseRepos_file (ReadFile : gostring -> result gostring errtext)
    (repoFile : gostring) : Startup (list gostring) :=
  if streq repoFile []
  then os_Exit 2
         (str "You must supply a list of names of repos to migrate in REPO_FILE" ++ LF)
  else
    match ReadFile (TrimSpace repoFile) with
    | Err _ => log_Fatalf (str "could not read file %s") [a_string repoFile]
    | Ok data => Started (parseRepos data)
    end.

(** [main]: the migration it starts, or the way the process stops before. *)
Definition main {lib : GoLib} (godotenv_Load : option errtext)
    (Getenv : gostring -> gostring) (ReadFile : gostring -> result gostring errtext)
    : Startup (Prog unit) :=
  startup_bind (main_config godotenv_Load Getenv) (fun config =>
  startup_bind (parseRepos_file ReadFile (settings.repoFile config)) (fun repos =>
  Started (migrateRepos repos config))).

(** The seven variables that [main] reads through [getEnvVarAsBool]. *)
Definition bool_env_vars : list gostring :=
  map str ["BITBUCKET_REVOKEOLDPERMS"; "GITHUB_DRYRUN"; "GITHUB_OVERWRITE";
           "MIGRATE_REPO_CONTENTS"; "MIGRATE_REPO_SETTINGS"; "MIGRATE_OPEN_PRS";
           "MIGRATE_CLOSED_PRS"]%string.

(** An environment for closed examples: a user account, a dry run. *)
Definition demo_Getenv (name : gostring) : gostring :=
  if streq name (str "BITBUCKET_WORKSPACE") then str "acme"
  else if streq name (str "BITBUCKET_USER") then str "migrator"
  else if streq name (str "BITBUCKET_TOKEN") then str "secret"
  else if streq name (str "GITHUB_USER") then str "ada"
  else if streq name (str "GITHUB_TOKEN") then str "token"
  else if streq name (str "GITHUB_DRYRUN") then str "TRUE"
  else if streq name (str "REPO_FILE") then str "repos.txt"
  else if existsb (streq name) bool_env_vars then str "false"
  else [].

(** ** Stages, counts and orders of calls *)

(** The stage of the pipeline a call belongs to. *)
Inductive Stage : Type :=
| local                    (* the clock, the standard output, sleeping *)
| bitbucket_repository     (* reading the source repository *)
| bitbucket_permissions    (* listing and setting permissions *)
| bitbucket_pull_requests  (* listing the pull requests *)
| clone                    (* the temporary folder and [git clone] *)
| github_repository        (* creating the repository and polling for it *)
| push                     (* the new remote, the post-clone program, [git push] *)
| github_settings          (* repository edit, topics, custom properties *)
| github_pull_request      (* creating pull requests *)
| github_issue.            (* creating, commenting and closing issues *)

Definition stage_of {lib : GoLib} {R : Type} (c : Call R) : Stage :=
  match c with
  | bb_Repository_Get _ => bitbucket_repository
  | bb_ListUserPermissions _ | bb_ListGroupPermissions _
  | bb_SetUserPermissions _ | bb_SetGroupPermissions _ => bitbucket_permissions
  | bb_PullRequests_Gets _ => bitbucket_pull_requests
  | os_MkdirTemp _ | git_clone_mirror _ _ => clone
  | gh_Repositories_Create _ _ | gh_Repositories_Get _ _ => github_repository
  | git_remote_add _ _ _ | exec_program _ _ | git_push_mirror _ _ => push
  | gh_Repositories_Edit _ _ _ | gh_Repositories_ReplaceAllTopics _ _ _
  | gh_Repositories_CreateOrUpdateCustomProperties _ _ _ => github_settings
  | gh_PullRequests_Create _ _ _ => github_pull_request
  | gh_Issues_Create _ _ _ | gh_Repositories_CreateComment _ _ _ _
  | gh_Issues_Edit _ _ _ _ => github_issue
  | time_Now | time_Sleep _ | fmt_Print _ => local
  end.

Definition in_stages {lib : GoLib} (allowed : Stage -> bool)
    : forall R : Type, Call R -> bool :=
  fun R c => allowed (stage_of c).

(** The stages that a configuration switches on. *)
Definition enabled (config : settings.t) (s : Stage) : bool :=
  match s with
  | local | bitbucket_repository | github_repository => true
  | bitbucket_permissions => settings.revokeOldPerms config
  | bitbucket_pull_requests =>
      settings.migrateOpenPrs config || settings.migrateClosedPrs config
  | clone | push => settings.migrateRepoContents config
  | github_settings => settings.migrateRepoSettings config
  | github_pull_request => settings.migrateOpenPrs config
  | github_issue => settings.migrateClosedPrs config
  end.

(** The calls a run adds to the history. *)
Fixpoint calls_of {lib : GoLib} {A : Type} (env : Env) (p : Prog A)
    (history : list Event) : list Event :=
  match p with
  | Do c k => Called c :: calls_of env (k (env _ history c)) (history ++ [Called c])
  | _ => []
  end.

Definition count_calls {lib : GoLib} (P : forall R : Type, Call R -> bool)
    (events : list Event) : nat :=
  List.length (filter (event_is P) events).

(** Among [events], no call of [Q] comes before the first call of [P]. *)
Fixpoint none_before {lib : GoLib} (P Q : forall R : Type, Call R -> bool)
    (events : list Event) : bool :=
  match events with
  | [] => true
  | e :: events' =>
      if event_is P e then true
      else negb (event_is Q e) && none_before P Q events'
  end.

(** Whatever the answers, the program makes no call of [Q] before its first
    call of [P]. *)
Inductive Not_before {lib : GoLib} (P Q : forall R : Type, Call R -> bool) {A : Type}
    : Prog A -> Prop :=
| Not_before_Ret : forall a, Not_before P Q (Ret a)
| Not_before_Fatalf : forall format args, Not_before P Q (Fatalf format args)
| Not_before_Panic : Not_before P Q Panic
| Not_before_first : forall (R : Type) (c : Call R) (k : R -> Prog A),
    P R c = true -> Not_before P Q (Do c k)
| Not_before_Do : forall (R : Type) (c : Call R) (k : R -> Prog A),
    Q R c = false -> (forall r, Not_before P Q (k r)) -> Not_before P Q (Do c k).

(** Moreover the program does not return without a call of [P]. *)
Inductive Passes {lib : GoLib} (P Q : forall R : Type, Call R -> bool) {A : Type}
    : Prog A -> Prop :=
| Passes_Fatalf : forall format args, Passes P Q (Fatalf format args)
| Passes_Panic : Passes P Q Panic
| Passes_first : forall (R : Type) (c : Call R) (k : R -> Prog A),
    P R c = true -> Passes P Q (Do c k)
| Passes_Do : forall (R : Type) (c : Call R) (k : R -> Prog A),
    Q R c = false -> (forall r, Passes P Q (k r)) -> Passes P Q (Do c k).

Definition is_push {lib : GoLib} : forall R : Type, Call R -> bool :=
  fun R c => match c with git_push_mirror _ _ => true | _ => false end.

Definition is_repo_create {lib : GoLib} : forall R : Type, Call R -> bool :=
  fun R c => match c with gh_Repositories_Create _ _ => true | _ => false end.

Definition is_repo_get {lib : GoLib} : forall R : Type, Call R -> bool :=
  fun R c => match c with gh_Repositories_Get _ _ => true | _ => false end.

Definition is_pr_create {lib : GoLib} : forall R : Type, Call R -> bool :=
  fun R c => match c with gh_PullRequests_Create _ _ _ => true | _ => false end.

Definition is_issue_create {lib : GoLib} : forall R : Type, Call R -> bool :=
  fun R c => match c with gh_Issues_Create _ _ _ => true | _ => false end.

Definition is_settings_update {lib : GoLib} : forall R : Type, Call R -> bool :=
  fun R c => match stage_of c with github_settings => true | _ => false end.

(** What is written to GitHub once the repository exists: the push stage,
    the settings, the pull requests and the issues. *)
Definition after_creation {lib : GoLib} : forall R : Type, Call R -> bool :=
  fun R c =>
    match stage_of c with
    | push | github_settings | github_pull_request | github_issue => true
    | _ => false
    end.

(** The permission a call sets, if it sets one, is [read]. *)
Definition sets_read {lib : GoLib} : forall R : Type, Call R -> bool :=
  fun R c =>
    match c with
    | bb_SetUserPermissions o => streq (bitbucket.UserPerm_Permission o) (str "read")
    | bb_SetGroupPermissions o => streq (bitbucket.GroupPerm_Permission o) (str "read")
    | _ => true
    end.

(** The stages that come before the creation of the repository, those that
    come before the settings, and those that set no permission. *)
Definition before_creation (s : Stage) : bool :=
  match s with
  | push | github_settings | github_pull_request | github_issue => false
  | _ => true
  end.

Definition before_settings (s : Stage) : bool :=
  match s with
  | github_settings => false
  | _ => true
  end.

Definition not_permissions (s : Stage) : bool :=
  match s with
  | bitbucket_permissions => false
  | _ => true
  end.

(** The calls by which [updatePermissionsToReadOnly] sets one user, and one
    group, to [read], each followed by its pause. *)
Definition user_to_read {lib : GoLib} (owner repoName : gostring) (user : bitbucket.User)
    : list Event :=
  [ Called (bb_SetUserPermissions
              {| bitbucket.UserPerm_Owner := owner;
                 bitbucket.UserPerm_RepoSlug := repoName;
                 bitbucket.UserPerm_User := bitbucket.AccountId user;
                 bitbucket.UserPerm_Permission := str "read" |});
    Called (time_Sleep apiWaitTime) ].

Definition group_to_read {lib : GoLib} (owner repoName groupSlug : gostring)
    : list Event :=
  [ Called (bb_SetGroupPermissions
              {| bitbucket.GroupPerm_Owner := owner;
                 bitbucket.GroupPerm_RepoSlug := repoName;
                 bitbucket.GroupPerm_Group := groupSlug;
                 bitbucket.GroupPerm_Permission := str "read" |});
    Called (time_Sleep apiWaitTime) ].

(** ** The list of repositories, the summaries and the contents: vocabulary *)

(** The integer [n] made of what a response holds under a key: of a number
    whose integral part an [int] holds, that integral part (the fraction is
    lost); of anything that is not a number, 0. *)
Definition integral_part_of (v : value) (n : Z) : Prop :=
  match v with
  | VNum x => in_int64 (truncate x) = true -> n = truncate x
  | _ => n = 0%Z
  end.

(** The two artefacts that [cleanBitbucketPRSummary] removes. *)
Definition inline_card : gostring := str "{: data-inline-card='' }".
Definition ZWNJ : rune := 8204%N.

(** What [bind] does with the outcome of a run: it goes on from a return,
    and stops where the process stopped. *)
Definition and_then {lib : GoLib} {A B : Type} (r : list Event * Outcome A)
    (f : A -> list Event -> list Event * Outcome B) : list Event * Outcome B :=
  match r with
  | (history, Returned a) => f a history
  | (history, Exited format args) => (history, Exited format args)
  | (history, Panicked) => (history, Panicked)
  end.

Definition is_remote_add {lib : GoLib} : forall R : Type, Call R -> bool :=
  fun R c => match c with git_remote_add _ _ _ => true | _ => false end.

Definition is_program {lib : GoLib} : forall R : Type, Call R -> bool :=
  fun R c => match c with exec_program _ _ => true | _ => false end.

(** A process that ended without an error. *)
Definition succeeded (r : gostring * option errtext) : bool :=
  match snd r with
  | None => true
  | Some _ => false
  end.

(** An environment in which Bitbucket does not know the repository. *)
Definition no_repository_env : Env :=
  fun R history c =>
    match c in Call R return R with
    | bb_Repository_Get _ => Err (str "404 Not Found")
    | c' => demo_env demo_response (Ok {| github.PR_Number := Some 1%Z |}) None _ history c'
    end.

(** The two forms of the address that [cloneRepo] clones from. *)
Definition ssh_scheme : gostring := str "git@bitbucket.org:".
Definition https_scheme : gostring := str "https://bitbucket.org/".

(** The stages in which no pull request and no issue is made. *)
Definition before_pull_requests (s : Stage) : bool :=
  match s with
  | github_pull_request | github_issue => false
  | _ => true
  end.

(** An environment for a run that migrates the settings, outside a dry
    run. *)
Definition settings_Getenv (name : gostring) : gostring :=
  if streq name (str "GITHUB_DRYRUN") then str "false"
  else if streq name (str "MIGRATE_REPO_SETTINGS") then str "true"
  else demo_Getenv name.

(** * Properties *)

Example TestParseRepos :
  parseRepos TestParseRepos_file =
  [str "repo1"; str "repo2"; str "repo-With-Invalid-Chars"; str "repo-4"].
Proof. vm_compute. reflexivity. Qed.

Example Itoa_examples :
  Itoa 0 = str "0" /\ Itoa 12 = str "12" /\ Itoa (-5) = str "-5".
Proof. vm_compute. repeat split. Qed.

Example int_of_float64_examples :
  int_of_float64 (lib := ascii_lib) {| mantissa := 5; exponent := -1 |} = 2%Z /\
  int_of_float64 (lib := ascii_lib) {| mantissa := -5; exponent := -1 |} = (-2)%Z /\
  int_of_float64 (lib := ascii_lib) {| mantissa := 3; exponent := 2 |} = 12%Z /\
  int_of_float64 (lib := ascii_lib) {| mantissa := 1; exponent := 63 |} = (- 2 ^ 63)%Z /\
  float64_or_zero (lib := ascii_lib) (VNum 7) = 7%Z /\
  float64_or_zero (lib := ascii_lib) (VStr (str "7")) = 0%Z.
Proof. vm_compute. repeat split. Qed.

Example decodeInt_example :
  ID (decoded_entry (VMap [(str "id", VNum {| mantissa := 103; exponent := -3 |})]))
  = 12%Z.
Proof. vm_compute. reflexivity. Qed.

Example SortFunc_example :
  SortFunc [3; 1; 2; 1]%Z cmp_Compare = [1; 1; 2; 3]%Z.
Proof. reflexivity. Qed.

Example cleanBitbucketPRSummary_example :
  cleanBitbucketPRSummary (str "see {: data-inline-card='' }the card")
  = str "see the card".
Proof. vm_compute. reflexivity. Qed.

Example getPrs_example :
  match snd (run (demo_env demo_response (Ok {| github.PR_Number := Some 1%Z |}) None)
               (getPrs (str "acme") (str "demo") (str "main")) []) with
  | Returned prs => map ID (Values prs) = [7; 12]%Z
  | _ => False
  end.
Proof. vm_compute. reflexivity. Qed.

Example demo_run_dry :
  snd (run (demo_env demo_response (Ok {| github.PR_Number := Some 1%Z |}) None)
         (migrateRepos [str "demo"] (demo_config true)) [])
  = Returned tt.
Proof. vm_compute. reflexivity. Qed.

Example demo_run :
  snd (run (demo_env demo_response (Ok {| github.PR_Number := Some 1%Z |}) None)
         (migrateRepos [str "demo"] (demo_config false)) [])
  = Returned tt.
Proof. vm_compute. reflexivity. Qed.

(** ** Facts about the string functions *)

Section StringFacts.

Lemma streq_refl (s : gostring) : streq s s = true.
Proof.
  induction s as [|c s IH]; simpl; [reflexivity|].
  rewrite N.eqb_refl. exact IH.
Qed.

Lemma streq_eq (s t : gostring) : streq s t = true <-> s = t.
Proof.
  split; [|intros ->; apply streq_refl].
  revert t. induction s as [|c s IH]; intros [|d t]; simpl; try discriminate; auto.
  intros H. apply andb_true_iff in H. destruct H as [Hc Hs].
  apply N.eqb_eq in Hc. subst d. f_equal. auto.
Qed.

(** Replacing a single code point by a single code point is a [map]. *)
Lemma ReplaceAll_single (s : gostring) (a b : rune) :
  ReplaceAll s [a] [b] = map (fun c => if N.eqb c a then b else c) s.
Proof.
  unfold ReplaceAll. induction s as [|c s IH]; simpl; [reflexivity|].
  rewrite andb_true_r. destruct (N.eqb c a); simpl; f_equal; exact IH.
Qed.

Lemma TrimLeftFunc_head (s : gostring) (f : rune -> bool) :
  match TrimLeftFunc s f with
  | [] => True
  | c :: _ => f c = false
  end.
Proof.
  induction s as [|c s IH]; simpl; [exact I|].
  destruct (f c) eqn:E; [exact IH | exact E].
Qed.

Lemma TrimLeftFunc_fixed (s : gostring) (f : rune -> bool) :
  match s with [] => True | c :: _ => f c = false end ->
  TrimLeftFunc s f = s.
Proof.
  destruct s as [|c s]; simpl; [reflexivity|]. intros ->. reflexivity.
Qed.

Lemma TrimLeftFunc_idem (s : gostring) (f : rune -> bool) :
  TrimLeftFunc (TrimLeftFunc s f) f = TrimLeftFunc s f.
Proof. apply TrimLeftFunc_fixed, TrimLeftFunc_head. Qed.

Lemma TrimLeftFunc_snoc (s : gostring) (c : rune) (f : rune -> bool) :
  TrimLeftFunc (s ++ [c]) f =
  match TrimLeftFunc s f with
  | [] => if f c then [] else [c]
  | t => t ++ [c]
  end.
Proof.
  induction s as [|d s IH]; simpl; [reflexivity|].
  destruct (f d); [exact IH | reflexivity].
Qed.

Lemma rev_TrimRightFunc (s : gostring) (f : rune -> bool) :
  rev (TrimRightFunc s f) = TrimLeftFunc (rev s) f.
Proof.
  induction s as [|c s IH]; simpl; [reflexivity|].
  rewrite TrimLeftFunc_snoc, <- IH.
  destruct (TrimRightFunc s f) as [|d t] eqn:E.
  - simpl. destruct (f c); reflexivity.
  - change (rev (c :: d :: t)) with (rev (d :: t) ++ [c]).
    destruct (rev (d :: t)) eqn:R; [|reflexivity].
    apply (f_equal (@List.length rune)) in R. rewrite length_rev in R. discriminate.
Qed.

Lemma TrimRightFunc_idem (s : gostring) (f : rune -> bool) :
  TrimRightFunc (TrimRightFunc s f) f = TrimRightFunc s f.
Proof.
  apply rev_inj. rewrite !rev_TrimRightFunc. apply TrimLeftFunc_idem.
Qed.

Lemma TrimRightFunc_head (s : gostring) (f : rune -> bool) :
  match s with [] => True | c :: _ => f c = false end ->
  match TrimRightFunc s f with [] => s = [] | c :: _ => f c = false end.
Proof.
  destruct s as [|c s]; simpl; [reflexivity|]. intros Hc.
  destruct (TrimRightFunc s f); [rewrite Hc|]; exact Hc.
Qed.

Lemma TrimFunc_head (s : gostring) (f : rune -> bool) :
  match TrimFunc s f with [] => True | c :: _ => f c = false end.
Proof.
  unfold TrimFunc.
  pose proof (TrimRightFunc_head (TrimLeftFunc s f) f (TrimLeftFunc_head s f)) as H.
  destruct (TrimRightFunc (TrimLeftFunc s f) f); [exact I | exact H].
Qed.

Lemma TrimFunc_last (s : gostring) (f : rune -> bool) :
  match rev (TrimFunc s f) with [] => True | c :: _ => f c = false end.
Proof. unfold TrimFunc. rewrite rev_TrimRightFunc. apply TrimLeftFunc_head. Qed.

Lemma TrimFunc_idem (s : gostring) (f : rune -> bool) :
  TrimFunc (TrimFunc s f) f = TrimFunc s f.
Proof.
  unfold TrimFunc at 1.
  rewrite (TrimLeftFunc_fixed (TrimFunc s f) f (TrimFunc_head s f)).
  unfold TrimFunc. apply TrimRightFunc_idem.
Qed.

Lemma In_TrimLeftFunc (s : gostring) (f : rune -> bool) (c : rune) :
  In c (TrimLeftFunc s f) -> In c s.
Proof.
  induction s as [|d s IH]; simpl; [auto|].
  destruct (f d); [right; auto | simpl; auto].
Qed.

Lemma In_TrimRightFunc (s : gostring) (f : rune -> bool) (c : rune) :
  In c (TrimRightFunc s f) -> In c s.
Proof.
  induction s as [|d s IH]; simpl; [auto|].
  destruct (TrimRightFunc s f) as [|e t].
  - destruct (f d); simpl; tauto.
  - simpl. intros [H|H]; [left; exact H | right; apply IH; exact H].
Qed.

Lemma In_TrimFunc (s : gostring) (f : rune -> bool) (c : rune) :
  In c (TrimFunc s f) -> In c s.
Proof. intros H. eapply In_TrimLeftFunc, In_TrimRightFunc, H. Qed.

Lemma HasPrefix_single (s : gostring) (d : rune) :
  HasPrefix s [d] = match s with [] => false | c :: _ => N.eqb c d end.
Proof. destruct s; simpl; [reflexivity | apply andb_true_r]. Qed.

End StringFacts.

(** ** The list of repositories ([parseRepos]) *)

Lemma parseRepos_loop (lines : list gostring) (acc : list gostring) :
  fold_left
    (fun cleaned_repos repo =>
       match cleanRepo repo with
       | Some repo => cleaned_repos ++ [repo]
       | None => cleaned_repos
       end) lines acc
  = acc ++ flat_map emitted lines.
Proof.
  revert acc. induction lines as [|line lines IH]; intros acc; simpl.
  - symmetry. apply app_nil_r.
  - rewrite IH. unfold emitted at 2. destruct (cleanRepo line); simpl.
    + rewrite <- app_assoc. reflexivity.
    + reflexivity.
Qed.

Lemma parseRepos_flat_map (data : gostring) :
  parseRepos data = flat_map emitted (Split data LF).
Proof. unfold parseRepos. apply parseRepos_loop. Qed.

Lemma cleanRepo_Some (line : gostring) :
  cleanRepo line =
  match TrimSpace line with
  | [] => None
  | c :: s =>
      if N.eqb c 35 then None
      else Some (Trim (hyphenate (c :: s)) (str "-"))
  end.
Proof.
  unfold cleanRepo, hyphenate. destruct (TrimSpace line) as [|c s]; [reflexivity|].
  destruct (N.eqb c 35); [reflexivity|].
  f_equal. f_equal.
  change (str " ") with [32%N]. change (str "/") with [47%N].
  change (str "+") with [43%N]. change (str "&") with [38%N].
  change (str "(") with [40%N]. change (str ")") with [41%N].
  change (str "-") with [45%N].
  rewrite !ReplaceAll_single, !map_map.
  apply map_ext. intros a. unfold replaced_chars, mem. simpl.
  destruct (N.eqb a 32) eqn:E1; [reflexivity|].
  destruct (N.eqb a 47) eqn:E2; [reflexivity|].
  destruct (N.eqb a 43) eqn:E3; [reflexivity|].
  destruct (N.eqb a 38) eqn:E4; [reflexivity|].
  destruct (N.eqb a 40) eqn:E5; [reflexivity|].
  destruct (N.eqb a 41) eqn:E6; reflexivity.
Qed.

Lemma cleanRepo_dropped (line : gostring) :
  cleanRepo line = None <->
  TrimSpace line = [] \/ HasPrefix (TrimSpace line) (str "#") = true.
Proof.
  rewrite cleanRepo_Some. change (str "#") with [35%N].
  rewrite HasPrefix_single.
  destruct (TrimSpace line) as [|c s].
  - split; auto.
  - destruct (N.eqb c 35); split; auto.
    + intros H; discriminate H.
    + intros [H|H]; discriminate H.
Qed.

Lemma In_hyphenate (s : gostring) (c : rune) :
  In c (hyphenate s) -> mem c replaced_chars = false.
Proof.
  unfold hyphenate. intros Hin.
  apply in_map_iff in Hin. destruct Hin as [a [Ha _]].
  destruct (mem a replaced_chars) eqn:E; subst c; [reflexivity | exact E].
Qed.

Lemma cleanRepo_chars (line repo : gostring) (c : rune) :
  cleanRepo line = Some repo -> In c repo -> mem c replaced_chars = false.
Proof.
  rewrite cleanRepo_Some. destruct (TrimSpace line) as [|d s]; [discriminate|].
  destruct (N.eqb d 35); [discriminate|].
  intros H Hin.
  assert (E : repo = Trim (hyphenate (d :: s)) (str "-")) by congruence.
  subst repo.
  apply In_TrimFunc, In_hyphenate in Hin. exact Hin.
Qed.

Lemma cleanRepo_trimmed (line repo : gostring) :
  cleanRepo line = Some repo ->
  HasPrefix repo (str "-") = false /\ HasSuffix repo (str "-") = false /\
  Trim repo (str "-") = repo.
Proof.
  rewrite cleanRepo_Some. destruct (TrimSpace line) as [|d s]; [discriminate|].
  destruct (N.eqb d 35); [discriminate|].
  intros H.
  assert (E : repo = Trim (hyphenate (d :: s)) (str "-")) by congruence.
  subst repo. clear H. unfold Trim, HasSuffix.
  set (t := hyphenate (d :: s)). set (f := fun c : rune => mem c (str "-")).
  change (rev (str "-")) with [45%N]. change (str "-") with [45%N].
  rewrite !HasPrefix_single.
  pose proof (TrimFunc_head t f) as Hh. pose proof (TrimFunc_last t f) as Hl.
  repeat split.
  - destruct (TrimFunc t f) as [|c u]; [reflexivity|].
    destruct (N.eqb c 45) eqn:E; [|reflexivity].
    apply N.eqb_eq in E. subst c. discriminate Hh.
  - destruct (rev (TrimFunc t f)) as [|c u]; [reflexivity|].
    destruct (N.eqb c 45) eqn:E; [|reflexivity].
    apply N.eqb_eq in E. subst c. discriminate Hl.
  - apply TrimFunc_idem.
Qed.

Lemma cleanRepo_again (line repo : gostring) :
  cleanRepo line = Some repo ->
  TrimSpace repo = repo -> repo <> [] -> HasPrefix repo (str "#") = false ->
  cleanRepo repo = Some repo.
Proof.
  intros Hc Hs Hne Hh.
  rewrite cleanRepo_Some, Hs.
  destruct repo as [|c s]; [contradiction Hne; reflexivity|].
  change (str "#") with [35%N] in Hh. rewrite HasPrefix_single in Hh. rewrite Hh.
  f_equal.
  replace (hyphenate (c :: s)) with (c :: s).
  - apply (cleanRepo_trimmed _ _ Hc).
  - symmetry. unfold hyphenate. rewrite <- (map_id (c :: s)) at 2.
    apply map_ext_in. intros a Ha.
    rewrite (cleanRepo_chars _ _ a Hc Ha). reflexivity.
Qed.

(** C2 (as amended).  [parseRepos] emits, in order, what [cleanRepo] makes
    of each line of the file.  For every line: it is dropped exactly when it
    is blank or its trimmed form starts with [#]; otherwise the identifier
    emitted is the line without the white space around it, with [-] in the
    place of each of the six characters the code replaces and every other
    character as it stands, and then without the [-] at its two ends.  So
    it has no leading and no trailing [-], holds none of the six characters,
    and is left unchanged by a second normalization provided it is not
    empty, does not start with [#] and has no white space at either end. *)
Theorem parseRepos_normalization (data line : gostring) :
  In line (Split data LF) ->
  parseRepos data = flat_map emitted (Split data LF) /\
  (cleanRepo line = None <->
   TrimSpace line = [] \/ HasPrefix (TrimSpace line) (str "#") = true) /\
  forall repo, cleanRepo line = Some repo ->
    repo = Trim (hyphenate (TrimSpace line)) (str "-") /\
    In repo (parseRepos data) /\
    HasPrefix repo (str "-") = false /\
    HasSuffix repo (str "-") = false /\
    (forall c, In c repo -> mem c replaced_chars = false) /\
    (TrimSpace repo = repo -> repo <> [] -> HasPrefix repo (str "#") = false ->
     cleanRepo repo = Some repo).
Proof.
  intros Hin. split; [apply parseRepos_flat_map|].
  split; [apply cleanRepo_dropped|].
  intros repo Hc. repeat split.
  - rewrite cleanRepo_Some in Hc. destruct (TrimSpace line) as [|c s]; [discriminate Hc|].
    destruct (N.eqb c 35); [discriminate Hc|]. injection Hc as Hc. symmetry. exact Hc.
  - rewrite parseRepos_flat_map. apply in_flat_map. exists line. split; [exact Hin|].
    unfold emitted. rewrite Hc. left. reflexivity.
  - apply (cleanRepo_trimmed line repo Hc).
  - apply (cleanRepo_trimmed line repo Hc).
  - intros c. apply (cleanRepo_chars line repo c Hc).
  - apply (cleanRepo_again line repo Hc).
Qed.

Lemma parseRepos_normalization_witness :
  parseRepos TestParseRepos_file = flat_map emitted (Split TestParseRepos_file LF) /\
  In (str "repo-4") (parseRepos TestParseRepos_file) /\
  cleanRepo (str "repo-4") = Some (str "repo-4") /\
  str "repo-4" = Trim (hyphenate (str "repo(4)")) (str "-").
Proof.
  assert (Hin : In (str (tab ++ "repo(4)")) (Split TestParseRepos_file LF)).
  { vm_compute. do 5 right. left. reflexivity. }
  destruct (parseRepos_normalization TestParseRepos_file _ Hin) as [Hflat [_ Hrepo]].
  destruct (Hrepo (str "repo-4") eq_refl) as [Hmade [Hemit [_ [_ [_ Hagain]]]]].
  split; [exact Hflat|]. split; [exact Hemit|].
  split; [apply Hagain; [reflexivity | discriminate | reflexivity] | exact Hmade].
Defined.

(** C2 (as stated) fails.  A second normalization changes the identifier
    made from the line [-<tab>a]; the line [-] yields the empty identifier,
    which a second normalization drops; and [@], which GitHub does not keep
    in a name, is left in place. *)
Lemma cleanRepo_not_idempotent :
  cleanRepo [45; 9; 97]%N = Some [9; 97]%N /\
  cleanRepo [9; 97]%N = Some [97]%N /\
  cleanRepo (str "-") = Some [] /\
  cleanRepo [] = None /\
  cleanRepo (str "a@b") = Some (str "a@b") /\
  forallb github_name_char (str "a@b") = false.
Proof. vm_compute. repeat split. Qed.

(** ** Facts about programs and runs *)

Section RunFacts.
Context {lib : GoLib}.

Lemma run_bind (A B : Type) (env : Env) (p : Prog A) (f : A -> Prog B) (history : list Event) :
  run env (bind p f) history =
  match run env p history with
  | (history', Returned a) => run env (f a) history'
  | (history', Exited format args) => (history', Exited format args)
  | (history', Panicked) => (history', Panicked)
  end.
Proof.
  revert history. induction p as [a|format args| |R c k IH]; intros history; simpl;
    try reflexivity.
  apply IH.
Qed.

Lemma run_history (A : Type) (env : Env) (p : Prog A) (history : list Event) :
  exists calls, fst (run env p history) = history ++ calls.
Proof.
  revert history. induction p as [a|format args| |R c k IH]; intros history; simpl.
  - exists []. symmetry. apply app_nil_r.
  - exists []. symmetry. apply app_nil_r.
  - exists []. symmetry. apply app_nil_r.
  - destruct (IH (env R history c) (history ++ [Called c])) as [calls E].
    exists (Called c :: calls). rewrite E, <- app_assoc. reflexivity.
Qed.

Lemma Forall_calls_bind (P : forall R : Type, Call R -> bool) (A B : Type)
    (p : Prog A) (f : A -> Prog B) :
  Forall_calls P p -> (forall a, Forall_calls P (f a)) -> Forall_calls P (bind p f).
Proof.
  intros Hp Hf. induction Hp as [a|format args| |R c k Hc Hk IH]; simpl.
  - apply Hf.
  - constructor.
  - constructor.
  - constructor; [exact Hc | exact IH].
Qed.

Lemma Forall_calls_run (P : forall R : Type, Call R -> bool) (A : Type) (p : Prog A) :
  Forall_calls P p ->
  forall (env : Env) (history : list Event),
    Forall (fun e => event_is P e = true) history ->
    Forall (fun e => event_is P e = true) (fst (run env p history)).
Proof.
  intros Hp. induction Hp as [a|format args| |R c k Hc Hk IH]; intros env history Hh; simpl;
    try exact Hh.
  apply IH. apply Forall_app. split; [exact Hh|].
  constructor; [exact Hc | constructor].
Qed.

Lemma Ignores_bind (A B : Type) (p : Prog A) (f : A -> Prog B) :
  Ignores_custom_properties p -> (forall a, Ignores_custom_properties (f a)) ->
  Ignores_custom_properties (bind p f).
Proof.
  intros Hp Hf. induction Hp as [a|format args| |R c k Hc Hk IH]; simpl.
  - apply Hf.
  - constructor.
  - constructor.
  - constructor; [|exact IH].
    intros E r r'. rewrite (Hc E r r'). reflexivity.
Qed.

Lemma Ignores_run (A : Type) (p : Prog A) (env1 env2 : Env) :
  Ignores_custom_properties p ->
  same_but_custom_properties env1 env2 ->
  forall history, run env1 p history = run env2 p history.
Proof.
  intros Hp Henv. induction Hp as [a|format args| |R c k Hc Hk IH]; intros history; simpl;
    try reflexivity.
  rewrite IH. destruct (is_custom_properties c) eqn:E.
  - rewrite (Hc eq_refl (env1 R history c) (env2 R history c)). reflexivity.
  - rewrite (Henv R history c E). reflexivity.
Qed.

Lemma Forall_calls_Ignores (A : Type) (p : Prog A) :
  Forall_calls not_custom_properties p ->
  Ignores_custom_properties p.
Proof.
  intros Hp. induction Hp as [a|format args| |R c k Hc Hk IH]; constructor.
  - intros E. unfold not_custom_properties in Hc. rewrite E in Hc. discriminate Hc.
  - exact IH.
Qed.

End RunFacts.

Create HintDb calls.

(** One step through the shape of a program, for goals [Forall_calls P p]. *)
Ltac calls_step :=
  match goal with
  | H : Forall_calls _ ?p |- Forall_calls _ ?p => exact H
  | H : forall x, Forall_calls _ _ |- Forall_calls _ _ => apply H
  | |- Forall_calls _ (Ret _) => apply Forall_calls_Ret
  | |- Forall_calls _ (Fatalf _ _) => apply Forall_calls_Fatalf
  | |- Forall_calls _ Panic => apply Forall_calls_Panic
  | |- Forall_calls _ (Do _ _) => apply Forall_calls_Do; [reflexivity | intros]
  | |- Forall_calls _ (bind _ _) => apply Forall_calls_bind; [| intros]
  | |- Forall_calls _ (match ?x with _ => _ end) => destruct x
  end.

Ltac calls :=
  unfold Println, Print, Sleep, call;
  repeat first [ progress cbv beta iota | solve [auto with calls] | calls_step ].

Section PureFacts.
Context {lib : GoLib}.
Variable P : forall R : Type, Call R -> bool.

Lemma assert_string_calls (v : value) : Forall_calls P (assert_string v).
Proof. unfold assert_string. calls. Qed.

Lemma assert_map_calls (v : value) : Forall_calls P (assert_map v).
Proof. unfold assert_map. calls. Qed.

Lemma assert_slice_calls (v : value) : Forall_calls P (assert_slice v).
Proof. unfold assert_slice. calls. Qed.

Hint Resolve assert_string_calls assert_map_calls assert_slice_calls : calls.

Lemma decodePullRequest_calls (response : value) :
  Forall_calls P (decodePullRequest response).
Proof. unfold decodePullRequest. calls. Qed.

Hint Resolve decodePullRequest_calls : calls.

Lemma decodePullRequests_loop_calls (prArray : list value) (prs : list PullRequest) :
  Forall_calls P (decodePullRequests_loop prArray prs).
Proof.
  revert prs. induction prArray as [|prEntry prArray IH]; intros prs;
    cbn [decodePullRequests_loop]; calls.
Qed.

Hint Resolve decodePullRequests_loop_calls : calls.

Lemma decodePullRequests_calls (prsResponse : value) :
  Forall_calls P (decodePullRequests prsResponse).
Proof. unfold decodePullRequests. calls. Qed.

End PureFacts.

#[export] Hint Resolve assert_string_calls assert_map_calls assert_slice_calls
  decodePullRequest_calls decodePullRequests_loop_calls decodePullRequests_calls : calls.

(** ** The dry run *)

Section DryRun.
Context {lib : GoLib}.

Lemma migrateOpenPrs_request_quiet (ghRepo : github.Repository) (pr : PullRequest) :
  Forall_calls not_mutating (migrateOpenPrs_request ghRepo pr).
Proof. unfold migrateOpenPrs_request. calls. Qed.

Lemma createClosedPrs_request_quiet (pr : PullRequest) :
  Forall_calls not_mutating (createClosedPrs_request pr).
Proof. unfold createClosedPrs_request. calls. Qed.

Hint Resolve migrateOpenPrs_request_quiet createClosedPrs_request_quiet : calls.

Lemma createRepo_dry (repo : bitbucket.Repository) (config : settings.t) :
  settings.dryRun config = true ->
  Forall_calls not_mutating (createRepo repo config).
Proof. intros H. unfold createRepo. rewrite H. calls. Qed.

Lemma updateRepo_dry (githubOwner : gostring) (ghRepo : github.Repository) :
  Forall_calls not_mutating (updateRepo githubOwner ghRepo true).
Proof. unfold updateRepo. calls. Qed.

Lemma updateRepoTopics_dry (githubOwner : gostring) (ghRepo : github.Repository) :
  Forall_calls not_mutating (updateRepoTopics githubOwner ghRepo true).
Proof. unfold updateRepoTopics. calls. Qed.

Lemma updateCustomProperties_dry (githubOrg : gostring) (ghRepo : github.Repository)
    (projectName : gostring) :
  Forall_calls not_mutating (updateCustomProperties githubOrg ghRepo true projectName).
Proof. unfold updateCustomProperties. calls. Qed.

Lemma migrateOpenPrs_dry (githubOwner : gostring) (ghRepo : github.Repository)
    (prs : PullRequests) :
  Forall_calls not_mutating (migrateOpenPrs githubOwner ghRepo prs true).
Proof.
  unfold migrateOpenPrs. induction (Values prs) as [|pr values IH];
    cbn [migrateOpenPrs_range]; calls.
Qed.

Lemma createClosedPrs_dry (githubOwner : gostring) (ghRepo : github.Repository)
    (prs : PullRequests) :
  Forall_calls not_mutating (createClosedPrs githubOwner ghRepo prs true).
Proof.
  unfold createClosedPrs. induction (Values prs) as [|pr values IH];
    cbn [createClosedPrs_range]; calls.
Qed.

Lemma pushRepoToGithub_dry (repoFolder repoName : gostring) (config : settings.t) :
  settings.dryRun config = true ->
  Forall_calls not_mutating (pushRepoToGithub repoFolder repoName config).
Proof. intros H. unfold pushRepoToGithub, runProgram. rewrite H. calls. Qed.

Lemma getRepo_quiet (owner repoName : gostring) :
  Forall_calls not_mutating (getRepo owner repoName).
Proof. unfold getRepo. calls. Qed.

Lemma cloneRepo_quiet (repo : gostring) (config : settings.t) :
  Forall_calls not_mutating (cloneRepo repo config).
Proof. unfold cloneRepo. calls. Qed.

Lemma updatePermissionsToReadOnly_dry (owner repoName : gostring) :
  Forall_calls not_mutating (updatePermissionsToReadOnly owner repoName true).
Proof. unfold updatePermissionsToReadOnly. calls. Qed.

Lemma getPrs_quiet (owner repo destinationBranch : gostring) :
  Forall_calls not_mutating (getPrs owner repo destinationBranch).
Proof. unfold getPrs. calls. Qed.

Hint Resolve createRepo_dry updateRepo_dry updateRepoTopics_dry
  updateCustomProperties_dry migrateOpenPrs_dry createClosedPrs_dry
  pushRepoToGithub_dry getRepo_quiet cloneRepo_quiet
  updatePermissionsToReadOnly_dry getPrs_quiet : calls.

Lemma migrateRepo_dry (repoName : gostring) (config : settings.t) :
  settings.dryRun config = true ->
  Forall_calls not_mutating (migrateRepo repoName config).
Proof. intros H. unfold migrateRepo. rewrite H. calls. Qed.

Hint Resolve migrateRepo_dry : calls.

Lemma migrateRepos_dry (repoList : list gostring) (config : settings.t) :
  settings.dryRun config = true ->
  Forall_calls not_mutating (migrateRepos repoList config).
Proof.
  intros H. unfold migrateRepos. rewrite H.
  apply Forall_calls_bind; [calls | intros _].
  induction repoList as [|repo repoList IH]; cbn [migrateRepos_range]; calls.
Qed.

(** C1.  When the dry-run flag is set, no run of [migrateRepos], whatever
    the two backends and the processes answer, makes a mutating call: no
    repository creation, no settings, topics or custom-property update, no
    permission change, no push, no pull-request, issue or comment creation
    and no issue edit, for any repository of the list. *)
Theorem dry_run_makes_no_mutating_call
    (env : Env) (repoList : list gostring) (config : settings.t) :
  settings.dryRun config = true ->
  Forall (fun e => event_is (@mutating lib) e = false)
    (fst (run env (migrateRepos repoList config) [])).
Proof.
  intros H.
  pose proof (Forall_calls_run _ _ _ (migrateRepos_dry repoList config H) env [] (Forall_nil _)) as F.
  eapply Forall_impl; [|exact F].
  intros [R c]. unfold event_is, not_mutating. apply negb_true_iff.
Qed.

End DryRun.

Lemma dry_run_makes_no_mutating_call_witness :
  Forall (fun e => event_is (@mutating ascii_lib) e = false)
    (fst (run (demo_env demo_response (Ok {| github.PR_Number := Some 1%Z |}) None)
            (migrateRepos [str "demo"] (demo_config true)) [])).
Proof.
  apply (dry_run_makes_no_mutating_call
           (demo_env demo_response (Ok {| github.PR_Number := Some 1%Z |}) None)
           [str "demo"] (demo_config true)).
  reflexivity.
Defined.

(** ** The custom-property update *)

Section CustomProperties.
Context {lib : GoLib}.

Lemma migrateOpenPrs_request_plain (ghRepo : github.Repository) (pr : PullRequest) :
  Forall_calls not_custom_properties (migrateOpenPrs_request ghRepo pr).
Proof. unfold migrateOpenPrs_request. calls. Qed.

Lemma createClosedPrs_request_plain (pr : PullRequest) :
  Forall_calls not_custom_properties (createClosedPrs_request pr).
Proof. unfold createClosedPrs_request. calls. Qed.

Hint Resolve migrateOpenPrs_request_plain createClosedPrs_request_plain : calls.

Lemma createRepo_wait_plain (attempts : nat) (i : Z) (repo : bitbucket.Repository)
    (config : settings.t) (ghRepo : github.Repository) :
  Forall_calls not_custom_properties (createRepo_wait attempts i repo config ghRepo).
Proof.
  revert i. induction attempts as [|attempts IH]; intros i; cbn [createRepo_wait]; calls.
Qed.

Hint Resolve createRepo_wait_plain : calls.

Lemma createRepo_plain (repo : bitbucket.Repository) (config : settings.t) :
  Forall_calls not_custom_properties (createRepo repo config).
Proof. unfold createRepo. calls. Qed.

Lemma updateRepo_plain (githubOwner : gostring) (ghRepo : github.Repository) (dryRun : bool) :
  Forall_calls not_custom_properties (updateRepo githubOwner ghRepo dryRun).
Proof. unfold updateRepo. calls. Qed.

Lemma updateRepoTopics_plain (githubOwner : gostring) (ghRepo : github.Repository)
    (dryRun : bool) :
  Forall_calls not_custom_properties (updateRepoTopics githubOwner ghRepo dryRun).
Proof. unfold updateRepoTopics. calls. Qed.

Lemma migrateOpenPrs_plain (githubOwner : gostring) (ghRepo : github.Repository)
    (prs : PullRequests) (dryRun : bool) :
  Forall_calls not_custom_properties (migrateOpenPrs githubOwner ghRepo prs dryRun).
Proof.
  unfold migrateOpenPrs. induction (Values prs) as [|pr values IH];
    cbn [migrateOpenPrs_range]; calls.
Qed.

Lemma createClosedPrs_plain (githubOwner : gostring) (ghRepo : github.Repository)
    (prs : PullRequests) (dryRun : bool) :
  Forall_calls not_custom_properties (createClosedPrs githubOwner ghRepo prs dryRun).
Proof.
  unfold createClosedPrs. induction (Values prs) as [|pr values IH];
    cbn [createClosedPrs_range]; calls.
Qed.

Lemma pushRepoToGithub_plain (repoFolder repoName : gostring) (config : settings.t) :
  Forall_calls not_custom_properties (pushRepoToGithub repoFolder repoName config).
Proof. unfold pushRepoToGithub, runProgram. calls. Qed.

Lemma getRepo_plain (owner repoName : gostring) :
  Forall_calls not_custom_properties (getRepo owner repoName).
Proof. unfold getRepo. calls. Qed.

Lemma cloneRepo_plain (repo : gostring) (config : settings.t) :
  Forall_calls not_custom_properties (cloneRepo repo config).
Proof. unfold cloneRepo. calls. Qed.

Lemma updatePermissionsToReadOnly_users_plain (owner repoName : gostring)
    (user_perms : list bitbucket.User) :
  Forall_calls not_custom_properties
    (updatePermissionsToReadOnly_users owner repoName user_perms).
Proof.
  induction user_perms as [|user user_perms IH];
    cbn [updatePermissionsToReadOnly_users]; calls.
Qed.

Lemma updatePermissionsToReadOnly_groups_plain (owner repoName : gostring)
    (group_perms : list gostring) :
  Forall_calls not_custom_properties
    (updatePermissionsToReadOnly_groups owner repoName group_perms).
Proof.
  induction group_perms as [|groupSlug group_perms IH];
    cbn [updatePermissionsToReadOnly_groups]; calls.
Qed.

Hint Resolve updatePermissionsToReadOnly_users_plain
  updatePermissionsToReadOnly_groups_plain : calls.

Lemma updatePermissionsToReadOnly_plain (owner repoName : gostring) (dryRun : bool) :
  Forall_calls not_custom_properties (updatePermissionsToReadOnly owner repoName dryRun).
Proof. unfold updatePermissionsToReadOnly. calls. Qed.

Lemma getPrs_plain (owner repo destinationBranch : gostring) :
  Forall_calls not_custom_properties (getPrs owner repo destinationBranch).
Proof. unfold getPrs. calls. Qed.

Hint Resolve createRepo_plain updateRepo_plain updateRepoTopics_plain
  migrateOpenPrs_plain createClosedPrs_plain pushRepoToGithub_plain getRepo_plain
  cloneRepo_plain updatePermissionsToReadOnly_plain getPrs_plain : calls.

(** [updateCustomProperties] makes at most the one call, and goes on in
    the same way whatever the answer. *)
Lemma updateCustomProperties_ignores (githubOrg : gostring) (ghRepo : github.Repository)
    (dryRun : bool) (projectName : gostring) :
  Ignores_custom_properties (updateCustomProperties githubOrg ghRepo dryRun projectName).
Proof.
  unfold updateCustomProperties.
  destruct (streq githubOrg []); [constructor|].
  destruct dryRun; [constructor|].
  unfold call. cbn [bind]. constructor.
  - intros _ r r'. reflexivity.
  - intros r. constructor.
Qed.

Ltac ignores :=
  repeat match goal with
  | |- Ignores_custom_properties (updateCustomProperties _ _ _ _) =>
      apply updateCustomProperties_ignores
  | H : forall x, Ignores_custom_properties _ |- Ignores_custom_properties _ => apply H
  | |- Ignores_custom_properties (bind _ _) => apply Ignores_bind; [| intros]
  | |- Ignores_custom_properties (match ?x with _ => _ end) => destruct x
  | |- Ignores_custom_properties _ => apply Forall_calls_Ignores; solve [calls]
  end.

Lemma migrateRepo_ignores (repoName : gostring) (config : settings.t) :
  Ignores_custom_properties (migrateRepo repoName config).
Proof. unfold migrateRepo. ignores. Qed.

Lemma migrateRepos_ignores (repoList : list gostring) (config : settings.t) :
  Ignores_custom_properties (migrateRepos repoList config).
Proof.
  unfold migrateRepos. apply Ignores_bind; [ignores | intros _].
  induction repoList as [|repo repoList IH]; cbn [migrateRepos_range].
  - constructor.
  - apply Ignores_bind; [apply migrateRepo_ignores | intros _; exact IH].
Qed.

Lemma updateCustomProperties_returns (env : Env) (history : list Event)
    (githubOrg : gostring) (ghRepo : github.Repository) (dryRun : bool)
    (projectName : gostring) :
  snd (run env (updateCustomProperties githubOrg ghRepo dryRun projectName) history)
  = Returned tt.
Proof.
  unfold updateCustomProperties.
  destruct (streq githubOrg []); [reflexivity|].
  destruct dryRun; reflexivity.
Qed.

(** C10.  [updateCustomProperties] always returns normally, whatever the
    custom-property call answers; and two runs of [migrateRepos] in
    environments that differ only in how they answer the custom-property
    calls (one succeeding, one failing, say) make the same calls and end
    alike. *)
Theorem custom_property_failure_is_discarded
    (env1 env2 : Env) (repoList : list gostring) (config : settings.t) :
  same_but_custom_properties env1 env2 ->
  (forall history githubOrg ghRepo dryRun projectName,
     snd (run env1 (updateCustomProperties githubOrg ghRepo dryRun projectName) history)
     = Returned tt) /\
  run env1 (migrateRepos repoList config) [] = run env2 (migrateRepos repoList config) [].
Proof.
  intros Henv. split.
  - intros. apply updateCustomProperties_returns.
  - apply Ignores_run; [apply migrateRepos_ignores | exact Henv].
Qed.

End CustomProperties.

Lemma custom_property_failure_is_discarded_witness :
  run (demo_env demo_response (Ok {| github.PR_Number := Some 1%Z |}) None)
      (migrateRepos [str "demo"] (demo_config false)) []
  = run (demo_env demo_response (Ok {| github.PR_Number := Some 1%Z |})
           (Some (str "403 Forbidden")))
      (migrateRepos [str "demo"] (demo_config false)) [].
Proof.
  apply (custom_property_failure_is_discarded
           (demo_env demo_response (Ok {| github.PR_Number := Some 1%Z |}) None)
           (demo_env demo_response (Ok {| github.PR_Number := Some 1%Z |})
              (Some (str "403 Forbidden")))
           [str "demo"] (demo_config false)).
  intros R history c. destruct c; intros E; try reflexivity. discriminate E.
Defined.

(** ** The two passes over the pull requests *)

Section Passes.
Context {lib : GoLib}.

Lemma run_call (R : Type) (env : Env) (c : Call R) (history : list Event) :
  run env (call c) history = (history ++ [Called c], Returned (env R history c)).
Proof. reflexivity. Qed.




(** C4.  In the open-PR pass without dry run, take an [OPEN] record whose
    request is built and whose creation fails with [err].  If [err] holds the
    text [A pull request already exists] or the 422 signature of an invalid
    head, the pass prints a line, sleeps, and goes on with the remaining
    records exactly as a pass over them; for any other [err] the run ends in
    [log.Fatalf] right after the call. *)
Theorem open_pr_failure_policy
    (env : Env) (history history1 : list Event) (githubOwner : gostring)
    (ghRepo : github.Repository) (pr : PullRequest) (values : list PullRequest)
    (gh_pr : github.NewPullRequest) (err : errtext) :
  is_open pr = true ->
  run env (migrateOpenPrs_request ghRepo pr) history = (history1, Returned gh_pr) ->
  env _ history1 (gh_PullRequests_Create githubOwner (github.Name ghRepo) gh_pr)
  = Err err ->
  let create := Called (gh_PullRequests_Create githubOwner (github.Name ghRepo) gh_pr) in
  (open_pr_skippable err = true ->
   exists text,
     run env (migrateOpenPrs_range githubOwner ghRepo false (pr :: values)) history
     = run env (migrateOpenPrs_range githubOwner ghRepo false values)
         (history1 ++ [create; Called (fmt_Print text);
                       Called (time_Sleep GitHubRateLimitSleep)])) /\
  (open_pr_skippable err = false ->
   run env (migrateOpenPrs_range githubOwner ghRepo false (pr :: values)) history
   = (history1 ++ [create],
      Exited (str "failed to create PR %s, error: %s")
        [a_string (Itoa (ID pr)); a_string err])).
Proof.
  intros Hopen Hreq Hcreate create.
  cbn [migrateOpenPrs_range]. unfold is_open in Hopen. rewrite Hopen. cbn [negb].
  rewrite run_bind, Hreq. cbv iota.
  rewrite run_bind, run_call, Hcreate. fold create.
  unfold open_pr_skippable. split; intros Hskip.
  - destruct (Contains err (str "A pull request already exists")) eqn:E1.
    + eexists. rewrite run_bind. unfold Print at 1. rewrite run_call.
      rewrite run_bind. unfold Sleep at 1. rewrite run_call.
      rewrite <- !app_assoc. reflexivity.
    + cbn [orb] in Hskip. rewrite Hskip.
      eexists. rewrite run_bind. unfold Print at 1. rewrite run_call.
      rewrite run_bind. unfold Sleep at 1. rewrite run_call.
      rewrite <- !app_assoc. reflexivity.
  - apply orb_false_iff in Hskip. destruct Hskip as [E1 E2]. rewrite E1, E2.
    rewrite run_bind. reflexivity.
Qed.

End Passes.


Lemma open_pr_failure_policy_witness :
  (exists history,
     run (demo_env demo_response (Err already_exists) None)
       (migrateOpenPrs_range (str "acme") demo_ghRepo false [demo_open_pr; demo_merged_pr]) []
     = run (demo_env demo_response (Err already_exists) None)
         (migrateOpenPrs_range (str "acme") demo_ghRepo false [demo_merged_pr]) history) /\
  snd (run (demo_env demo_response (Err (str "500 Internal Server Error")) None)
         (migrateOpenPrs_range (str "acme") demo_ghRepo false [demo_open_pr; demo_merged_pr]) [])
  = Exited (str "failed to create PR %s, error: %s")
      [a_string (str "12"); a_string (str "500 Internal Server Error")].
Proof.
  split.
  - destruct (open_pr_failure_policy (demo_env demo_response (Err already_exists) None)
                [] [Called time_Now] (str "acme") demo_ghRepo demo_open_pr [demo_merged_pr]
                _ already_exists eq_refl eq_refl eq_refl) as [Hskip _].
    destruct (Hskip eq_refl) as [text E].
    eexists. exact E.
  - destruct (open_pr_failure_policy
                (demo_env demo_response (Err (str "500 Internal Server Error")) None)
                [] [Called time_Now] (str "acme") demo_ghRepo demo_open_pr [demo_merged_pr]
                _ (str "500 Internal Server Error") eq_refl eq_refl eq_refl) as [_ Hfatal].
    rewrite (Hfatal eq_refl). reflexivity.
Defined.

(** ** The record adapter *)

Section Adapter.
Context {lib : GoLib}.

Lemma snd_dap (A B : Type) (f : decoded (A -> B)) (x : decoded A) :
  snd (dap f x) = snd f ++ snd x.
Proof. reflexivity. Qed.

Lemma decodePullRequest_Ok (m : gomap) (pr : PullRequest) :
  decodePullRequest (VMap m) = Ret (Ok pr) ->
  pr = fst (decodePullRequestFields [] m).
Proof.
  unfold decodePullRequest. cbn [assert_map bind].
  destruct (is_string (map_index m (str "type")) (str "error")); [discriminate|].
  destruct (snd (decodePullRequestFields [] m)); [|discriminate].
  intros H. congruence.
Qed.

Lemma decodePullRequestFields_Author (name : gostring) (m : gomap) :
  Author (fst (decodePullRequestFields name m))
  = fst (decodeMap (sub name (str "Author")) (field_lookup m (str "Author"))).
Proof. reflexivity. Qed.

Lemma decodePullRequestFields_Source (name : gostring) (m : gomap) :
  Source (fst (decodePullRequestFields name m))
  = fst (decodeMap (sub name (str "Source")) (field_lookup m (str "Source"))).
Proof. reflexivity. Qed.

Lemma fst_decodeMap (name : gostring) (input : option value) :
  fst (decodeMap name input) = match input with Some (VMap a) => a | _ => [] end.
Proof. destruct input as [[| | | | |]|]; reflexivity. Qed.

(** A response without a list under [values] makes the decoder panic. *)
Lemma decodePullRequests_without_values (m : gomap) :
  (forall l, map_index m (str "values") <> VList l) ->
  decodePullRequests (VMap m) = Panic.
Proof.
  intros H. unfold decodePullRequests.
  destruct (map_index m (str "values")) as [| | | |l|]; try reflexivity.
  contradiction (H l). reflexivity.
Qed.

Lemma decodePullRequest_errors (m : gomap) :
  is_string (map_index m (str "type")) (str "error") = false ->
  (exists pr, decodePullRequest (VMap m) = Ret (Ok pr))
  <-> snd (decodePullRequestFields [] m) = [].
Proof.
  intros Htype. unfold decodePullRequest. cbn [assert_map bind]. rewrite Htype.
  destruct (snd (decodePullRequestFields [] m)) as [|f fields]; split.
  - reflexivity.
  - intros _. eexists. reflexivity.
  - intros [pr H]. discriminate H.
  - discriminate.
Qed.

Lemma decodePullRequestFields_errors_agree (m m' : gomap) :
  same_but_author_and_source m m' ->
  snd (decodePullRequestFields [] m) = snd (decodePullRequestFields [] m').
Proof.
  intros [_ [Hother [[a [a' [Ha Ha']]] [s0 [s' [Hs Hs']]]]]].
  unfold other_fields in Hother. cbn [map] in Hother.
  unfold decodePullRequestFields. rewrite !snd_dap. unfold field.
  rewrite Ha, Ha', Hs, Hs'.
  repeat match type of Hother with
  | Forall _ (_ :: _) =>
      rewrite (Forall_inv Hother); apply Forall_inv_tail in Hother
  end.
  reflexivity.
Qed.

Lemma request_needs_the_keys (pr : PullRequest) (ghRepo : github.Repository)
    (env : Env) (history : list Event) :
  has_display_name pr && has_branch_name pr = false ->
  snd (run env (migrateOpenPrs_request ghRepo pr) history) = Panicked /\
  snd (run env (createClosedPrs_request pr) history) = Panicked.
Proof.
  unfold has_display_name, has_branch_name, migrateOpenPrs_request,
    createClosedPrs_request.
  destruct (map_index (Author pr) (str "display_name")) as [| | |author| |];
    cbn [assert_string bind run snd andb]; try (split; reflexivity).
  destruct (map_index (Source pr) (str "branch")) as [| | | | |branch];
    cbn [assert_map assert_string bind run snd call]; try (split; reflexivity).
  destruct (map_index branch (str "name")) as [| | |name| |];
    cbn [assert_map assert_string bind run snd]; try (split; reflexivity).
  discriminate.
Qed.

(** C3 (as amended).  Decoding fails with the error [not a valid format]
    when the response is not a mapping, and panics when the response is a
    mapping without a list under [values].  The keys inside the author and
    source mappings are not looked at when decoding: an entry that differs
    from one that decodes only in what the two mappings hold decodes as
    well, and the record carries both mappings as given, with nothing put
    in for a missing key.  The keys are read when the record is used: a
    record without a string under [display_name] in its author mapping, or
    without a mapping under [branch] in its source mapping, or without a
    string under [name] in that one, makes every run of the pass for its
    state ([OPEN], [MERGED]) end in a panic when the pass reaches it, dry
    run or not. *)
Theorem decoder_leaves_keys_to_the_passes
    (m : gomap) (pr : PullRequest) (githubOwner : gostring) (ghRepo : github.Repository)
    (dryRun : bool) (later : list PullRequest) :
  decodePullRequest (VMap m) = Ret (Ok pr) ->
  (forall v, (forall m', v <> VMap m') ->
     decodePullRequests v = Ret (Err (errors_New (str "not a valid format")))) /\
  (forall prResponseMap, (forall l, map_index prResponseMap (str "values") <> VList l) ->
     decodePullRequests (VMap prResponseMap) = Panic) /\
  (forall m', same_but_author_and_source m m' ->
     exists pr', decodePullRequest (VMap m') = Ret (Ok pr')) /\
  Author pr = match field_lookup m (str "Author") with Some (VMap a) => a | _ => [] end /\
  Source pr = match field_lookup m (str "Source") with Some (VMap a) => a | _ => [] end /\
  (has_display_name pr && has_branch_name pr = false ->
   forall (env : Env) (history : list Event),
     (is_open pr = true ->
      snd (run env (migrateOpenPrs_range githubOwner ghRepo dryRun (pr :: later)) history)
      = Panicked) /\
     (is_merged pr = true ->
      snd (run env (createClosedPrs_range githubOwner ghRepo dryRun (pr :: later)) history)
      = Panicked)).
Proof.
  intros Hdec.
  assert (Htype : is_string (map_index m (str "type")) (str "error") = false).
  { revert Hdec. unfold decodePullRequest. cbn [assert_map bind].
    destruct (is_string (map_index m (str "type")) (str "error"));
      [discriminate | reflexivity]. }
  pose proof (proj1 (decodePullRequest_errors m Htype) (ex_intro _ pr Hdec)) as Herrs.
  apply decodePullRequest_Ok in Hdec.
  split; [|split; [|split; [|split; [|split]]]].
  - intros v Hv. destruct v as [| | | | |m']; try reflexivity.
    contradiction (Hv m'). reflexivity.
  - apply decodePullRequests_without_values.
  - intros m' Hsame. apply decodePullRequest_errors.
    + destruct Hsame as [Ht _]. rewrite <- Ht. exact Htype.
    + rewrite <- (decodePullRequestFields_errors_agree m m' Hsame). exact Herrs.
  - subst pr. rewrite decodePullRequestFields_Author. apply fst_decodeMap.
  - subst pr. rewrite decodePullRequestFields_Source. apply fst_decodeMap.
  - intros Hkeys env history.
    split; intros Hstate.
    + cbn [migrateOpenPrs_range]. unfold is_open in Hstate. rewrite Hstate.
      cbn [negb]. rewrite run_bind.
      destruct (request_needs_the_keys pr ghRepo env history Hkeys) as [Hopen _].
      destruct (run env (migrateOpenPrs_request ghRepo pr) history) as [h [a|f args|]];
        cbn [snd] in Hopen; try discriminate Hopen. reflexivity.
    + cbn [createClosedPrs_range]. unfold is_merged in Hstate. rewrite Hstate.
      cbn [negb]. rewrite run_bind.
      destruct (request_needs_the_keys pr ghRepo env history Hkeys) as [_ Hmerged].
      destruct (run env (createClosedPrs_request pr) history) as [h [a|f args|]];
        cbn [snd] in Hmerged; try discriminate Hmerged. reflexivity.
Qed.

Lemma decodeStruct_Message (em : gomap) (msg : gostring) :
  field_lookup em (str "Message") = Some (VStr msg) ->
  snd (field decodeStringSliceMap [] em "Fields") = [] ->
  mapstructure_Decode_BitbucketError (VMap em)
  = Ok {| bitbucket.Message := msg;
          bitbucket.Fields := fst (field decodeStringSliceMap [] em "Fields") |}.
Proof.
  intros Hmsg Hfields.
  unfold mapstructure_Decode_BitbucketError, decodeStruct, decodeBitbucketErrorFields.
  unfold dap, dpure. cbn [fst snd app].
  unfold field at 1 3. rewrite Hmsg. cbn [decodeString fst snd app].
  rewrite Hfields. reflexivity.
Qed.

Lemma decodeStruct_errors (em : gomap) :
  snd (field decodeString [] em "Message") ++ snd (field decodeStringSliceMap [] em "Fields")
  <> [] ->
  mapstructure_Decode_BitbucketError (VMap em)
  = Err (mapstructure_Error
           (snd (field decodeString [] em "Message")
            ++ snd (field decodeStringSliceMap [] em "Fields"))).
Proof.
  intros H.
  unfold mapstructure_Decode_BitbucketError, decodeStruct, decodeBitbucketErrorFields.
  rewrite !snd_dap. cbn [dpure snd app].
  destruct (snd (field decodeString [] em "Message")
            ++ snd (field decodeStringSliceMap [] em "Fields")) as [|f fields];
    [contradiction H; reflexivity | reflexivity].
Qed.

(** C7 (as amended).  An entry whose [type] is the string [error] never
    decodes to a record: [decodePullRequest] returns the error made by
    [DecodeError], and neither a record nor a panic.  That error is
    [errors.New] of the message text when the entry embeds an error object
    with a message text and a well-formed or absent [fields] entry; it is
    the error with the empty text when the entry embeds no error object; and
    when the message or the [fields] entry of the error object does not
    decode, it is the error of the decoding library, which names what did
    not decode and does not carry the message. *)
Theorem error_entry_is_a_decode_error (m : gomap) :
  map_lookup m (str "type") = Some (VStr (str "error")) ->
  decodePullRequest (VMap m) = Ret (Err (DecodeError m)) /\
  (forall pr, decodePullRequest (VMap m) <> Ret (Ok pr)) /\
  (forall em msg,
     map_lookup m (str "error") = Some (VMap em) ->
     field_lookup em (str "Message") = Some (VStr msg) ->
     snd (field decodeStringSliceMap [] em "Fields") = [] ->
     DecodeError m = errors_New msg) /\
  (map_lookup m (str "error") = None -> DecodeError m = errors_New []) /\
  (forall em,
     map_lookup m (str "error") = Some (VMap em) ->
     snd (field decodeString [] em "Message")
     ++ snd (field decodeStringSliceMap [] em "Fields") <> [] ->
     DecodeError m
     = mapstructure_Error
         (snd (field decodeString [] em "Message")
          ++ snd (field decodeStringSliceMap [] em "Fields")) /\
     forall msg, DecodeError m <> errors_New msg).
Proof.
  intros Htype.
  assert (E : decodePullRequest (VMap m) = Ret (Err (DecodeError m))).
  { unfold decodePullRequest. cbn [assert_map bind].
    unfold map_index. rewrite Htype. cbn [is_string]. rewrite streq_refl. reflexivity. }
  split; [exact E|]. split; [|split; [|split]].
  - intros pr H. rewrite E in H. discriminate H.
  - intros em msg Herr Hmsg Hfields. unfold DecodeError, map_index. rewrite Herr.
    rewrite (decodeStruct_Message em msg Hmsg Hfields). reflexivity.
  - intros Herr. unfold DecodeError, map_index. rewrite Herr. reflexivity.
  - intros em Herr Hbad.
    assert (Ed : DecodeError m
                 = mapstructure_Error
                     (snd (field decodeString [] em "Message")
                      ++ snd (field decodeStringSliceMap [] em "Fields"))).
    { unfold DecodeError, map_index. rewrite Herr.
      rewrite (decodeStruct_errors em Hbad). reflexivity. }
    split; [exact Ed|]. intros msg. rewrite Ed. discriminate.
Qed.

End Adapter.

Lemma decoder_leaves_keys_to_the_passes_witness :
  snd (run (demo_env keyless_response (Ok {| github.PR_Number := Some 1%Z |}) None)
         (migrateOpenPrs_range (str "acme") demo_ghRepo false [decoded_entry keyless_entry])
         [])
  = Panicked /\
  exists pr', decodePullRequest named_entry = Ret (Ok pr').
Proof.
  destruct (decoder_leaves_keys_to_the_passes
              [ (str "type", VStr (str "pullrequest"));
                (str "id", VNum 5);
                (str "title", VStr (str "Anonymous change"));
                (str "state", VStr (str "OPEN"));
                (str "author", VMap [(str "nickname", VStr (str "ghost"))]);
                (str "source",
                 VMap [(str "branch", VMap [(str "name", VStr (str "patch"))])]) ]
              (decoded_entry keyless_entry) (str "acme") demo_ghRepo false []
              eq_refl) as [_ [_ [Hsame [_ [_ Hkey]]]]].
  split.
  - destruct (Hkey eq_refl
                (demo_env keyless_response (Ok {| github.PR_Number := Some 1%Z |}) None) [])
      as [Hopen _].
    exact (Hopen eq_refl).
  - apply (Hsame [ (str "type", VStr (str "pullrequest"));
                   (str "id", VNum 5);
                   (str "title", VStr (str "Anonymous change"));
                   (str "state", VStr (str "OPEN"));
                   (str "author", VMap [(str "display_name", VStr (str "Ghost"))]);
                   (str "source",
                    VMap [(str "branch", VMap [(str "name", VStr (str "patch"))])]) ]).
    split; [reflexivity|]. split.
    + unfold other_fields. cbn [map]. repeat constructor.
    + split; eexists; eexists; split; reflexivity.
Defined.

(** C3 (as stated) fails.  The response [keyless_response] holds an open
    pull request whose author mapping has no [display_name]: it decodes
    without error, [getPrs] returns it, and the open-PR pass panics on it. *)
Lemma missing_display_name_is_not_a_decode_error :
  exists prs,
    decodePullRequests keyless_response = Ret (Ok prs) /\
    map (fun pr => map_lookup (Author pr) (str "display_name")) (Values prs) = [None] /\
    snd (run (demo_env keyless_response (Ok {| github.PR_Number := Some 1%Z |}) None)
           (getPrs (str "acme") (str "demo") (str "main")) [])
    = Returned prs /\
    migrateOpenPrs (str "acme") demo_ghRepo prs false = Panic.
Proof.
  eexists. split; [vm_compute; reflexivity|].
  split; [vm_compute; reflexivity|].
  split; vm_compute; reflexivity.
Qed.

(** C7 (as stated) fails.  An error entry with a message text and a
    [fields] entry that is not a mapping yields the error of the decoding
    library, which names [Fields] and does not carry the message. *)
Lemma malformed_fields_hide_the_message :
  decodePullRequest
    (VMap [ (str "type", VStr (str "error"));
            (str "error", VMap [ (str "message", VStr (str "Repository not found"));
                                 (str "fields", VStr (str "oops")) ]) ])
  = Ret (Err (mapstructure_Error [str "Fields"])) /\
  mapstructure_Error [str "Fields"] <> errors_New (str "Repository not found").
Proof. split; [vm_compute; reflexivity | discriminate]. Qed.

Lemma error_entry_is_a_decode_error_witness :
  decodePullRequest
    (VMap [ (str "type", VStr (str "error"));
            (str "error", VMap [(str "message", VStr (str "Repository not found"))]) ])
  = Ret (Err (errors_New (str "Repository not found"))).
Proof.
  destruct (error_entry_is_a_decode_error
              [ (str "type", VStr (str "error"));
                (str "error", VMap [(str "message", VStr (str "Repository not found"))]) ]
              eq_refl) as [E [_ [Hmsg _]]].
  rewrite E.
  rewrite (Hmsg [(str "message", VStr (str "Repository not found"))]
             (str "Repository not found") eq_refl eq_refl eq_refl).
  reflexivity.
Defined.

(** ** What the stages return *)

Section Returns.
Context {lib : GoLib}.

Lemma Returns_only_bind (A B : Type) (Q : B -> Prop) (p : Prog A) (f : A -> Prog B) :
  (forall a, Returns_only Q (f a)) -> Returns_only Q (bind p f).
Proof.
  intros Hf. induction p as [a|format args| |R c k IH]; simpl.
  - apply Hf.
  - constructor.
  - constructor.
  - constructor. exact IH.
Qed.

Lemma Returns_only_run (A : Type) (Q : A -> Prop) (p : Prog A) :
  Returns_only Q p ->
  forall (env : Env) (history history' : list Event) (a : A),
    run env p history = (history', Returned a) -> Q a.
Proof.
  intros Hp. induction Hp as [a Ha|format args| |R c k Hk IH];
    intros env history history' b E; simpl in E.
  - congruence.
  - discriminate E.
  - discriminate E.
  - eapply IH. exact E.
Qed.

Lemma createRepo_wait_returns (attempts : nat) (i : Z) (repo : bitbucket.Repository)
    (config : settings.t) (ghRepo : github.Repository) :
  Returns_only (eq ghRepo) (createRepo_wait attempts i repo config ghRepo).
Proof.
  revert i. induction attempts as [|attempts IH]; intros i; cbn [createRepo_wait].
  - constructor.
  - apply Returns_only_bind. intros _. apply Returns_only_bind. intros response.
    destruct response.
    + apply Returns_only_bind. intros _. constructor. reflexivity.
    + apply Returns_only_bind. intros _. apply Returns_only_bind. intros _. apply IH.
Qed.

Lemma createRepo_returns (repo : bitbucket.Repository) (config : settings.t) :
  Returns_only (eq (createRepo_ghRepo repo config)) (createRepo repo config).
Proof.
  unfold createRepo. destruct (settings.dryRun config).
  - constructor. reflexivity.
  - apply Returns_only_bind. intros _. apply Returns_only_bind. intros err.
    apply Returns_only_bind. intros _. apply createRepo_wait_returns.
Qed.

Lemma createRepo_submits (env : Env) (history : list Event)
    (repo : bitbucket.Repository) (config : settings.t) :
  settings.dryRun config = false ->
  exists text calls,
    fst (run env (createRepo repo config) history)
    = history ++ Called (fmt_Print text)
        :: Called (gh_Repositories_Create (settings.ghOrg config)
                     (createRepo_ghRepo repo config))
        :: calls.
Proof.
  intros H. unfold createRepo. rewrite H. unfold Print, call. cbn [bind run].
  match goal with
  | |- context [run env ?p ?h] => destruct (run_history _ env p h) as [calls E]
  end.
  eexists. exists calls. rewrite E, <- !app_assoc. reflexivity.
Qed.

(** C5.  The descriptor that [createRepo] builds has for visibility the
    configured private-visibility value if the source repository is private,
    and [public] otherwise: this holds of the descriptor it returns, whenever
    it returns (in a dry run, or after GitHub has shown the repository), and
    of the descriptor it submits to GitHub when the run is not a dry run. *)
Theorem createRepo_visibility
    (env : Env) (history : list Event) (repo : bitbucket.Repository)
    (config : settings.t) :
  let visibility :=
    if bitbucket.Is_private repo then settings.visibility config else str "public" in
  (forall history' ghRepo,
     run env (createRepo repo config) history = (history', Returned ghRepo) ->
     github.Visibility ghRepo = visibility) /\
  (settings.dryRun config = false ->
   exists text calls ghRepo,
     fst (run env (createRepo repo config) history)
     = history ++ Called (fmt_Print text)
         :: Called (gh_Repositories_Create (settings.ghOrg config) ghRepo) :: calls /\
     github.Visibility ghRepo = visibility).
Proof.
  intros visibility. split.
  - intros history' ghRepo E.
    rewrite <- (Returns_only_run _ _ _ (createRepo_returns repo config) _ _ _ _ E).
    reflexivity.
  - intros H. destruct (createRepo_submits env history repo config H) as [text [calls E]].
    exists text, calls, (createRepo_ghRepo repo config). split; [exact E | reflexivity].
Qed.

Lemma cleanTopic_map (input : gostring) :
  cleanTopic input =
  map (fun r => if N.eqb (ToLower_rune r) 32 then 45%N else ToLower_rune r) input.
Proof.
  unfold cleanTopic, ToLower.
  change (str " ") with [32%N]. change (str "-") with [45%N].
  rewrite ReplaceAll_single, map_map. reflexivity.
Qed.

(** C9.  The descriptor that [createRepo] builds has for topics the marker
    [migratedFromBitbucket] and the clean-up of the source project name,
    which is the name with every code point lower-cased and every space then
    replaced by a hyphen: this holds of the descriptor it returns, whenever
    it returns, and of the descriptor it submits to GitHub when the run is
    not a dry run. *)
Theorem createRepo_topics
    (env : Env) (history : list Event) (repo : bitbucket.Repository)
    (config : settings.t) :
  let topics :=
    [str "migratedFromBitbucket";
     map (fun r => if N.eqb (ToLower_rune r) 32 then 45%N else ToLower_rune r)
       (bitbucket.Project_Name repo)] in
  (forall history' ghRepo,
     run env (createRepo repo config) history = (history', Returned ghRepo) ->
     github.Topics ghRepo = topics) /\
  (settings.dryRun config = false ->
   exists text calls ghRepo,
     fst (run env (createRepo repo config) history)
     = history ++ Called (fmt_Print text)
         :: Called (gh_Repositories_Create (settings.ghOrg config) ghRepo) :: calls /\
     github.Topics ghRepo = topics).
Proof.
  intros topics. unfold topics. rewrite <- cleanTopic_map. split.
  - intros history' ghRepo E.
    rewrite <- (Returns_only_run _ _ _ (createRepo_returns repo config) _ _ _ _ E).
    reflexivity.
  - intros H. destruct (createRepo_submits env history repo config H) as [text [calls E]].
    exists text, calls, (createRepo_ghRepo repo config). split; [exact E | reflexivity].
Qed.

(** *** The order of the records *)

Variable E : Type.
Variable key : E -> Z.

Lemma cmp_Compare_neg (x y : Z) : Z.ltb (cmp_Compare x y) 0 = true <-> (x < y)%Z.
Proof.
  unfold cmp_Compare. destruct (Z.compare_spec x y) as [C|C|C]; split; intros H;
    try reflexivity; try discriminate H; lia.
Qed.

Lemma insert_leftwards_Permutation (x : E) (before : list E) :
  Permutation (insert_leftwards (by_key key) x before) (x :: before).
Proof.
  induction before as [|y before IH]; cbn [insert_leftwards]; [reflexivity|].
  destruct (Z.ltb ((by_key key) x y) 0); [|reflexivity].
  rewrite IH. apply perm_swap.
Qed.

Lemma insert_leftwards_sorted (x : E) (before : list E) :
  StronglySorted (fun a b => (key b <= key a)%Z) before ->
  StronglySorted (fun a b => (key b <= key a)%Z) (insert_leftwards (by_key key) x before).
Proof.
  induction before as [|y before IH]; intros Hs; cbn [insert_leftwards].
  - constructor; constructor.
  - apply StronglySorted_inv in Hs. destruct Hs as [Hs Hy].
    destruct (Z.ltb ((by_key key) x y) 0) eqn:C.
    + apply cmp_Compare_neg in C. constructor; [apply IH, Hs|].
      eapply Permutation_Forall.
      * symmetry. apply insert_leftwards_Permutation.
      * constructor; [lia | exact Hy].
    + assert (Hxy : (key y <= key x)%Z).
      { destruct (Z.le_gt_cases (key y) (key x)) as [H|H]; [exact H|].
        apply cmp_Compare_neg in H. unfold by_key in C. congruence. }
      constructor; [constructor; assumption|].
      constructor; [exact Hxy|].
      eapply Forall_impl; [|exact Hy]. cbv beta. intros a Ha. lia.
Qed.

Lemma StronglySorted_snoc (R : E -> E -> Prop) (l : list E) (a : E) :
  StronglySorted R l -> Forall (fun b => R b a) l -> StronglySorted R (l ++ [a]).
Proof.
  induction l as [|b l IH]; intros Hs Hf; cbn [app].
  - constructor; constructor.
  - apply StronglySorted_inv in Hs. destruct Hs as [Hs Hb].
    apply Forall_cons_iff in Hf. destruct Hf as [Hba Hf].
    constructor; [apply IH; assumption|].
    apply Forall_app. split; [exact Hb | constructor; [exact Hba | constructor]].
Qed.

Lemma StronglySorted_rev (l : list E) :
  StronglySorted (fun a b => (key b <= key a)%Z) l ->
  StronglySorted (fun a b => (key a <= key b)%Z) (rev l).
Proof.
  induction l as [|a l IH]; intros Hs; cbn [rev]; [constructor|].
  apply StronglySorted_inv in Hs. destruct Hs as [Hs Ha].
  apply StronglySorted_snoc; [apply IH, Hs|].
  apply Forall_rev. exact Ha.
Qed.

Lemma SortFunc_loop_sorted (data before : list E) :
  StronglySorted (fun a b => (key b <= key a)%Z) before ->
  StronglySorted (fun a b => (key b <= key a)%Z)
    (fold_left (fun before x => insert_leftwards (by_key key) x before) data before).
Proof.
  revert before. induction data as [|x data IH]; intros before Hs; cbn [fold_left].
  - exact Hs.
  - apply IH, insert_leftwards_sorted, Hs.
Qed.

Lemma SortFunc_loop_Permutation (data before : list E) :
  Permutation (fold_left (fun before x => insert_leftwards (by_key key) x before) data before)
    (rev data ++ before).
Proof.
  revert before. induction data as [|x data IH]; intros before; cbn [fold_left rev].
  - reflexivity.
  - rewrite IH, insert_leftwards_Permutation, <- app_assoc.
    apply Permutation_app_head. reflexivity.
Qed.

Lemma SortFunc_sorted (data : list E) :
  non_decreasing key (SortFunc data (by_key key)).
Proof.
  unfold SortFunc, non_decreasing. apply StronglySorted_rev, SortFunc_loop_sorted. constructor.
Qed.

Lemma SortFunc_Permutation (data : list E) :
  Permutation (SortFunc data (by_key key)) data.
Proof.
  unfold SortFunc. rewrite <- Permutation_rev, SortFunc_loop_Permutation, app_nil_r.
  symmetry. apply Permutation_rev.
Qed.

End Returns.

Section Order.
Context {lib : GoLib}.

Lemma getPrs_returns (owner repo destinationBranch : gostring) :
  Returns_only (fun prs => non_decreasing ID (Values prs))
    (getPrs owner repo destinationBranch).
Proof.
  unfold getPrs. apply Returns_only_bind. intros _.
  apply Returns_only_bind. intros r. destruct r as [response|err]; [|constructor].
  apply Returns_only_bind. intros r. destruct r as [prs|err]; [|constructor].
  constructor. cbn [Values]. apply (SortFunc_sorted PullRequest ID).
Qed.

End Order.

Lemma createRepo_visibility_witness :
  github.Visibility demo_ghRepo = str "internal".
Proof.
  destruct (createRepo_visibility
              (demo_env demo_response (Ok {| github.PR_Number := Some 1%Z |}) None)
              [] demo_repository (demo_config false)) as [Hreturned _].
  apply (Hreturned
           (fst (run (demo_env demo_response (Ok {| github.PR_Number := Some 1%Z |}) None)
                   (createRepo demo_repository (demo_config false)) []))
           demo_ghRepo).
  reflexivity.
Defined.

Lemma createRepo_topics_witness :
  github.Topics demo_ghRepo = [str "migratedFromBitbucket"; str "my-project"].
Proof.
  destruct (createRepo_topics
              (demo_env demo_response (Ok {| github.PR_Number := Some 1%Z |}) None)
              [] demo_repository (demo_config false)) as [Hreturned _].
  rewrite (Hreturned
             (fst (run (demo_env demo_response (Ok {| github.PR_Number := Some 1%Z |}) None)
                     (createRepo demo_repository (demo_config false)) []))
             demo_ghRepo eq_refl).
  reflexivity.
Defined.

(** * Further properties *)

(** ** Start-up *)

Lemma streq_nil (s : gostring) : streq s [] = false <-> s <> [].
Proof.
  split.
  - intros H E. subst s. discriminate H.
  - intros H. destruct s; [contradiction H; reflexivity | reflexivity].
Qed.

Lemma getEnvOrDefault_not_empty (Getenv : gostring -> gostring)
    (envVar defaultVal : gostring) :
  defaultVal <> [] -> getEnvOrDefault Getenv envVar defaultVal <> [].
Proof.
  intros H. unfold getEnvOrDefault.
  destruct (streq (Getenv envVar) []) eqn:E; [exact H|].
  apply streq_nil. exact E.
Qed.

Ltac parse_bools :=
  repeat match goal with
  | H : context [getEnvVarAsBool ?g ?v] |- _ =>
      unfold getEnvVarAsBool in H at 1;
      destruct (ParseBool (g v)) eqn:?; cbn [startup_bind] in H; [|discriminate H]
  end.

Lemma main_config_Started
    (godotenv_Load : option errtext) (Getenv : gostring -> gostring)
    (config : settings.t) :
  main_config godotenv_Load Getenv = Started config ->
  settings.bbWorkspace config <> [] /\
  settings.bbUsername config <> [] /\
  settings.bbPassword config <> [] /\
  settings.ghToken config <> [] /\
  (settings.ghOrg config <> [] /\ settings.ghUser config = [] /\
   settings.ghOwner config = settings.ghOrg config
   \/ settings.ghOrg config = [] /\ settings.ghUser config <> [] /\
      settings.ghOwner config = settings.ghUser config) /\
  settings.ghOwner config <> [] /\
  settings.visibility config <> [] /\
  settings.runProgram config <> [].
Proof.
  unfold main_config. destruct godotenv_Load; [discriminate|]. intros H.
  parse_bools. cbv zeta in H. cbn [settings.bbWorkspace settings.bbUsername
    settings.bbPassword settings.ghToken settings.ghUser settings.ghOrg] in H.
  destruct (streq (Getenv (str "BITBUCKET_WORKSPACE")) []) eqn:W; [discriminate H|].
  destruct (streq (Getenv (str "BITBUCKET_USER")) []) eqn:U; [discriminate H|].
  destruct (streq (Getenv (str "BITBUCKET_TOKEN")) []) eqn:T; [discriminate H|].
  destruct (streq (Getenv (str "GITHUB_TOKEN")) []) eqn:G; [discriminate H|].
  cbn [orb] in H.
  assert (Hvis : getEnvOrDefault Getenv (str "GITHUB_PRIVATE_VISIBILITY") (str "internal") <> [])
    by (apply getEnvOrDefault_not_empty; discriminate).
  assert (Hrun : getEnvOrDefault Getenv (str "GITHUB_RUN_PROGRAM") (str "noop") <> [])
    by (apply getEnvOrDefault_not_empty; discriminate).
  apply streq_nil in W, U, T, G.
  destruct (streq (Getenv (str "GITHUB_USER")) []) eqn:GU;
    destruct (streq (Getenv (str "GITHUB_ORG")) []) eqn:GO;
    cbn [andb orb negb] in H; try discriminate H;
    injection H as H; subst config;
    cbn [settings.bbWorkspace settings.bbUsername settings.bbPassword settings.ghToken
         settings.ghUser settings.ghOrg settings.ghOwner settings.visibility
         settings.runProgram Join].
  - apply streq_eq in GU. apply streq_nil in GO. rewrite GU, app_nil_r.
    repeat split; auto.
  - apply streq_eq in GO. apply streq_nil in GU. rewrite GO. cbn [app].
    repeat split; auto.
Qed.


Lemma main_config_defaults (godotenv_Load : option errtext)
    (Getenv : gostring -> gostring) (config : settings.t) :
  main_config godotenv_Load Getenv = Started config ->
  settings.visibility config
  = getEnvOrDefault Getenv (str "GITHUB_PRIVATE_VISIBILITY") (str "internal") /\
  settings.runProgram config
  = getEnvOrDefault Getenv (str "GITHUB_RUN_PROGRAM") (str "noop").
Proof.
  unfold main_config. destruct godotenv_Load; [discriminate|]. intros H.
  parse_bools. cbv zeta in H.
  repeat match type of H with
  | (if ?b then _ else _) = _ => destruct b; [discriminate H|]
  end.
  injection H as H. subst config. cbn [settings.visibility settings.runProgram].
  split; reflexivity.
Qed.

Lemma getEnvOrDefault_cases (Getenv : gostring -> gostring) (envVar defaultVal : gostring) :
  (Getenv envVar = [] -> getEnvOrDefault Getenv envVar defaultVal = defaultVal) /\
  (Getenv envVar <> [] -> getEnvOrDefault Getenv envVar defaultVal = Getenv envVar).
Proof.
  unfold getEnvOrDefault. split; intros H.
  - rewrite H. reflexivity.
  - apply streq_nil in H. rewrite H. reflexivity.
Qed.

(** X1.  Every configuration with which [main] goes on has the Bitbucket
    workspace, user and token and the GitHub token set, exactly one of the
    GitHub organization and the GitHub user set, that one as the owner, and a
    visibility and a post-clone program that are not empty: the visibility
    is [internal] when GITHUB_PRIVATE_VISIBILITY is empty or unset and its
    value otherwise, the program is [noop] when GITHUB_RUN_PROGRAM is empty
    or unset and its value otherwise. *)
Theorem main_config_is_complete
    (godotenv_Load : option errtext) (Getenv : gostring -> gostring)
    (config : settings.t) :
  main_config godotenv_Load Getenv = Started config ->
  settings.bbWorkspace config <> [] /\
  settings.bbUsername config <> [] /\
  settings.bbPassword config <> [] /\
  settings.ghToken config <> [] /\
  (settings.ghOrg config <> [] /\ settings.ghUser config = [] /\
   settings.ghOwner config = settings.ghOrg config
   \/ settings.ghOrg config = [] /\ settings.ghUser config <> [] /\
      settings.ghOwner config = settings.ghUser config) /\
  settings.ghOwner config <> [] /\
  settings.visibility config <> [] /\
  settings.runProgram config <> [] /\
  (Getenv (str "GITHUB_PRIVATE_VISIBILITY") = [] ->
   settings.visibility config = str "internal") /\
  (Getenv (str "GITHUB_PRIVATE_VISIBILITY") <> [] ->
   settings.visibility config = Getenv (str "GITHUB_PRIVATE_VISIBILITY")) /\
  (Getenv (str "GITHUB_RUN_PROGRAM") = [] -> settings.runProgram config = str "noop") /\
  (Getenv (str "GITHUB_RUN_PROGRAM") <> [] ->
   settings.runProgram config = Getenv (str "GITHUB_RUN_PROGRAM")).
Proof.
  intros H. destruct (main_config_defaults _ _ _ H) as [Hvis Hrun].
  destruct (main_config_Started _ _ _ H) as [H1 [H2 [H3 [H4 [H5 [H6 [H7 H8]]]]]]].
  repeat (split; [assumption|]).
  rewrite Hvis, Hrun.
  destruct (getEnvOrDefault_cases Getenv (str "GITHUB_PRIVATE_VISIBILITY") (str "internal"))
    as [V1 V2].
  destruct (getEnvOrDefault_cases Getenv (str "GITHUB_RUN_PROGRAM") (str "noop"))
    as [R1 R2].
  repeat split; assumption.
Qed.

Lemma main_config_is_complete_witness :
  settings.ghOwner
    (match main_config None demo_Getenv with
     | Started config => config
     | _ => demo_config true
     end) = str "ada".
Proof.
  destruct (main_config_is_complete None demo_Getenv
              (match main_config None demo_Getenv with
               | Started config => config
               | _ => demo_config true
               end) eq_refl) as [_ [_ [_ [_ [[[H _]|[_ [_ H]]] _]]]]].
  - contradiction H. reflexivity.
  - rewrite H. reflexivity.
Defined.

(** X2.  Each of the seven boolean variables has to hold a text that
    [strconv.ParseBool] takes: if one of them does not (an unset variable
    reads as the empty text, which it does not take), [main] stops through
    [os.Exit(2)] before anything else is looked at. *)
Theorem main_needs_every_bool_variable
    (Getenv : gostring -> gostring) (envVar : gostring) :
  In envVar bool_env_vars ->
  ParseBool (Getenv envVar) = None ->
  ParseBool [] = None /\
  exists printed, main_config None Getenv = os_Exit 2 printed.
Proof.
  intros Hin Hbad. split; [reflexivity|].
  unfold main_config, getEnvVarAsBool.
  destruct (ParseBool (Getenv (str "BITBUCKET_REVOKEOLDPERMS"))) eqn:E1;
    [|eexists; reflexivity].
  destruct (ParseBool (Getenv (str "GITHUB_DRYRUN"))) eqn:E2; [|eexists; reflexivity].
  destruct (ParseBool (Getenv (str "GITHUB_OVERWRITE"))) eqn:E3; [|eexists; reflexivity].
  destruct (ParseBool (Getenv (str "MIGRATE_REPO_CONTENTS"))) eqn:E4;
    [|eexists; reflexivity].
  destruct (ParseBool (Getenv (str "MIGRATE_REPO_SETTINGS"))) eqn:E5;
    [|eexists; reflexivity].
  destruct (ParseBool (Getenv (str "MIGRATE_OPEN_PRS"))) eqn:E6; [|eexists; reflexivity].
  destruct (ParseBool (Getenv (str "MIGRATE_CLOSED_PRS"))) eqn:E7; [|eexists; reflexivity].
  exfalso. unfold bool_env_vars in Hin. cbn [map In] in Hin.
  repeat (destruct Hin as [Hin|Hin]; [subst envVar; congruence|]).
  exact Hin.
Qed.

Lemma main_needs_every_bool_variable_witness :
  exists printed,
    main_config None
      (fun name => if streq name (str "MIGRATE_OPEN_PRS") then [] else demo_Getenv name)
    = os_Exit 2 printed.
Proof.
  apply (main_needs_every_bool_variable
           (fun name => if streq name (str "MIGRATE_OPEN_PRS") then [] else demo_Getenv name)
           (str "MIGRATE_OPEN_PRS")).
  - unfold bool_env_vars. cbn [map In]. do 5 right. left. reflexivity.
  - reflexivity.
Defined.

Lemma main_config_dryRun (godotenv_Load : option errtext) (Getenv : gostring -> gostring)
    (config : settings.t) :
  main_config godotenv_Load Getenv = Started config ->
  ParseBool (Getenv (str "GITHUB_DRYRUN")) = Some (settings.dryRun config).
Proof.
  unfold main_config. destruct godotenv_Load; [discriminate|]. intros H.
  parse_bools. cbv zeta in H.
  repeat match type of H with
  | (if ?b then _ else _) = _ => destruct b; [discriminate H|]
  end.
  injection H as H. subst config. cbn [settings.dryRun]. reflexivity.
Qed.

Section StartupRuns.
Context {lib : GoLib}.

(** X4.  When GITHUB_DRYRUN holds a text that [strconv.ParseBool] reads as
    true, the migration that [main] starts makes no mutating call, whatever
    the rest of the environment, the list of repositories and the answers of
    the backends. *)
Theorem main_dry_run_makes_no_mutating_call
    (godotenv_Load : option errtext) (Getenv : gostring -> gostring)
    (ReadFile : gostring -> result gostring errtext) (program : Prog unit) (env : Env) :
  ParseBool (Getenv (str "GITHUB_DRYRUN")) = Some true ->
  main godotenv_Load Getenv ReadFile = Started program ->
  Forall (fun e => event_is (@mutating lib) e = false) (fst (run env program [])).
Proof.
  intros Hdry Hmain. unfold main in Hmain.
  destruct (main_config godotenv_Load Getenv) as [config| |] eqn:Hconfig;
    cbn [startup_bind] in Hmain; try discriminate Hmain.
  destruct (parseRepos_file ReadFile (settings.repoFile config)) as [repos| |];
    cbn [startup_bind] in Hmain; try discriminate Hmain.
  injection Hmain as Hmain. subst program.
  apply main_config_dryRun in Hconfig. rewrite Hdry in Hconfig.
  injection Hconfig as Hconfig. symmetry in Hconfig.
  pose proof (Forall_calls_run _ _ _ (migrateRepos_dry repos config Hconfig) env []
                (Forall_nil _)) as F.
  eapply Forall_impl; [|exact F].
  intros [R c]. unfold event_is, not_mutating. apply negb_true_iff.
Qed.

End StartupRuns.


Lemma main_dry_run_makes_no_mutating_call_witness :
  Forall (fun e => event_is (@mutating ascii_lib) e = false)
    (fst (run (demo_env demo_response (Ok {| github.PR_Number := Some 1%Z |}) None)
            (migrateRepos [str "demo"]
               (match main_config None demo_Getenv with
                | Started config => config
                | _ => demo_config true
                end)) [])).
Proof.
  apply (main_dry_run_makes_no_mutating_call None demo_Getenv
           (fun _ => Ok (str "demo")) _
           (demo_env demo_response (Ok {| github.PR_Number := Some 1%Z |}) None));
    reflexivity.
Defined.

(** ** The stage of every call *)

Lemma Forall_calls_weaken {lib : GoLib} (P P' : forall R : Type, Call R -> bool)
    (A : Type) (p : Prog A) :
  (forall (R : Type) (c : Call R), P R c = true -> P' R c = true) ->
  Forall_calls P p -> Forall_calls P' p.
Proof.
  intros HP Hp. induction Hp as [a|format args| |R c k Hc Hk IH]; constructor; auto.
Qed.

Create HintDb stages.

(** One step through the shape of a program, for goals
    [Forall_calls (in_stages allowed) p] under hypotheses [allowed s = true]. *)
Ltac stages :=
  unfold Println, Print, Sleep, call;
  repeat first
    [ progress cbv beta iota
    | solve [auto with stages calls]
    | match goal with
      | |- Forall_calls (in_stages _) (Do _ _) =>
          apply Forall_calls_Do; [unfold in_stages; cbn [stage_of]; assumption | intros]
      end
    | calls_step ].

Section StageFacts.
Context {lib : GoLib}.
Variable allowed : Stage -> bool.
Hypothesis allowed_local : allowed local = true.

Lemma migrateOpenPrs_request_stages (ghRepo : github.Repository) (pr : PullRequest) :
  Forall_calls (in_stages allowed) (migrateOpenPrs_request ghRepo pr).
Proof. unfold migrateOpenPrs_request. stages. Qed.

Lemma createClosedPrs_request_stages (pr : PullRequest) :
  Forall_calls (in_stages allowed) (createClosedPrs_request pr).
Proof. unfold createClosedPrs_request. stages. Qed.

Hint Resolve migrateOpenPrs_request_stages createClosedPrs_request_stages : stages.

Lemma getRepo_stages (owner repoName : gostring) :
  allowed bitbucket_repository = true ->
  Forall_calls (in_stages allowed) (getRepo owner repoName).
Proof. intros H. unfold getRepo. stages. Qed.

Lemma updatePermissionsToReadOnly_stages (owner repoName : gostring) (dryRun : bool) :
  allowed bitbucket_permissions = true ->
  Forall_calls (in_stages allowed) (updatePermissionsToReadOnly owner repoName dryRun).
Proof.
  intros H.
  assert (Hu : forall user_perms,
             Forall_calls (in_stages allowed)
               (updatePermissionsToReadOnly_users owner repoName user_perms)).
  { induction user_perms as [|user user_perms IH];
      cbn [updatePermissionsToReadOnly_users]; stages. }
  assert (Hg : forall group_perms,
             Forall_calls (in_stages allowed)
               (updatePermissionsToReadOnly_groups owner repoName group_perms)).
  { induction group_perms as [|groupSlug group_perms IH];
      cbn [updatePermissionsToReadOnly_groups]; stages. }
  unfold updatePermissionsToReadOnly. stages.
Qed.

Lemma cloneRepo_stages (repo : gostring) (config : settings.t) :
  allowed clone = true ->
  Forall_calls (in_stages allowed) (cloneRepo repo config).
Proof. intros H. unfold cloneRepo. stages. Qed.

Lemma getPrs_stages (owner repo destinationBranch : gostring) :
  allowed bitbucket_pull_requests = true ->
  Forall_calls (in_stages allowed) (getPrs owner repo destinationBranch).
Proof.
  intros H. unfold getPrs. stages.
Qed.

Lemma createRepo_stages (repo : bitbucket.Repository) (config : settings.t) :
  allowed github_repository = true ->
  Forall_calls (in_stages allowed) (createRepo repo config).
Proof.
  intros H.
  assert (Hw : forall attempts i ghRepo,
             Forall_calls (in_stages allowed)
               (createRepo_wait attempts i repo config ghRepo)).
  { induction attempts as [|attempts IH]; intros i ghRepo; cbn [createRepo_wait]; stages. }
  unfold createRepo. stages.
Qed.

Lemma pushRepoToGithub_stages (repoFolder repoName : gostring) (config : settings.t) :
  allowed push = true ->
  Forall_calls (in_stages allowed) (pushRepoToGithub repoFolder repoName config).
Proof. intros H. unfold pushRepoToGithub, runProgram. stages. Qed.

Lemma updateRepo_stages (githubOwner : gostring) (ghRepo : github.Repository)
    (dryRun : bool) :
  allowed github_settings = true ->
  Forall_calls (in_stages allowed) (updateRepo githubOwner ghRepo dryRun).
Proof. intros H. unfold updateRepo. stages. Qed.

Lemma updateRepoTopics_stages (githubOwner : gostring) (ghRepo : github.Repository)
    (dryRun : bool) :
  allowed github_settings = true ->
  Forall_calls (in_stages allowed) (updateRepoTopics githubOwner ghRepo dryRun).
Proof. intros H. unfold updateRepoTopics. stages. Qed.

Lemma updateCustomProperties_stages (githubOrg : gostring) (ghRepo : github.Repository)
    (dryRun : bool) (projectName : gostring) :
  allowed github_settings = true ->
  Forall_calls (in_stages allowed)
    (updateCustomProperties githubOrg ghRepo dryRun projectName).
Proof. intros H. unfold updateCustomProperties. stages. Qed.

Lemma migrateOpenPrs_stages (githubOwner : gostring) (ghRepo : github.Repository)
    (prs : PullRequests) (dryRun : bool) :
  allowed github_pull_request = true ->
  Forall_calls (in_stages allowed) (migrateOpenPrs githubOwner ghRepo prs dryRun).
Proof.
  intros H. unfold migrateOpenPrs. induction (Values prs) as [|pr values IH];
    cbn [migrateOpenPrs_range]; stages.
Qed.

Lemma createClosedPrs_stages (githubOwner : gostring) (ghRepo : github.Repository)
    (prs : PullRequests) (dryRun : bool) :
  allowed github_issue = true ->
  Forall_calls (in_stages allowed) (createClosedPrs githubOwner ghRepo prs dryRun).
Proof.
  intros H. unfold createClosedPrs. induction (Values prs) as [|pr values IH];
    cbn [createClosedPrs_range]; stages.
Qed.

End StageFacts.

#[export] Hint Resolve migrateOpenPrs_request_stages createClosedPrs_request_stages
  getRepo_stages updatePermissionsToReadOnly_stages cloneRepo_stages getPrs_stages
  createRepo_stages pushRepoToGithub_stages updateRepo_stages updateRepoTopics_stages
  updateCustomProperties_stages migrateOpenPrs_stages createClosedPrs_stages : stages.

Section Gating.
Context {lib : GoLib}.

Lemma migrateRepo_enabled (repoName : gostring) (config : settings.t) :
  Forall_calls (in_stages (enabled config)) (migrateRepo repoName config).
Proof.
  unfold migrateRepo.
  assert (Hlocal : enabled config local = true) by reflexivity.
  assert (Hbb : enabled config bitbucket_repository = true) by reflexivity.
  assert (Hgh : enabled config github_repository = true) by reflexivity.
  destruct (settings.revokeOldPerms config) eqn:E1;
    destruct (settings.migrateRepoContents config) eqn:E2;
    destruct (settings.migrateRepoSettings config) eqn:E3;
    destruct (settings.migrateOpenPrs config) eqn:E4;
    destruct (settings.migrateClosedPrs config) eqn:E5;
    cbn [orb];
    repeat first
      [ progress cbv beta iota
      | match goal with
        | |- Forall_calls _ (bind _ _) => apply Forall_calls_bind; [| intros]
        | |- Forall_calls _ (Ret _) => apply Forall_calls_Ret
        | |- Forall_calls _ Panic => apply Forall_calls_Panic
        | |- Forall_calls _ (Println _) => solve [stages]
        | |- Forall_calls _ (Print _) => solve [stages]
        | |- Forall_calls _ (Sleep _) => solve [stages]
        | |- Forall_calls _ (match ?x with _ => _ end) => destruct x
        | |- Forall_calls _ _ =>
            solve [auto with stages
                  | apply getRepo_stages; auto
                  | apply updatePermissionsToReadOnly_stages;
                      try reflexivity; unfold enabled; rewrite ?E1; reflexivity
                  | apply cloneRepo_stages; try reflexivity; unfold enabled; rewrite ?E2; reflexivity
                  | apply getPrs_stages; try reflexivity;
                      unfold enabled; rewrite ?E4, ?E5; reflexivity
                  | apply createRepo_stages; auto
                  | apply pushRepoToGithub_stages; try reflexivity;
                      unfold enabled; rewrite ?E2; reflexivity
                  | apply updateRepo_stages; try reflexivity;
                      unfold enabled; rewrite ?E3; reflexivity
                  | apply updateRepoTopics_stages; try reflexivity;
                      unfold enabled; rewrite ?E3; reflexivity
                  | apply updateCustomProperties_stages; try reflexivity;
                      unfold enabled; rewrite ?E3; reflexivity
                  | apply migrateOpenPrs_stages; try reflexivity;
                      unfold enabled; rewrite ?E4; reflexivity
                  | apply createClosedPrs_stages; try reflexivity;
                      unfold enabled; rewrite ?E5; reflexivity ]
        end ].
Qed.

Lemma migrateRepos_enabled (repoList : list gostring) (config : settings.t) :
  Forall_calls (in_stages (enabled config)) (migrateRepos repoList config).
Proof.
  unfold migrateRepos. apply Forall_calls_bind.
  - destruct (settings.dryRun config); unfold Println, Print, call.
    + apply Forall_calls_Do; [reflexivity | intros; apply Forall_calls_Ret].
    + apply Forall_calls_Ret.
  - intros _. induction repoList as [|repo repoList IH]; cbn [migrateRepos_range].
    + apply Forall_calls_Ret.
    + apply Forall_calls_bind; [apply migrateRepo_enabled | intros _; exact IH].
Qed.

(** X5.  Every call that a run of [migrateRepos] makes belongs to a stage
    that the configuration switches on: no permission call unless the
    revocation is on, no clone, remote, post-clone program or push unless the
    contents are migrated, no repository edit, topic or custom-property call
    unless the settings are migrated, no pull-request creation unless the
    open pull requests are migrated, no issue or commit-comment call unless
    the closed ones are, and no listing of pull requests unless one of the
    two is. *)
Theorem disabled_stages_make_no_call
    (env : Env) (repoList : list gostring) (config : settings.t) :
  Forall (fun e => match e with Called c => enabled config (stage_of c) = true end)
    (fst (run env (migrateRepos repoList config) [])).
Proof.
  pose proof (Forall_calls_run _ _ _ (migrateRepos_enabled repoList config) env []
                (Forall_nil _)) as F.
  eapply Forall_impl; [|exact F].
  intros [R c] H. exact H.
Qed.

End Gating.

(** ** The order of the stages *)

Section Order_of_stages.
Context {lib : GoLib}.

Lemma run_calls_of (A : Type) (env : Env) (p : Prog A) (history : list Event) :
  fst (run env p history) = history ++ calls_of env p history.
Proof.
  revert history. induction p as [a|format args| |R c k IH]; intros history;
    cbn [run calls_of fst]; try (symmetry; apply app_nil_r).
  rewrite IH, <- app_assoc. reflexivity.
Qed.

Section Order_facts.
Variables P Q : forall R : Type, Call R -> bool.

Lemma Passes_Not_before (A : Type) (p : Prog A) : Passes P Q p -> Not_before P Q p.
Proof.
  intros Hp. induction Hp as [format args| |R c k Hc|R c k Hc Hk IH].
  - constructor.
  - constructor.
  - apply Not_before_first. exact Hc.
  - apply Not_before_Do; assumption.
Qed.

Lemma Not_before_bind (A B : Type) (p : Prog A) (f : A -> Prog B) :
  Not_before P Q p -> (forall a, Not_before P Q (f a)) -> Not_before P Q (bind p f).
Proof.
  intros Hp Hf. induction Hp as [a|format args| |R c k Hc|R c k Hc Hk IH]; cbn [bind].
  - apply Hf.
  - constructor.
  - constructor.
  - apply Not_before_first. exact Hc.
  - apply Not_before_Do; assumption.
Qed.

Lemma Passes_bind (A B : Type) (p : Prog A) (f : A -> Prog B) :
  Passes P Q p -> Passes P Q (bind p f).
Proof.
  intros Hp. induction Hp as [format args| |R c k Hc|R c k Hc Hk IH]; cbn [bind].
  - constructor.
  - constructor.
  - apply Passes_first. exact Hc.
  - apply Passes_Do; assumption.
Qed.

Lemma in_stages_Not_before (allowed : Stage -> bool) (A : Type) (p : Prog A) :
  (forall (R : Type) (c : Call R), in_stages allowed R c = true -> Q R c = false) ->
  Forall_calls (in_stages allowed) p -> Not_before P Q p.
Proof.
  intros HQ Hp. induction Hp as [a|format args| |R c k Hc Hk IH].
  - constructor.
  - constructor.
  - constructor.
  - apply Not_before_Do; [apply HQ, Hc | exact IH].
Qed.

Lemma Not_before_calls_of (A : Type) (p : Prog A) :
  Not_before P Q p ->
  forall (env : Env) (history : list Event),
    none_before P Q (calls_of env p history) = true.
Proof.
  intros Hp. induction Hp as [a|format args| |R c k Hc|R c k Hc Hk IH];
    intros env history; cbn [calls_of none_before event_is]; try reflexivity.
  - rewrite Hc. reflexivity.
  - destruct (P R c); [reflexivity|]. rewrite Hc. cbn [negb andb]. apply IH.
Qed.

End Order_facts.

(** Steps through a program up to its first call of [P]. *)
Ltac passes :=
  unfold Println, Print, Sleep, call;
  repeat first
    [ progress cbn [bind]
    | apply Passes_Fatalf
    | apply Passes_Panic
    | apply Passes_first; reflexivity
    | apply Passes_Do; [reflexivity | intros]
    | match goal with
      | |- Passes _ _ (bind (match ?x with _ => _ end) _) => destruct x
      | |- Passes _ _ (match ?x with _ => _ end) => destruct x
      end ].

Lemma createRepo_passes (repo : bitbucket.Repository) (config : settings.t) :
  settings.dryRun config = false ->
  Passes is_repo_create after_creation (createRepo repo config).
Proof. intros H. unfold createRepo. rewrite H. passes. Qed.

Lemma pushRepoToGithub_passes (repoFolder repoName : gostring) (config : settings.t) :
  settings.dryRun config = false ->
  Passes is_push is_settings_update (pushRepoToGithub repoFolder repoName config).
Proof. intros H. unfold pushRepoToGithub, runProgram. rewrite H. passes. Qed.

Ltac quiet :=
  repeat first
    [ progress cbv beta iota
    | solve [auto with stages calls]
    | match goal with
      | |- Forall_calls _ (bind _ _) => apply Forall_calls_bind; [| intros]
      | |- Forall_calls _ (Ret _) => apply Forall_calls_Ret
      | |- Forall_calls _ (Println _) => unfold Println, Print, call
      | |- Forall_calls _ (Do _ _) => apply Forall_calls_Do; [reflexivity | intros]
      | |- Forall_calls _ (match ?x with _ => _ end) => destruct x
      end ].

Lemma migrateRepo_creates_first (repoName : gostring) (config : settings.t) :
  settings.dryRun config = false ->
  Not_before is_repo_create after_creation (migrateRepo repoName config).
Proof.
  intros H. unfold migrateRepo.
  assert (HQ : forall (R : Type) (c : Call R),
             in_stages before_creation R c = true -> after_creation R c = false).
  { intros R c. unfold in_stages, after_creation, before_creation.
    destruct (stage_of c); intros E; first [reflexivity | discriminate E]. }
  do 6 (apply Not_before_bind;
        [apply (in_stages_Not_before _ _ before_creation _ _ HQ); solve [quiet] | intros]).
  apply Passes_Not_before, Passes_bind, createRepo_passes, H.
Qed.

Lemma migrateRepo_pushes_first (repoName : gostring) (config : settings.t) :
  settings.dryRun config = false ->
  settings.migrateRepoContents config = true ->
  Not_before is_push is_settings_update (migrateRepo repoName config).
Proof.
  intros H Hc. unfold migrateRepo. rewrite Hc.
  assert (HQ : forall (R : Type) (c : Call R),
             in_stages before_settings R c = true -> is_settings_update R c = false).
  { intros R c. unfold in_stages, is_settings_update, before_settings.
    destruct (stage_of c); intros E; first [reflexivity | discriminate E]. }
  do 7 (apply Not_before_bind;
        [apply (in_stages_Not_before _ _ before_settings _ _ HQ); solve [quiet] | intros]).
  apply Passes_Not_before, Passes_bind, pushRepoToGithub_passes, H.
Qed.

(** X6.  Outside a dry run, among the calls that [migrateRepo] adds for one
    repository, none of the push stage, of the settings, of the pull requests
    or of the issues comes before the call that creates the repository; and
    when the contents are migrated, no repository edit, topic or
    custom-property call comes before [git push]. *)
Theorem stages_run_in_order
    (env : Env) (history : list Event) (repoName : gostring) (config : settings.t) :
  settings.dryRun config = false ->
  none_before is_repo_create after_creation
    (calls_of env (migrateRepo repoName config) history) = true /\
  (settings.migrateRepoContents config = true ->
   none_before is_push is_settings_update
     (calls_of env (migrateRepo repoName config) history) = true).
Proof.
  intros H. split.
  - apply Not_before_calls_of, migrateRepo_creates_first, H.
  - intros Hc. apply Not_before_calls_of, migrateRepo_pushes_first; assumption.
Qed.

End Order_of_stages.

Lemma stages_run_in_order_witness :
  none_before is_push is_settings_update
    (calls_of (demo_env demo_response (Ok {| github.PR_Number := Some 1%Z |}) None)
       (migrateRepo (str "demo") (demo_config false)) []) = true.
Proof.
  destruct (stages_run_in_order
              (demo_env demo_response (Ok {| github.PR_Number := Some 1%Z |}) None)
              [] (str "demo") (demo_config false) eq_refl) as [_ H].
  exact (H eq_refl).
Defined.

(** ** The revocation of permissions *)

Section Permissions.
Context {lib : GoLib}.

Lemma updatePermissionsToReadOnly_sets_read (owner repoName : gostring) (dryRun : bool) :
  Forall_calls sets_read (updatePermissionsToReadOnly owner repoName dryRun).
Proof.
  assert (Hu : forall user_perms,
             Forall_calls sets_read
               (updatePermissionsToReadOnly_users owner repoName user_perms)).
  { induction user_perms as [|user user_perms IH];
      cbn [updatePermissionsToReadOnly_users]; calls. }
  assert (Hg : forall group_perms,
             Forall_calls sets_read
               (updatePermissionsToReadOnly_groups owner repoName group_perms)).
  { induction group_perms as [|groupSlug group_perms IH];
      cbn [updatePermissionsToReadOnly_groups]; calls. }
  unfold updatePermissionsToReadOnly. calls.
Qed.

Lemma not_permissions_sets_read (R : Type) (c : Call R) :
  in_stages not_permissions R c = true -> sets_read R c = true.
Proof. destruct c; intros E; first [reflexivity | discriminate E]. Qed.

Ltac quiet :=
  repeat first
    [ progress cbv beta iota
    | solve [auto with stages calls]
    | match goal with
      | |- Forall_calls _ (bind _ _) => apply Forall_calls_bind; [| intros]
      | |- Forall_calls _ (Ret _) => apply Forall_calls_Ret
      | |- Forall_calls _ Panic => apply Forall_calls_Panic
      | |- Forall_calls _ (Println _) => unfold Println, Print, call
      | |- Forall_calls _ (Print _) => unfold Print, call
      | |- Forall_calls _ (Sleep _) => unfold Sleep, call
      | |- Forall_calls _ (Do _ _) => apply Forall_calls_Do; [reflexivity | intros]
      | |- Forall_calls _ (match ?x with _ => _ end) => destruct x
      end ].

Lemma migrateRepo_sets_read (repoName : gostring) (config : settings.t) :
  Forall_calls sets_read (migrateRepo repoName config).
Proof.
  unfold migrateRepo.
  repeat first
    [ progress cbv beta iota
    | solve [apply updatePermissionsToReadOnly_sets_read]
    | solve [apply (Forall_calls_weaken (in_stages not_permissions) sets_read _ _
                      not_permissions_sets_read); quiet]
    | match goal with
      | |- Forall_calls _ (bind _ _) => apply Forall_calls_bind; [| intros]
      | |- Forall_calls _ (match ?x with _ => _ end) => destruct x
      end ].
Qed.

Lemma migrateRepos_sets_read (repoList : list gostring) (config : settings.t) :
  Forall_calls sets_read (migrateRepos repoList config).
Proof.
  unfold migrateRepos. apply Forall_calls_bind.
  - destruct (settings.dryRun config); unfold Println, Print, call.
    + apply Forall_calls_Do; [reflexivity | intros; apply Forall_calls_Ret].
    + apply Forall_calls_Ret.
  - intros _. induction repoList as [|repo repoList IH]; cbn [migrateRepos_range].
    + apply Forall_calls_Ret.
    + apply Forall_calls_bind; [apply migrateRepo_sets_read | intros _; exact IH].
Qed.

(** X7.  In every run of [migrateRepos], every call that sets a permission
    at Bitbucket, for a user or for a group, sets it to [read]. *)
Theorem permissions_are_only_set_to_read
    (env : Env) (repoList : list gostring) (config : settings.t) :
  Forall (fun e => event_is sets_read e = true)
    (fst (run env (migrateRepos repoList config) [])).
Proof.
  exact (Forall_calls_run _ _ _ (migrateRepos_sets_read repoList config) env []
           (Forall_nil _)).
Qed.

Lemma updatePermissionsToReadOnly_users_run (env : Env) (owner repoName : gostring)
    (user_perms : list bitbucket.User) :
  (forall history o, env _ history (bb_SetUserPermissions o) = None) ->
  forall history,
    run env (updatePermissionsToReadOnly_users owner repoName user_perms) history
    = (history ++ flat_map (user_to_read owner repoName) user_perms, Returned tt).
Proof.
  intros Hset. induction user_perms as [|user user_perms IH]; intros history;
    cbn [updatePermissionsToReadOnly_users flat_map].
  - rewrite app_nil_r. reflexivity.
  - rewrite run_bind, run_call, Hset. cbv iota.
    rewrite run_bind. cbn [run]. rewrite run_bind. unfold Sleep. rewrite run_call.
    rewrite IH. unfold user_to_read at 2. cbn [app]. rewrite <- !app_assoc. reflexivity.
Qed.

Lemma updatePermissionsToReadOnly_groups_run (env : Env) (owner repoName : gostring)
    (group_perms : list gostring) :
  (forall history o, env _ history (bb_SetGroupPermissions o) = None) ->
  forall history,
    run env (updatePermissionsToReadOnly_groups owner repoName group_perms) history
    = (history ++ flat_map (group_to_read owner repoName) group_perms, Returned tt).
Proof.
  intros Hset. induction group_perms as [|groupSlug group_perms IH]; intros history;
    cbn [updatePermissionsToReadOnly_groups flat_map].
  - rewrite app_nil_r. reflexivity.
  - rewrite run_bind, run_call, Hset. cbv iota.
    rewrite run_bind. cbn [run]. rewrite run_bind. unfold Sleep. rewrite run_call.
    rewrite IH. unfold group_to_read at 2. cbn [app]. rewrite <- !app_assoc. reflexivity.
Qed.

(** X8.  Outside a dry run, when Bitbucket lists the users and the groups
    and accepts every change, [updatePermissionsToReadOnly] returns after
    setting every listed user and then every listed group to [read], once
    each and in the order of the lists, with a pause after each change. *)
Theorem every_permission_is_revoked
    (env : Env) (history : list Event) (owner repoName : gostring)
    (user_perms : list bitbucket.User) (group_perms : list gostring) :
  let ro := {| bitbucket.Owner := owner; bitbucket.RepoSlug := repoName |} in
  (forall history, env _ history (bb_ListUserPermissions ro) = Ok user_perms) ->
  (forall history, env _ history (bb_ListGroupPermissions ro) = Ok group_perms) ->
  (forall history o, env _ history (bb_SetUserPermissions o) = None) ->
  (forall history o, env _ history (bb_SetGroupPermissions o) = None) ->
  run env (updatePermissionsToReadOnly owner repoName false) history
  = (history
     ++ [Called (bb_ListUserPermissions ro); Called (bb_ListGroupPermissions ro)]
     ++ flat_map (user_to_read owner repoName) user_perms
     ++ flat_map (group_to_read owner repoName) group_perms,
     Returned tt).
Proof.
  intros ro Hu Hg Hsu Hsg. unfold updatePermissionsToReadOnly. fold ro.
  rewrite run_bind, run_call, Hu. cbv iota.
  rewrite run_bind, run_call, Hg. cbv iota.
  rewrite run_bind, (updatePermissionsToReadOnly_users_run env owner repoName _ Hsu).
  rewrite (updatePermissionsToReadOnly_groups_run env owner repoName _ Hsg).
  rewrite <- !app_assoc. reflexivity.
Qed.

End Permissions.

Lemma every_permission_is_revoked_witness :
  snd (run (demo_env demo_response (Ok {| github.PR_Number := Some 1%Z |}) None)
         (updatePermissionsToReadOnly (str "acme") (str "demo") false) [])
  = Returned tt.
Proof.
  exact (f_equal snd
           (every_permission_is_revoked
              (demo_env demo_response (Ok {| github.PR_Number := Some 1%Z |}) None)
              [] (str "acme") (str "demo")
              [ {| bitbucket.AccountId := str "u-1"; bitbucket.Username := str "ada" |} ]
              [str "developers"]
              (fun _ => eq_refl) (fun _ => eq_refl)
              (fun _ _ => eq_refl) (fun _ _ => eq_refl))).
Defined.

(** ** The creation of the repository *)

Section Creation.
Context {lib : GoLib}.

Lemma createRepo_wait_polls (env : Env) (attempts : nat) (i : Z)
    (repo : bitbucket.Repository) (config : settings.t) (ghRepo : github.Repository)
    (history : list Event) :
  count_calls is_repo_get (calls_of env (createRepo_wait attempts i repo config ghRepo) history)
  <= attempts.
Proof.
  revert i history. induction attempts as [|attempts IH]; intros i history;
    cbn [createRepo_wait]; [apply le_n|].
  unfold Sleep, Println, Print, call. cbn [bind calls_of].
  unfold count_calls. cbn [filter event_is is_repo_get List.length].
  apply le_n_S.
  destruct (env bool _ _); cbn [bind calls_of filter event_is is_repo_get List.length].
  - apply Nat.le_0_l.
  - apply IH.
Qed.

Lemma createRepo_wait_exhausted (env : Env) (attempts : nat) (i : Z)
    (repo : bitbucket.Repository) (config : settings.t) (ghRepo : github.Repository)
    (history : list Event) :
  (forall history owner name, env _ history (gh_Repositories_Get owner name) = false) ->
  snd (run env (createRepo_wait attempts i repo config ghRepo) history)
  = Exited (str "Repo has still not been created") [] /\
  count_calls is_repo_get (calls_of env (createRepo_wait attempts i repo config ghRepo) history)
  = attempts.
Proof.
  intros Hget. revert i history. induction attempts as [|attempts IH]; intros i history;
    cbn [createRepo_wait]; [split; reflexivity|].
  unfold Sleep, Println, Print, call. cbn [bind calls_of run].
  unfold count_calls. cbn [filter event_is is_repo_get List.length].
  rewrite Hget. cbn [bind calls_of run filter event_is is_repo_get List.length].
  destruct (IH (i + 1)%Z
              ((((history ++ [Called (time_Sleep 200)])
                 ++ [Called (gh_Repositories_Get (settings.ghOwner config)
                               (bitbucket.Slug repo))])
                ++ [Called (fmt_Print
                              (str "Waiting for repo " ++ bitbucket.Slug repo
                               ++ str " to be available on GitHub (attempt "
                               ++ Itoa (i + 1) ++ str ")..."))])
               ++ [Called (time_Sleep 1000)])) as [Hrun Hcount].
  split; [exact Hrun|]. f_equal. exact Hcount.
Qed.

(** X9.  [createRepo] polls GitHub for the new repository at most 20 times
    in any run.  If GitHub accepts the creation but never shows the
    repository, the run makes exactly 20 polls and ends in [log.Fatalf]; it
    does not return a descriptor. *)
Theorem createRepo_polls_at_most_20_times
    (env : Env) (history : list Event) (repo : bitbucket.Repository)
    (config : settings.t) :
  count_calls is_repo_get (calls_of env (createRepo repo config) history) <= 20 /\
  (settings.dryRun config = false ->
   (forall history org r, env _ history (gh_Repositories_Create org r) = None) ->
   (forall history owner name, env _ history (gh_Repositories_Get owner name) = false) ->
   snd (run env (createRepo repo config) history)
   = Exited (str "Repo has still not been created") [] /\
   count_calls is_repo_get (calls_of env (createRepo repo config) history) = 20).
Proof.
  split.
  - unfold createRepo. destruct (settings.dryRun config); [apply Nat.le_0_l|].
    unfold Print, call. cbn [bind calls_of].
    unfold count_calls. cbn [filter event_is is_repo_get List.length].
    destruct (env (option errtext) _ _) as [err|]; cbn [bind calls_of].
    + destruct (Contains err (str "name already exists on this account")).
      * destruct (negb (settings.overwrite config)); cbn [bind calls_of List.length];
          [apply Nat.le_0_l | apply createRepo_wait_polls].
      * apply Nat.le_0_l.
    + apply createRepo_wait_polls.
  - intros Hdry Hcreate Hget. unfold createRepo. rewrite Hdry.
    unfold Print, call. cbn [bind calls_of run].
    unfold count_calls. cbn [filter event_is is_repo_get List.length].
    rewrite Hcreate. cbn [bind calls_of run].
    apply createRepo_wait_exhausted. exact Hget.
Qed.

(** X10.  Outside a dry run, when GitHub refuses the creation because the
    name already exists: without the overwrite flag [createRepo] ends in
    [log.Fatalf] right after the creation call, and makes no other call; with
    the flag it goes on to wait for the repository as after a creation that
    succeeded.  Any other refusal ends in [log.Fatalf] right after the call,
    whatever the flag. *)
Theorem createRepo_overwrite_policy
    (env : Env) (history : list Event) (repo : bitbucket.Repository)
    (config : settings.t) (err : errtext) :
  let ghRepo := createRepo_ghRepo repo config in
  let printed :=
    Called (fmt_Print (str "Creating repo " ++ settings.ghOwner config ++ str "/"
                       ++ bitbucket.Slug repo ++ LF)) in
  let create := Called (gh_Repositories_Create (settings.ghOrg config) ghRepo) in
  settings.dryRun config = false ->
  env _ (history ++ [printed]) (gh_Repositories_Create (settings.ghOrg config) ghRepo)
  = Some err ->
  (Contains err (str "name already exists on this account") = true ->
   (settings.overwrite config = false ->
    run env (createRepo repo config) history
    = ((history ++ [printed]) ++ [create],
       Exited (str "Refusing to overwrite Github repo %s")
         [a_string (bitbucket.Slug repo)])) /\
   (settings.overwrite config = true ->
    run env (createRepo repo config) history
    = run env (createRepo_wait 20 0 repo config ghRepo)
        ((history ++ [printed]) ++ [create]))) /\
  (Contains err (str "name already exists on this account") = false ->
   run env (createRepo repo config) history
   = ((history ++ [printed]) ++ [create],
      Exited (str "failed to create repo %s, error: %s")
        [a_string (bitbucket.Slug repo); a_string err])).
Proof.
  intros ghRepo printed create Hdry Hcreate.
  unfold createRepo. rewrite Hdry. fold ghRepo.
  unfold Print, call. cbn [bind run]. fold printed. rewrite Hcreate. fold create.
  split.
  - intros Hexists. rewrite Hexists. split; intros Hover; rewrite Hover; reflexivity.
  - intros Hother. rewrite Hother. reflexivity.
Qed.

End Creation.

Lemma createRepo_polls_at_most_20_times_witness :
  snd (run (fun R h c =>
              match c in Call R return R with
              | gh_Repositories_Get _ _ => false
              | c' => demo_env demo_response (Ok {| github.PR_Number := Some 1%Z |}) None
                        _ h c'
              end)
         (createRepo demo_repository (demo_config false)) [])
  = Exited (str "Repo has still not been created") [].
Proof.
  destruct (createRepo_polls_at_most_20_times
              (fun R h c =>
                 match c in Call R return R with
                 | gh_Repositories_Get _ _ => false
                 | c' => demo_env demo_response (Ok {| github.PR_Number := Some 1%Z |}) None
                           _ h c'
                 end)
              [] demo_repository (demo_config false)) as [_ H].
  destruct (H eq_refl (fun _ _ _ => eq_refl) (fun _ _ _ => eq_refl)) as [Hrun _].
  exact Hrun.
Defined.

Lemma createRepo_overwrite_policy_witness :
  snd (run (fun R h c =>
              match c in Call R return R with
              | gh_Repositories_Create _ _ =>
                  Some (str "422 Repository creation failed: name already exists on this account")
              | c' => demo_env demo_response (Ok {| github.PR_Number := Some 1%Z |}) None
                        _ h c'
              end)
         (createRepo demo_repository (demo_config false)) [])
  = Exited (str "Refusing to overwrite Github repo %s") [a_string (str "demo")].
Proof.
  destruct (createRepo_overwrite_policy
              (fun R h c =>
                 match c in Call R return R with
                 | gh_Repositories_Create _ _ =>
                     Some (str "422 Repository creation failed: name already exists on this account")
                 | c' => demo_env demo_response (Ok {| github.PR_Number := Some 1%Z |}) None
                           _ h c'
                 end)
              [] demo_repository (demo_config false)
              (str "422 Repository creation failed: name already exists on this account")
              eq_refl eq_refl) as [Hexists _].
  destruct (Hexists eq_refl) as [Hrefuse _].
  rewrite (Hrefuse eq_refl). reflexivity.
Defined.

(** ** More on the two passes *)

Section Passes_more.
Context {lib : GoLib}.

Lemma run_bind_ext (A B : Type) (env : Env) (p : Prog A) (f g : A -> Prog B)
    (history : list Event) :
  (forall a history', run env (f a) history' = run env (g a) history') ->
  run env (bind p f) history = run env (bind p g) history.
Proof.
  intros H. rewrite !run_bind. destruct (run env p history) as [history' [a| |]];
    [apply H | reflexivity | reflexivity].
Qed.

Lemma migrateOpenPrs_range_filter (env : Env) (githubOwner : gostring)
    (ghRepo : github.Repository) (dryRun : bool) (values : list PullRequest)
    (history : list Event) :
  run env (migrateOpenPrs_range githubOwner ghRepo dryRun values) history
  = run env (migrateOpenPrs_range githubOwner ghRepo dryRun (filter is_open values)) history.
Proof.
  revert history. induction values as [|pr values IH]; intros history; [reflexivity|].
  cbn [filter]. destruct (is_open pr) eqn:E.
  - cbn [migrateOpenPrs_range]. unfold is_open in E. rewrite E. cbn [negb].
    apply run_bind_ext. intros gh_pr h1. destruct dryRun; [reflexivity|].
    apply run_bind_ext. intros r h2. apply run_bind_ext. intros _ h3.
    apply run_bind_ext. intros _ h4. apply IH.
  - cbn [migrateOpenPrs_range]. unfold is_open in E. rewrite E. cbn [negb]. apply IH.
Qed.

Lemma createClosedPrs_range_filter (env : Env) (githubOwner : gostring)
    (ghRepo : github.Repository) (dryRun : bool) (values : list PullRequest)
    (history : list Event) :
  run env (createClosedPrs_range githubOwner ghRepo dryRun values) history
  = run env (createClosedPrs_range githubOwner ghRepo dryRun (filter is_merged values))
      history.
Proof.
  revert history. induction values as [|pr values IH]; intros history; [reflexivity|].
  cbn [filter]. destruct (is_merged pr) eqn:E.
  - cbn [createClosedPrs_range]. unfold is_merged in E. rewrite E. cbn [negb].
    apply run_bind_ext. intros issue h1. destruct dryRun; [reflexivity|].
    apply run_bind_ext. intros _ h2. apply run_bind_ext. intros r h3.
    destruct r as [issueResponse|err]; [|reflexivity].
    destruct (github.Number issueResponse) as [number|]; [|reflexivity].
    apply run_bind_ext. intros err h4. apply run_bind_ext. intros _ h5.
    apply run_bind_ext. intros err' h6. apply run_bind_ext. intros _ h7.
    apply run_bind_ext. intros _ h8. apply IH.
  - cbn [createClosedPrs_range]. unfold is_merged in E. rewrite E. cbn [negb]. apply IH.
Qed.

(** X11.  A record whose state is neither [OPEN] nor [MERGED] plays no part
    in either pass: every run of the open-PR pass is the run of the pass over
    the [OPEN] records alone, every run of the merged-PR pass is the run over
    the [MERGED] records alone, and a pass over records none of which has its
    state returns at once without a call. *)
Theorem passes_filter_by_state
    (env : Env) (history : list Event) (githubOwner : gostring)
    (ghRepo : github.Repository) (prs : PullRequests) (dryRun : bool) :
  run env (migrateOpenPrs githubOwner ghRepo prs dryRun) history
  = run env (migrateOpenPrs_range githubOwner ghRepo dryRun (filter is_open (Values prs)))
      history /\
  run env (createClosedPrs githubOwner ghRepo prs dryRun) history
  = run env (createClosedPrs_range githubOwner ghRepo dryRun
               (filter is_merged (Values prs))) history /\
  (filter is_open (Values prs) = [] ->
   run env (migrateOpenPrs githubOwner ghRepo prs dryRun) history
   = (history, Returned tt)) /\
  (filter is_merged (Values prs) = [] ->
   run env (createClosedPrs githubOwner ghRepo prs dryRun) history
   = (history, Returned tt)).
Proof.
  unfold migrateOpenPrs, createClosedPrs. repeat split.
  - apply migrateOpenPrs_range_filter.
  - apply createClosedPrs_range_filter.
  - intros E. rewrite migrateOpenPrs_range_filter, E. reflexivity.
  - intros E. rewrite createClosedPrs_range_filter, E. reflexivity.
Qed.

Lemma calls_of_bind (A B : Type) (env : Env) (p : Prog A) (f : A -> Prog B)
    (history : list Event) :
  calls_of env (bind p f) history
  = calls_of env p history
    ++ match run env p history with
       | (history', Returned a) => calls_of env (f a) history'
       | _ => []
       end.
Proof.
  revert history. induction p as [a|format args| |R c k IH]; intros history;
    cbn [bind calls_of run app]; try reflexivity.
  rewrite IH. reflexivity.
Qed.

Lemma count_calls_app (P : forall R : Type, Call R -> bool) (l1 l2 : list Event) :
  count_calls P (l1 ++ l2) = count_calls P l1 + count_calls P l2.
Proof. unfold count_calls. rewrite filter_app. apply length_app. Qed.

Lemma count_calls_none (P : forall R : Type, Call R -> bool) (A : Type) (p : Prog A) :
  Forall_calls (fun R c => negb (P R c)) p ->
  forall (env : Env) (history : list Event),
    count_calls P (calls_of env p history) = 0.
Proof.
  intros Hp. induction Hp as [a|format args| |R c k Hc Hk IH]; intros env history;
    cbn [calls_of]; try reflexivity.
  unfold count_calls. cbn [filter event_is].
  apply negb_true_iff in Hc. rewrite Hc. apply IH.
Qed.

Lemma migrateOpenPrs_request_no_create (ghRepo : github.Repository) (pr : PullRequest) :
  Forall_calls (fun R c => negb (is_pr_create R c)) (migrateOpenPrs_request ghRepo pr).
Proof. unfold migrateOpenPrs_request. calls. Qed.

Lemma count_calls_cons (P : forall R : Type, Call R -> bool) (R : Type) (c : Call R)
    (l : list Event) :
  count_calls P (Called c :: l) = (if P R c then 1 else 0) + count_calls P l.
Proof. unfold count_calls. cbn [filter event_is]. destruct (P R c); reflexivity. Qed.

Lemma migrateOpenPrs_range_attempts (env : Env) (githubOwner : gostring)
    (ghRepo : github.Repository) (values : list PullRequest) (history : list Event) :
  count_calls is_pr_create
    (calls_of env (migrateOpenPrs_range githubOwner ghRepo false values) history)
  <= List.length (filter is_open values) /\
  (snd (run env (migrateOpenPrs_range githubOwner ghRepo false values) history)
   = Returned tt ->
   count_calls is_pr_create
     (calls_of env (migrateOpenPrs_range githubOwner ghRepo false values) history)
   = List.length (filter is_open values)).
Proof.
  revert history. induction values as [|pr values IH]; intros history.
  - split; [apply le_n | reflexivity].
  - cbn [filter migrateOpenPrs_range].
    destruct (is_open pr) eqn:E; pose proof E as E'; unfold is_open in E'; rewrite E';
      cbn [negb]; [|apply IH].
    rewrite calls_of_bind, count_calls_app, run_bind.
    rewrite (count_calls_none _ _ _ (migrateOpenPrs_request_no_create ghRepo pr)).
    destruct (run env (migrateOpenPrs_request ghRepo pr) history) as [h1 [gh_pr| |]];
      cbn [snd]; [| split; [apply Nat.le_0_l | discriminate]
                 | split; [apply Nat.le_0_l | discriminate] ].
    unfold call. cbn [bind calls_of run List.length plus].
    rewrite count_calls_cons. cbn [is_pr_create plus].
    assert (Hrest : forall text h,
              count_calls is_pr_create
                (calls_of env
                   (_ <- Print text ;; _ <- Sleep GitHubRateLimitSleep ;;
                    migrateOpenPrs_range githubOwner ghRepo false values) h)
              <= List.length (filter is_open values) /\
              (snd (run env
                      (_ <- Print text ;; _ <- Sleep GitHubRateLimitSleep ;;
                       migrateOpenPrs_range githubOwner ghRepo false values) h)
               = Returned tt ->
               count_calls is_pr_create
                 (calls_of env
                    (_ <- Print text ;; _ <- Sleep GitHubRateLimitSleep ;;
                     migrateOpenPrs_range githubOwner ghRepo false values) h)
               = List.length (filter is_open values))).
    { intros text h. unfold Print, Sleep, call. cbn [bind calls_of run].
      rewrite !count_calls_cons. cbn [is_pr_create plus]. apply IH. }
    destruct (env (result github.PullRequest errtext) h1 _) as [newPr|err].
    + destruct (github.PR_Number newPr) as [number|].
      * destruct (Hrest (str "Migrated BB PR " ++ Itoa (ID pr) ++ str " as GH PR "
                         ++ Itoa number ++ LF)
                    (h1 ++ [Called (gh_PullRequests_Create githubOwner
                                      (github.Name ghRepo) gh_pr)])) as [Hle Heq].
        split; [apply le_n_S, Hle | intros H; f_equal; apply Heq, H].
      * cbn [bind calls_of run snd]. 
        split; [apply le_n_S, Nat.le_0_l | discriminate].
    + destruct (Contains err (str "A pull request already exists")).
      * match goal with
        | |- context [calls_of env (bind (Print ?t) _) ?h] =>
            destruct (Hrest t h) as [Hle Heq]
        end.
        split; [apply le_n_S, Hle | intros H; f_equal; apply Heq, H].
      * destruct (Contains err _).
        -- match goal with
           | |- context [calls_of env (bind (Print ?t) _) ?h] =>
               destruct (Hrest t h) as [Hle Heq]
           end.
           split; [apply le_n_S, Hle | intros H; f_equal; apply Heq, H].
        -- cbn [bind calls_of run snd].
           split; [apply le_n_S, Nat.le_0_l | discriminate].
Qed.

(** X12.  Without dry run, the open-PR pass asks GitHub to create a pull
    request at most once per [OPEN] record, and exactly once per [OPEN]
    record in every run in which the pass returns. *)
Theorem one_creation_attempt_per_open_record
    (env : Env) (history : list Event) (githubOwner : gostring)
    (ghRepo : github.Repository) (prs : PullRequests) :
  count_calls is_pr_create
    (calls_of env (migrateOpenPrs githubOwner ghRepo prs false) history)
  <= List.length (filter is_open (Values prs)) /\
  (snd (run env (migrateOpenPrs githubOwner ghRepo prs false) history) = Returned tt ->
   count_calls is_pr_create
     (calls_of env (migrateOpenPrs githubOwner ghRepo prs false) history)
   = List.length (filter is_open (Values prs))).
Proof. unfold migrateOpenPrs. apply migrateOpenPrs_range_attempts. Qed.

End Passes_more.

Lemma passes_filter_by_state_witness :
  run (demo_env demo_response (Ok {| github.PR_Number := Some 1%Z |}) None)
    (migrateOpenPrs (str "acme") demo_ghRepo
       {| Size := 1; Page := 1; Pagelen := 10; Next := []; Previous := [];
          Values := [demo_merged_pr] |} false) []
  = ([], Returned tt).
Proof.
  apply (passes_filter_by_state
           (demo_env demo_response (Ok {| github.PR_Number := Some 1%Z |}) None)
           [] (str "acme") demo_ghRepo
           {| Size := 1; Page := 1; Pagelen := 10; Next := []; Previous := [];
              Values := [demo_merged_pr] |} false).
  reflexivity.
Defined.

Lemma one_creation_attempt_per_open_record_witness :
  count_calls is_pr_create
    (calls_of (demo_env demo_response (Ok {| github.PR_Number := Some 1%Z |}) None)
       (migrateOpenPrs (str "acme") demo_ghRepo
          {| Size := 3; Page := 1; Pagelen := 10; Next := []; Previous := [];
             Values := [demo_merged_pr; demo_open_pr; demo_open_pr] |} false) [])
  = 2.
Proof.
  destruct (one_creation_attempt_per_open_record
              (demo_env demo_response (Ok {| github.PR_Number := Some 1%Z |}) None)
              [] (str "acme") demo_ghRepo
              {| Size := 3; Page := 1; Pagelen := 10; Next := []; Previous := [];
                 Values := [demo_merged_pr; demo_open_pr; demo_open_pr] |}) as [_ H].
  rewrite (H eq_refl). reflexivity.
Defined.

(** ** The merged-PR pass, record by record *)

Section Merged.
Context {lib : GoLib}.

Lemma createClosedPrs_request_Returned (env : Env) (pr : PullRequest)
    (history history1 : list Event) (issue : github.IssueRequest) :
  run env (createClosedPrs_request pr) history = (history1, Returned issue) ->
  history1 = history /\
  github.Issue_Title issue
  = str "Historical Bitbucket PR #" ++ Itoa (ID pr) ++ str ": " ++ Title pr /\
  github.Labels issue = [str "bitbucketPR"] /\
  github.State issue = str "closed".
Proof.
  unfold createClosedPrs_request.
  destruct (map_index (Author pr) (str "display_name")); cbn [assert_string bind run];
    try discriminate.
  destruct (map_index (Source pr) (str "branch")); cbn [assert_map bind run];
    try discriminate.
  destruct (map_index m (str "name")); cbn [assert_string bind run]; try discriminate.
  destruct (map_index (ClosedBy pr) (str "display_name")); cbn [assert_string bind run];
    try discriminate.
  intros H. injection H as H1 H2. subst. repeat split.
Qed.

(** X13.  Without dry run, for a [MERGED] record whose issue is built: when
    GitHub creates the issue under number [n], takes the comment and takes
    the edit, the pass has made, in this order, the creation of an issue
    titled [Historical Bitbucket PR #<id>: <title>], labelled [bitbucketPR]
    and asking for the state [closed]; a comment on the merge commit of the
    record saying [Bitbucket PR details: #n]; and an edit of issue [n] with
    the same request; it then pauses and goes on with the remaining records
    exactly as a pass over them. *)
Theorem merged_record_becomes_a_closed_issue
    (env : Env) (history history1 : list Event) (githubOwner : gostring)
    (ghRepo : github.Repository) (pr : PullRequest) (values : list PullRequest)
    (issue : github.IssueRequest) (issueResponse : github.Issue) (number : Z) :
  let printed := Called (fmt_Print (str "Updating issue for PR " ++ Itoa (ID pr) ++ LF)) in
  let create := gh_Issues_Create githubOwner (github.Name ghRepo) issue in
  let comment :=
    gh_Repositories_CreateComment githubOwner (github.Name ghRepo) (Hash (MergeCommit pr))
      (str "Bitbucket PR details: #" ++ Itoa number) in
  let edit := gh_Issues_Edit githubOwner (github.Name ghRepo) number issue in
  is_merged pr = true ->
  run env (createClosedPrs_request pr) history = (history1, Returned issue) ->
  env _ (history1 ++ [printed]) create = Ok issueResponse ->
  github.Number issueResponse = Some number ->
  env _ ((history1 ++ [printed]) ++ [Called create]) comment = None ->
  env _ (((history1 ++ [printed]) ++ [Called create]) ++ [Called comment]) edit = None ->
  run env (createClosedPrs_range githubOwner ghRepo false (pr :: values)) history
  = run env (createClosedPrs_range githubOwner ghRepo false values)
      (history1 ++ [printed; Called create; Called comment; Called edit;
                    Called (time_Sleep GitHubRateLimitSleep)]) /\
  github.Issue_Title issue
  = str "Historical Bitbucket PR #" ++ Itoa (ID pr) ++ str ": " ++ Title pr /\
  github.Labels issue = [str "bitbucketPR"] /\
  github.State issue = str "closed".
Proof.
  intros printed create comment edit Hmerged Hreq Hcreate Hnumber Hcomment Hedit.
  split; [|apply (createClosedPrs_request_Returned env pr history history1 issue Hreq)].
  cbn [createClosedPrs_range]. unfold is_merged in Hmerged. rewrite Hmerged. cbn [negb].
  rewrite run_bind, Hreq. cbv iota.
  rewrite run_bind. unfold Print at 1. rewrite run_call. fold printed.
  rewrite run_bind, run_call. fold create. rewrite Hcreate. cbv iota. rewrite Hnumber.
  rewrite run_bind, run_call. fold comment. rewrite Hcomment. cbv iota.
  rewrite run_bind. cbn [run].
  rewrite run_bind, run_call. fold edit. rewrite Hedit. cbv iota.
  rewrite run_bind. cbn [run].
  rewrite run_bind. unfold Sleep at 1. rewrite run_call.
  rewrite <- !app_assoc. reflexivity.
Qed.

(** X14.  In the merged-PR pass no failure is passed over.  Without dry
    run, for a [MERGED] record whose issue is built, the run ends in
    [log.Fatalf], with no further call, as soon as the creation of the issue
    fails, or the comment on the merge commit fails, or the closing edit
    fails (the issue having a URL). *)
Theorem merged_pass_stops_at_any_failure
    (env : Env) (history history1 : list Event) (githubOwner : gostring)
    (ghRepo : github.Repository) (pr : PullRequest) (values : list PullRequest)
    (issue : github.IssueRequest) :
  let printed := Called (fmt_Print (str "Updating issue for PR " ++ Itoa (ID pr) ++ LF)) in
  let create := gh_Issues_Create githubOwner (github.Name ghRepo) issue in
  let pass := createClosedPrs_range githubOwner ghRepo false (pr :: values) in
  is_merged pr = true ->
  run env (createClosedPrs_request pr) history = (history1, Returned issue) ->
  (forall err,
     env _ (history1 ++ [printed]) create = Err err ->
     run env pass history
     = ((history1 ++ [printed]) ++ [Called create],
        Exited (str "failed to create issue for PR %d, error: %s")
          [a_int (ID pr); a_string err])) /\
  (forall issueResponse number,
     env _ (history1 ++ [printed]) create = Ok issueResponse ->
     github.Number issueResponse = Some number ->
     let comment :=
       gh_Repositories_CreateComment githubOwner (github.Name ghRepo)
         (Hash (MergeCommit pr)) (str "Bitbucket PR details: #" ++ Itoa number) in
     let edit := gh_Issues_Edit githubOwner (github.Name ghRepo) number issue in
     let history2 := (history1 ++ [printed]) ++ [Called create] in
     (forall err,
        env _ history2 comment = Some err ->
        run env pass history
        = (history2 ++ [Called comment],
           Exited (str "failed to comment on commit %s: %s")
             [a_string (Hash (MergeCommit pr)); a_string err])) /\
     (forall err url,
        env _ history2 comment = None ->
        env _ (history2 ++ [Called comment]) edit = Some err ->
        github.URL issueResponse = Some url ->
        run env pass history
        = ((history2 ++ [Called comment]) ++ [Called edit],
           Exited (str "failed to close issue %s: %s") [a_string url; a_string err]))).
Proof.
  intros printed create pass Hmerged Hreq. subst printed create pass.
  assert (Hpass : forall values,
             run env (createClosedPrs_range githubOwner ghRepo false (pr :: values)) history
             = run env
                 (r <- call (gh_Issues_Create githubOwner (github.Name ghRepo) issue) ;;
                  match r with
                  | Err err =>
                      Fatalf (str "failed to create issue for PR %d, error: %s")
                        [a_int (ID pr); a_string err]
                  | Ok issueResponse =>
                      match github.Number issueResponse with
                      | None => Panic
                      | Some number =>
                          err <- call (gh_Repositories_CreateComment githubOwner
                                         (github.Name ghRepo) (Hash (MergeCommit pr))
                                         (str "Bitbucket PR details: #" ++ Itoa number)) ;;
                          match err with
                          | Some err =>
                              Fatalf (str "failed to comment on commit %s: %s")
                                [a_string (Hash (MergeCommit pr)); a_string err]
                          | None => Ret tt
                          end ;;
                          err <- call (gh_Issues_Edit githubOwner (github.Name ghRepo)
                                         number issue) ;;
                          match err with
                          | Some err =>
                              match github.URL issueResponse with
                              | Some url =>
                                  Fatalf (str "failed to close issue %s: %s")
                                    [a_string url; a_string err]
                              | None => Panic
                              end
                          | None => Ret tt
                          end ;;
                          Sleep GitHubRateLimitSleep ;;
                          createClosedPrs_range githubOwner ghRepo false values
                      end
                  end)
                 (history1
                  ++ [Called (fmt_Print (str "Updating issue for PR " ++ Itoa (ID pr)
                                         ++ LF))])).
  { intros values'. cbn [createClosedPrs_range].
    unfold is_merged in Hmerged. rewrite Hmerged. cbn [negb].
    rewrite run_bind, Hreq. cbv iota.
    rewrite run_bind. unfold Print at 1. rewrite run_call. reflexivity. }
  split.
  - intros err Hcreate. rewrite Hpass, run_bind, run_call, Hcreate. reflexivity.
  - intros issueResponse number Hcreate Hnumber. split.
    + intros err Hcomment.
      rewrite Hpass, run_bind, run_call, Hcreate. cbv iota. rewrite Hnumber.
      rewrite run_bind, run_call, Hcomment. cbv iota. rewrite run_bind. reflexivity.
    + intros err url Hcomment Hedit Hurl.
      rewrite Hpass, run_bind, run_call, Hcreate. cbv iota. rewrite Hnumber.
      rewrite run_bind, run_call, Hcomment. cbv iota.
      rewrite run_bind. cbn [run].
      rewrite run_bind, run_call, Hedit. cbv iota. rewrite Hurl.
      rewrite run_bind. reflexivity.
Qed.

End Merged.

Lemma merged_record_becomes_a_closed_issue_witness :
  snd (run (demo_env demo_response (Ok {| github.PR_Number := Some 1%Z |}) None)
         (createClosedPrs_range (str "acme") demo_ghRepo false [demo_merged_pr]) [])
  = Returned tt.
Proof.
  destruct (merged_record_becomes_a_closed_issue
              (demo_env demo_response (Ok {| github.PR_Number := Some 1%Z |}) None)
              [] [] (str "acme") demo_ghRepo demo_merged_pr [] _
              {| github.Number := Some 3%Z;
                 github.URL := Some (str "https://github.com/acme/demo/issues/3") |}
              3%Z eq_refl eq_refl eq_refl eq_refl eq_refl eq_refl) as [H _].
  rewrite H. reflexivity.
Defined.

Lemma merged_pass_stops_at_any_failure_witness :
  snd (run (fun R h c =>
              match c in Call R return R with
              | gh_Issues_Create _ _ _ => Err (str "410 Issues are disabled")
              | c' => demo_env demo_response (Ok {| github.PR_Number := Some 1%Z |}) None
                        _ h c'
              end)
         (createClosedPrs_range (str "acme") demo_ghRepo false
            [demo_merged_pr; demo_merged_pr]) [])
  = Exited (str "failed to create issue for PR %d, error: %s")
      [a_int 7; a_string (str "410 Issues are disabled")].
Proof.
  destruct (merged_pass_stops_at_any_failure
              (fun R h c =>
                 match c in Call R return R with
                 | gh_Issues_Create _ _ _ => Err (str "410 Issues are disabled")
                 | c' => demo_env demo_response (Ok {| github.PR_Number := Some 1%Z |}) None
                           _ h c'
                 end)
              [] [] (str "acme") demo_ghRepo demo_merged_pr [demo_merged_pr] _
              eq_refl eq_refl) as [H _].
  rewrite (H (str "410 Issues are disabled") eq_refl). reflexivity.
Defined.

(** ** More on the record adapter *)

Section Adapter_more.
Context {lib : GoLib}.

Lemma decodePullRequest_pure (entry : value) :
  (exists r, decodePullRequest entry = Ret r) \/ decodePullRequest entry = Panic.
Proof.
  unfold decodePullRequest. destruct entry; cbn [assert_map bind]; auto.
  destruct (is_string _ _); [left; eexists; reflexivity|].
  destruct (snd _); left; eexists; reflexivity.
Qed.

Lemma decodePullRequests_loop_Ok (prArray : list value) (prs out : list PullRequest) :
  decodePullRequests_loop prArray prs = Ret (Ok out) ->
  exists decoded,
    out = prs ++ decoded /\
    Forall2 (fun entry pr => decodePullRequest entry = Ret (Ok pr)) prArray decoded.
Proof.
  revert prs. induction prArray as [|entry prArray IH]; intros prs;
    cbn [decodePullRequests_loop].
  - intros H. exists []. split; [rewrite app_nil_r; congruence | constructor].
  - destruct (decodePullRequest_pure entry) as [[r E]|E]; rewrite E; cbn [bind];
      [|discriminate].
    destruct r as [pr|err]; [|discriminate].
    intros H. destruct (IH _ H) as [decoded [Hout Hall]].
    exists (pr :: decoded). split.
    + rewrite Hout, <- app_assoc. reflexivity.
    + constructor; assumption.
Qed.

Lemma decodePullRequests_loop_stops (good : list value) (bad : value) (rest : list value)
    (prs : list PullRequest) :
  Forall (fun entry => exists pr, decodePullRequest entry = Ret (Ok pr)) good ->
  exists decoded,
    decodePullRequests_loop (good ++ bad :: rest) prs
    = (r <- decodePullRequest bad ;;
       match r with
       | Ok pr => decodePullRequests_loop rest ((prs ++ decoded) ++ [pr])
       | Err err => Ret (Err err)
       end).
Proof.
  intros Hgood. revert prs. induction Hgood as [|entry good [pr E] Hgood IH]; intros prs;
    cbn [app decodePullRequests_loop].
  - exists []. rewrite app_nil_r. reflexivity.
  - rewrite E. cbn [bind]. destruct (IH (prs ++ [pr])) as [decoded Hloop].
    exists (pr :: decoded). rewrite Hloop, <- app_assoc. reflexivity.
Qed.

Lemma float64_or_zero_integral_part (v : value) :
  integral_part_of v (float64_or_zero v).
Proof.
  destruct v as [| |x| | |]; cbn [integral_part_of float64_or_zero]; try reflexivity.
  unfold int_of_float64. intros H. rewrite H. reflexivity.
Qed.

(** X15.  When [decodePullRequests] returns a list, the response was a
    mapping with a list under [values]; the records are the decodings of the
    entries of that list, one for one and in the same order; [Size], [Page]
    and [Pagelen] are made of what stands under [size], [page] and
    [pagelen] as [int(x)] makes them: the integral part of a number, its
    fraction lost, when an [int] holds it, and 0 when the key is absent or
    does not hold a number; [Next] and [Previous] are left empty. *)
Theorem decodePullRequests_keeps_every_entry (prsResponse : value) (prs : PullRequests) :
  decodePullRequests prsResponse = Ret (Ok prs) ->
  exists prResponseMap prArray,
    prsResponse = VMap prResponseMap /\
    map_index prResponseMap (str "values") = VList prArray /\
    Forall2 (fun entry pr => decodePullRequest entry = Ret (Ok pr)) prArray (Values prs) /\
    Size prs = float64_or_zero (map_index prResponseMap (str "size")) /\
    Page prs = float64_or_zero (map_index prResponseMap (str "page")) /\
    Pagelen prs = float64_or_zero (map_index prResponseMap (str "pagelen")) /\
    integral_part_of (map_index prResponseMap (str "size")) (Size prs) /\
    integral_part_of (map_index prResponseMap (str "page")) (Page prs) /\
    integral_part_of (map_index prResponseMap (str "pagelen")) (Pagelen prs) /\
    Next prs = [] /\ Previous prs = [].
Proof.
  unfold decodePullRequests.
  destruct prsResponse as [| | | | |prResponseMap]; try discriminate.
  destruct (map_index prResponseMap (str "values")) as [| | | |prArray|] eqn:Ev;
    cbn [assert_slice bind]; try discriminate.
  destruct (decodePullRequests_loop prArray []) as [r| | |] eqn:El; cbn [bind];
    try discriminate.
  destruct r as [out|err]; [|discriminate].
  intros H. injection H as H. subst prs.
  destruct (decodePullRequests_loop_Ok _ _ _ El) as [decoded [Hout Hall]].
  cbn [app] in Hout. subst out.
  exists prResponseMap, prArray. cbn [Values Size Page Pagelen Next Previous].
  repeat split; try assumption; apply float64_or_zero_integral_part.
Qed.

(** X16.  The first entry that does not decode decides for the whole list:
    if every entry before it decodes and it yields an error, that error is
    what [decodePullRequests] returns; if it makes [decodePullRequest] panic,
    as every entry that is not a mapping does, [decodePullRequests] panics.
    The entries after it are not looked at. *)
Theorem decodePullRequests_stops_at_first_bad_entry
    (prResponseMap : gomap) (good : list value) (bad : value) (rest : list value) :
  map_index prResponseMap (str "values") = VList (good ++ bad :: rest) ->
  Forall (fun entry => exists pr, decodePullRequest entry = Ret (Ok pr)) good ->
  (forall err, decodePullRequest bad = Ret (Err err) ->
     decodePullRequests (VMap prResponseMap) = Ret (Err err)) /\
  (decodePullRequest bad = Panic -> decodePullRequests (VMap prResponseMap) = Panic) /\
  ((forall m, bad <> VMap m) -> decodePullRequests (VMap prResponseMap) = Panic).
Proof.
  intros Hvalues Hgood.
  assert (Hpanic : decodePullRequest bad = Panic ->
                   decodePullRequests (VMap prResponseMap) = Panic).
  { intros E. unfold decodePullRequests. rewrite Hvalues. cbn [assert_slice bind].
    destruct (decodePullRequests_loop_stops good bad rest [] Hgood) as [decoded Hloop].
    rewrite Hloop, E. reflexivity. }
  split; [|split; [exact Hpanic|]].
  - intros err E. unfold decodePullRequests. rewrite Hvalues. cbn [assert_slice bind].
    destruct (decodePullRequests_loop_stops good bad rest [] Hgood) as [decoded Hloop].
    rewrite Hloop, E. reflexivity.
  - intros Hbad. apply Hpanic. destruct bad as [| | | | |m]; try reflexivity.
    contradiction (Hbad m). reflexivity.
Qed.

Lemma decodePullRequestFields_State (name : gostring) (m : gomap) :
  State (fst (decodePullRequestFields name m))
  = fst (decodeString (sub name (str "State")) (field_lookup m (str "State"))).
Proof. reflexivity. Qed.

Lemma decodePullRequestFields_State_error (m : gomap) :
  snd (decodeString (str "State") (field_lookup m (str "State"))) <> [] ->
  In (str "State") (snd (decodePullRequestFields [] m)).
Proof.
  intros H. unfold decodePullRequestFields. rewrite !snd_dap.
  do 15 (apply in_or_app; left). apply in_or_app. right.
  unfold field. change (sub [] (str "State")) with (str "State").
  destruct (field_lookup m (str "State")) as [[| | | | |]|]; cbn [decodeString snd] in *;
    first [left; reflexivity | contradiction H; reflexivity].
Qed.

(** X17.  The state of an entry that is not error-shaped.  If the entry
    has a value under [state] that is neither nil nor a string, decoding
    fails with an error that names [State].  If it has no [state], or nil,
    and decodes, the record has the empty state: it is neither [OPEN] nor
    [MERGED], so both passes leave it out. *)
Theorem state_is_checked_for_kind_not_presence (m : gomap) :
  is_string (map_index m (str "type")) (str "error") = false ->
  (forall v, field_lookup m (str "State") = Some v -> v <> VNil ->
     (forall s, v <> VStr s) ->
     exists fields,
       decodePullRequest (VMap m) = Ret (Err (mapstructure_Error fields)) /\
       In (str "State") fields) /\
  (field_lookup m (str "State") = None \/ field_lookup m (str "State") = Some VNil ->
   forall pr, decodePullRequest (VMap m) = Ret (Ok pr) ->
     State pr = [] /\ is_open pr = false /\ is_merged pr = false).
Proof.
  intros Htype. split.
  - intros v Hv Hnil Hstr.
    assert (Hin : In (str "State") (snd (decodePullRequestFields [] m))).
    { apply decodePullRequestFields_State_error. rewrite Hv.
      destruct v; try discriminate.
      - contradiction Hnil. reflexivity.
      - contradiction (Hstr s). reflexivity. }
    unfold decodePullRequest. cbn [assert_map bind]. rewrite Htype.
    destruct (snd (decodePullRequestFields [] m)) as [|f fields] eqn:E;
      [contradiction Hin|].
    exists (f :: fields). split; [reflexivity | exact Hin].
  - intros Habsent pr Hdec. apply decodePullRequest_Ok in Hdec.
    assert (Hstate : State pr = []).
    { subst pr. rewrite decodePullRequestFields_State.
      destruct Habsent as [E|E]; rewrite E; reflexivity. }
    unfold is_open, is_merged. rewrite Hstate. repeat split.
Qed.

(** X18.  Whenever [getPrs] returns, it has printed one line and made one
    request to Bitbucket, whose answer decoded without error; what it
    returns is the decoded list with its records rearranged (none lost, none
    repeated) and its other fields unchanged. *)
Theorem getPrs_returns_the_decoded_records
    (env : Env) (history history' : list Event)
    (owner repo destinationBranch : gostring) (prs : PullRequests) :
  run env (getPrs owner repo destinationBranch) history = (history', Returned prs) ->
  exists text opt response decoded,
    history' = history ++ [Called (fmt_Print text); Called (bb_PullRequests_Gets opt)] /\
    bitbucket.DestinationBranch opt = destinationBranch /\
    env _ (history ++ [Called (fmt_Print text)]) (bb_PullRequests_Gets opt) = Ok response /\
    decodePullRequests response = Ret (Ok decoded) /\
    Permutation (Values prs) (Values decoded) /\
    Size prs = Size decoded /\ Page prs = Page decoded /\ Pagelen prs = Pagelen decoded.
Proof.
  unfold getPrs. unfold Println, Print. rewrite run_bind, run_call. cbv iota.
  rewrite run_bind, run_call.
  match goal with
  | |- context [env ?R ?h ?c] => destruct (env R h c) as [response|err] eqn:Eresp
  end; cbv iota; [|discriminate].
  rewrite run_bind.
  pose proof (decodePullRequests_calls (fun _ _ => false) response) as Hpure.
  destruct (decodePullRequests response) as [r|format args| |R c k] eqn:Edec; cbn [run];
    try discriminate.
  - destruct r as [decoded|err]; cbn [run]; [|discriminate].
    intros H. injection H as H1 H2. subst prs.
    eexists. eexists. exists response, decoded.
    split; [rewrite <- H1, <- app_assoc; reflexivity|].
    split; [reflexivity|]. split; [exact Eresp|]. split; [exact Edec|].
    cbn [Values Size Page Pagelen]. repeat split.
    apply (SortFunc_Permutation PullRequest ID).
  - inversion Hpure. discriminate.
Qed.

End Adapter_more.

Lemma decodePullRequests_keeps_every_entry_witness :
  Forall2 (fun entry pr => decodePullRequest entry = Ret (Ok pr))
    [demo_open_entry; demo_merged_entry] [demo_open_pr; demo_merged_pr] /\
  integral_part_of (VNum 2) 2.
Proof.
  destruct (decodePullRequests_keeps_every_entry demo_response
              {| Size := 2; Page := 1; Pagelen := 10; Next := []; Previous := [];
                 Values := [demo_open_pr; demo_merged_pr] |} eq_refl)
    as [prResponseMap [prArray [Hmap [Hvalues [Hall [_ [_ [_ [Hsize _]]]]]]]]].
  unfold demo_response in Hmap. injection Hmap as Hmap. subst prResponseMap.
  cbv in Hvalues. injection Hvalues as Hvalues. subst prArray.
  split; [exact Hall | exact Hsize].
Defined.

Lemma decodePullRequests_stops_at_first_bad_entry_witness :
  decodePullRequests
    (VMap [ (str "values",
             VList [ demo_open_entry;
                     VMap [ (str "type", VStr (str "error"));
                            (str "error",
                             VMap [(str "message", VStr (str "Repository not found"))]) ];
                     VStr (str "junk") ]) ])
  = Ret (Err (errors_New (str "Repository not found"))).
Proof.
  destruct (decodePullRequests_stops_at_first_bad_entry
              [ (str "values",
                 VList [ demo_open_entry;
                         VMap [ (str "type", VStr (str "error"));
                                (str "error",
                                 VMap [(str "message",
                                        VStr (str "Repository not found"))]) ];
                         VStr (str "junk") ]) ]
              [demo_open_entry]
              (VMap [ (str "type", VStr (str "error"));
                      (str "error",
                       VMap [(str "message", VStr (str "Repository not found"))]) ])
              [VStr (str "junk")] eq_refl) as [Herr _].
  - constructor; [|constructor]. exists demo_open_pr. reflexivity.
  - apply Herr. reflexivity.
Defined.

Lemma state_is_checked_for_kind_not_presence_witness :
  (exists fields,
     decodePullRequest (VMap [(str "id", VNum 4); (str "state", VNum 1)])
     = Ret (Err (mapstructure_Error fields)) /\ In (str "State") fields) /\
  is_open (decoded_entry (VMap [(str "id", VNum 4)])) = false.
Proof.
  split.
  - destruct (state_is_checked_for_kind_not_presence
                [(str "id", VNum 4); (str "state", VNum 1)] eq_refl) as [Hkind _].
    apply (Hkind (VNum 1)); [reflexivity | discriminate | discriminate].
  - destruct (state_is_checked_for_kind_not_presence [(str "id", VNum 4)] eq_refl)
      as [_ Habsent].
    apply (Habsent (or_introl eq_refl) (decoded_entry (VMap [(str "id", VNum 4)])) eq_refl).
Defined.

Lemma getPrs_returns_the_decoded_records_witness :
  exists text opt response decoded,
    demo_env demo_response (Ok {| github.PR_Number := Some 1%Z |}) None _
      ([] ++ [Called (fmt_Print text)]) (bb_PullRequests_Gets opt) = Ok response /\
    decodePullRequests response = Ret (Ok decoded) /\
    Permutation [demo_merged_pr; demo_open_pr] (Values decoded) /\
    bitbucket.DestinationBranch opt = str "main" /\ text <> [].
Proof.
  destruct (getPrs_returns_the_decoded_records
              (demo_env demo_response (Ok {| github.PR_Number := Some 1%Z |}) None)
              []
              (fst (run (demo_env demo_response (Ok {| github.PR_Number := Some 1%Z |}) None)
                      (getPrs (str "acme") (str "demo") (str "main")) []))
              (str "acme") (str "demo") (str "main")
              {| Size := 2; Page := 1; Pagelen := 10; Next := []; Previous := [];
                 Values := [demo_merged_pr; demo_open_pr] |} eq_refl)
    as [text [opt [response [decoded [Hh [Hb [He [Hd [Hp _]]]]]]]]].
  exists text, opt, response, decoded.
  split; [exact He|]. split; [exact Hd|]. split; [exact Hp|]. split; [exact Hb|].
  intros E. subst text. discriminate Hh.
Defined.

(** ** The lines of the file *)

Lemma split_from_not_nil (skip : nat) (s sep : gostring) : split_from skip s sep <> [].
Proof.
  revert skip. induction s as [|c s IH]; intros skip; simpl; [discriminate|].
  destruct skip as [|n]; [|apply IH].
  destruct (HasPrefix (c :: s) sep); [discriminate|].
  destruct (split_from 0 s sep); discriminate.
Qed.

Lemma Split_app_LF (a b : gostring) :
  Split (a ++ LF ++ b) LF = Split a LF ++ Split b LF.
Proof.
  unfold Split, LF. induction a as [|c a IH].
  - simpl. reflexivity.
  - cbn [app split_from]. rewrite !HasPrefix_single.
    destruct (N.eqb c 10).
    + cbn [List.length Nat.sub]. cbn [app] in IH. rewrite IH. reflexivity.
    + cbn [app] in IH. rewrite IH.
      pose proof (split_from_not_nil 0 a [10%N]) as Hne.
      destruct (split_from 0 a [10%N]) as [|piece pieces]; [contradiction Hne; reflexivity|].
      reflexivity.
Qed.

(** X19.  A line break cuts the file in two independent parts: the list that
    [parseRepos] makes of a file is the list it makes of what stands before
    a line break, followed by the list it makes of what stands after it.  So
    the identifiers come in the order of their lines, and a line is treated
    the same wherever it stands in the file. *)
Theorem parseRepos_app (a b : gostring) :
  parseRepos (a ++ LF ++ b) = parseRepos a ++ parseRepos b.
Proof. rewrite !parseRepos_flat_map, Split_app_LF. apply flat_map_app. Qed.

Lemma TrimLeftFunc_all (f : rune -> bool) (pre s : gostring) :
  forallb f pre = true -> TrimLeftFunc (pre ++ s) f = TrimLeftFunc s f.
Proof.
  induction pre as [|c pre IH]; simpl; [reflexivity|].
  intros H. apply andb_true_iff in H. destruct H as [Hc Hpre].
  rewrite Hc. apply IH. exact Hpre.
Qed.

Lemma TrimLeftFunc_app (f : rune -> bool) (s t : gostring) :
  TrimLeftFunc (s ++ t) f =
  match TrimLeftFunc s f with
  | [] => TrimLeftFunc t f
  | u => u ++ t
  end.
Proof.
  induction s as [|c s IH]; simpl; [reflexivity|].
  destruct (f c); [exact IH | reflexivity].
Qed.

Lemma TrimRightFunc_all (f : rune -> bool) (post : gostring) :
  forallb f post = true -> TrimRightFunc post f = [].
Proof.
  induction post as [|c post IH]; simpl; [reflexivity|].
  intros H. apply andb_true_iff in H. destruct H as [Hc Hpost].
  rewrite (IH Hpost), Hc. reflexivity.
Qed.

Lemma TrimRightFunc_app_all (f : rune -> bool) (s post : gostring) :
  forallb f post = true -> TrimRightFunc (s ++ post) f = TrimRightFunc s f.
Proof.
  intros H. induction s as [|c s IH]; simpl.
  - apply TrimRightFunc_all. exact H.
  - rewrite IH. reflexivity.
Qed.

Lemma TrimFunc_surrounded (f : rune -> bool) (pre s post : gostring) :
  forallb f pre = true -> forallb f post = true ->
  TrimFunc (pre ++ s ++ post) f = TrimFunc s f.
Proof.
  intros Hpre Hpost. unfold TrimFunc.
  rewrite (TrimLeftFunc_all f pre _ Hpre), TrimLeftFunc_app.
  destruct (TrimLeftFunc s f) as [|c u] eqn:E.
  - rewrite <- (app_nil_r post), (TrimLeftFunc_all f post [] Hpost). reflexivity.
  - apply TrimRightFunc_app_all. exact Hpost.
Qed.

(** X20.  White space around a line does not count: a line of the file with
    white space added before it and after it (blanks, tabs, the carriage
    return of a file with CR LF line ends) is dropped if the line is, and
    yields the same identifier otherwise. *)
Theorem cleanRepo_ignores_surrounding_space (pre line post : gostring) :
  forallb IsSpace pre = true -> forallb IsSpace post = true ->
  cleanRepo (pre ++ line ++ post) = cleanRepo line.
Proof.
  intros Hpre Hpost. unfold cleanRepo, TrimSpace.
  rewrite (TrimFunc_surrounded IsSpace pre line post Hpre Hpost). reflexivity.
Qed.

Lemma cleanRepo_ignores_surrounding_space_witness :
  cleanRepo (str tab ++ str "my repo" ++ [13%N]) = cleanRepo (str "my repo") /\
  cleanRepo (str "my repo") = Some (str "my-repo").
Proof.
  split; [|reflexivity].
  apply (cleanRepo_ignores_surrounding_space (str tab) (str "my repo") [13%N]);
    reflexivity.
Defined.

(** ** The summaries *)

Lemma ReplaceAll_remove (s : gostring) (a : rune) :
  ReplaceAll s [a] [] = filter (fun c => negb (N.eqb c a)) s.
Proof.
  unfold ReplaceAll. induction s as [|c s IH]; simpl; [reflexivity|].
  rewrite andb_true_r. destruct (N.eqb c a); simpl; [|f_equal]; exact IH.
Qed.

Lemma In_replace_from (skip : nat) (s old : gostring) (c : rune) :
  In c (replace_from skip s old []) -> In c s.
Proof.
  revert skip. induction s as [|d s IH]; intros skip; simpl; [tauto|].
  destruct skip as [|n].
  - destruct (HasPrefix (d :: s) old); simpl.
    + intros H. right. exact (IH _ H).
    + intros [H|H]; [left; exact H | right; exact (IH _ H)].
  - intros H. right. exact (IH _ H).
Qed.

Lemma In_ReplaceAll_nil (s old : gostring) (c : rune) :
  In c (ReplaceAll s old []) -> In c s.
Proof.
  unfold ReplaceAll. destruct old as [|o old].
  - simpl. rewrite in_flat_map. intros [x [Hx [E|[]]]]. subst x. exact Hx.
  - apply In_replace_from.
Qed.

Lemma ReplaceAll_absent (s old new : gostring) :
  Contains s old = false -> ReplaceAll s old new = s.
Proof.
  unfold ReplaceAll. destruct old as [|o old].
  - destruct s; simpl; discriminate.
  - induction s as [|c s IH]; [reflexivity|].
    cbn [Contains replace_from]. intros H. apply orb_false_iff in H.
    destruct H as [Hp Hc]. rewrite Hp. f_equal. apply IH. exact Hc.
Qed.

(** X21.  [cleanBitbucketPRSummary] only removes: what it returns holds no
    zero-width non-joiner, holds no code point that the summary did not
    hold, and is the summary itself when the summary holds neither the
    inline-card mark nor a zero-width non-joiner. *)
Theorem cleanBitbucketPRSummary_only_removes (prSummary : gostring) :
  ~ In ZWNJ (cleanBitbucketPRSummary prSummary) /\
  (forall c, In c (cleanBitbucketPRSummary prSummary) -> In c prSummary) /\
  (Contains prSummary inline_card = false -> Contains prSummary [ZWNJ] = false ->
   cleanBitbucketPRSummary prSummary = prSummary).
Proof.
  unfold cleanBitbucketPRSummary. fold inline_card. change [8204%N] with [ZWNJ].
  split; [|split].
  - rewrite ReplaceAll_remove. intros H. apply filter_In in H.
    destruct H as [_ H]. rewrite N.eqb_refl in H. discriminate H.
  - intros c H. apply In_ReplaceAll_nil in H. apply In_ReplaceAll_nil in H. exact H.
  - intros Hcard Hz. rewrite (ReplaceAll_absent _ _ _ Hcard). apply ReplaceAll_absent.
    exact Hz.
Qed.

Lemma cleanBitbucketPRSummary_only_removes_witness :
  cleanBitbucketPRSummary (str "Fixes the build") = str "Fixes the build" /\
  ~ In ZWNJ (cleanBitbucketPRSummary (str "a" ++ [ZWNJ] ++ str "b")).
Proof.
  destruct (cleanBitbucketPRSummary_only_removes (str "Fixes the build"))
    as [_ [_ Hsame]].
  destruct (cleanBitbucketPRSummary_only_removes (str "a" ++ [ZWNJ] ++ str "b"))
    as [Hnone _].
  split; [apply Hsame; reflexivity | exact Hnone].
Defined.

(** ** The list of repositories, one after the other *)

Section Contents.
Context {lib : GoLib}.

Lemma migrateRepos_range_app (env : Env) (config : settings.t) (l1 l2 : list gostring)
    (history : list Event) :
  run env (migrateRepos_range (l1 ++ l2) config) history
  = and_then (run env (migrateRepos_range l1 config) history)
      (fun _ history' => run env (migrateRepos_range l2 config) history').
Proof.
  revert history. induction l1 as [|repo l1 IH]; intros history;
    cbn [app migrateRepos_range]; [reflexivity|].
  rewrite !run_bind.
  destruct (run env (migrateRepo repo config) history) as [history' [[]|format args|]];
    [apply IH | reflexivity | reflexivity].
Qed.

(** X22.  The repositories are migrated one after the other, each from the
    history the one before left: a run over a list of repositories followed
    by a second list is the run over the first list, followed, when that one
    returns, by the migration of the second list without a second dry-run
    notice.  When the first run stops the process, in a fatal error or a
    panic, nothing is called for the second list. *)
Theorem migrateRepos_app (env : Env) (config : settings.t) (l1 l2 : list gostring)
    (history : list Event) :
  run env (migrateRepos (l1 ++ l2) config) history
  = and_then (run env (migrateRepos l1 config) history)
      (fun _ history' => run env (migrateRepos_range l2 config) history').
Proof.
  unfold migrateRepos. rewrite !run_bind.
  destruct (run env (if settings.dryRun config
                     then Println [str "Dry Run - not actually migrating anything"]
                     else Ret tt) history) as [history' [[]|format args|]];
    [apply migrateRepos_range_app | reflexivity | reflexivity].
Qed.

(** X23.  What [pushRepoToGithub] asks of the clone, whatever the answers.
    It adds the remote once.  It runs the post-clone program once when the
    remote was added and the program is not [noop], in a dry run as well as
    outside of one.  It pushes once when the remote was added, the program,
    if one was run, ended without an error, and the run is not a dry run;
    otherwise it does not push. *)
Theorem pushRepoToGithub_calls (env : Env) (history : list Event)
    (repoFolder repoName : gostring) (config : settings.t) :
  let add :=
    git_remote_add repoFolder (str "newOrigin")
      (str "https://github.com/" ++ settings.ghOwner config ++ str "/"
       ++ repoName ++ str ".git") in
  let added := env _ history add in
  let ran :=
    env _ (history ++ [Called add; Called (fmt_Print (fst added))])
      (exec_program (settings.runProgram config) repoFolder) in
  let custom := negb (streq (settings.runProgram config) (str "noop")) in
  let calls := calls_of env (pushRepoToGithub repoFolder repoName config) history in
  count_calls is_remote_add calls = 1 /\
  count_calls is_program calls = (if succeeded added && custom then 1 else 0) /\
  count_calls is_push calls
  = (if succeeded added && (negb custom || succeeded ran) && negb (settings.dryRun config)
     then 1 else 0).
Proof.
  intros add added ran custom calls. subst calls.
  unfold pushRepoToGithub, runProgram, Println, Print, call.
  fold add. cbn [bind calls_of]. fold added. rewrite !count_calls_cons.
  cbn [is_remote_add is_program is_push].
  destruct added as [output [err|]] eqn:Eadded; cbn [bind calls_of]; fold custom.
  - cbn [succeeded snd andb]. rewrite !count_calls_cons. cbn. auto.
  - cbn [succeeded snd andb fst] in *.
    destruct custom eqn:Ecustom; cbn [bind calls_of negb orb].
    + rewrite <- !app_assoc. cbn [app]. fold ran.
      rewrite !count_calls_cons. cbn [is_remote_add is_program is_push].
      destruct ran as [output' [err'|]] eqn:Eran; cbn [bind calls_of succeeded snd].
      * rewrite !count_calls_cons. cbn. auto.
      * destruct (settings.dryRun config); cbn [bind calls_of negb].
        -- rewrite !count_calls_cons. cbn. auto.
        -- rewrite !count_calls_cons. cbn [is_remote_add is_program is_push].
           destruct (env _ _ (git_push_mirror repoFolder (str "newOrigin"))) as [o [e|]];
             cbn [bind calls_of]; rewrite ?count_calls_cons; cbn; auto.
    + destruct (settings.dryRun config); cbn [bind calls_of negb].
      * rewrite !count_calls_cons. cbn. auto.
      * rewrite !count_calls_cons. cbn [is_remote_add is_program is_push].
        destruct (env _ _ (git_push_mirror repoFolder (str "newOrigin"))) as [o [e|]];
          cbn [bind calls_of]; rewrite ?count_calls_cons; cbn; auto.
Qed.

End Contents.

(** ** Start-up, and the first step of a migration *)

Lemma main_config_repoFile (godotenv_Load : option errtext)
    (Getenv : gostring -> gostring) (config : settings.t) :
  main_config godotenv_Load Getenv = Started config ->
  settings.repoFile config = Getenv (str "REPO_FILE").
Proof.
  unfold main_config. destruct godotenv_Load; [discriminate|]. intros H.
  parse_bools. cbv zeta in H.
  repeat match type of H with
  | (if ?b then _ else _) = _ => destruct b; [discriminate H|]
  end.
  injection H as H. subst config. cbn [settings.repoFile]. reflexivity.
Qed.

Section Contents_more.
Context {lib : GoLib}.

(** X24.  [main] starts a migration only over a file it could read: then
    REPO_FILE is not empty, the file named by REPO_FILE without the white
    space around it was read, and the migration is that of the identifiers
    [parseRepos] makes of its contents, under the configuration read from
    the environment.  The name is tested for emptiness before the white
    space is taken off. *)
Theorem main_migrates_the_repositories_of_the_file
    (godotenv_Load : option errtext) (Getenv : gostring -> gostring)
    (ReadFile : gostring -> result gostring errtext) (program : Prog unit) :
  main godotenv_Load Getenv ReadFile = Started program ->
  exists config data,
    main_config godotenv_Load Getenv = Started config /\
    Getenv (str "REPO_FILE") <> [] /\
    ReadFile (TrimSpace (Getenv (str "REPO_FILE"))) = Ok data /\
    program = migrateRepos (parseRepos data) config.
Proof.
  intros Hmain. unfold main in Hmain.
  destruct (main_config godotenv_Load Getenv) as [config| |] eqn:Hconfig;
    cbn [startup_bind] in Hmain; try discriminate Hmain.
  pose proof (main_config_repoFile _ _ _ Hconfig) as Hfile.
  unfold parseRepos_file in Hmain. rewrite Hfile in Hmain.
  destruct (streq (Getenv (str "REPO_FILE")) []) eqn:Hempty;
    cbn [startup_bind] in Hmain; [discriminate Hmain|].
  destruct (ReadFile (TrimSpace (Getenv (str "REPO_FILE")))) as [data|err] eqn:Hread;
    cbn [startup_bind] in Hmain; [|discriminate Hmain].
  injection Hmain as Hmain. exists config, data.
  split; [reflexivity|]. split; [apply streq_nil; exact Hempty|].
  split; [reflexivity|]. symmetry. exact Hmain.
Qed.

(** X25.  A repository that Bitbucket cannot give ends the whole run.  When
    the request for the repository fails, [migrateRepo] has made that one
    request after one line of output, and the process exits in
    [log.Fatalf]: nothing is cloned, nothing is asked of GitHub, and the
    repositories that come later in the list are not looked at. *)
Theorem missing_repository_stops_the_migration
    (env : Env) (history : list Event) (repo : gostring) (rest : list gostring)
    (config : settings.t) (err : errtext) :
  let line :=
    fmt_Print (Join [str "Getting bitbucket settings for"; repo] (str " ") ++ LF) in
  let get :=
    bb_Repository_Get {| bitbucket.Owner := settings.bbWorkspace config;
                         bitbucket.RepoSlug := repo |} in
  env _ (history ++ [Called line]) get = Err err ->
  run env (migrateRepos_range (repo :: rest) config) history
  = (history ++ [Called line; Called get],
     Exited (str "Failed to get repo from bitbucket: %v") [a_string err]).
Proof.
  intros line get Hget. cbn [migrateRepos_range]. unfold migrateRepo.
  rewrite !run_bind. unfold Println, Print. fold line. rewrite run_call.
  unfold getRepo. fold get. rewrite !run_bind, run_call, Hget. cbn [run].
  f_equal. symmetry. apply (app_assoc history [Called line] [Called get]).
Qed.

(** X26.  When [cloneRepo] returns, what it returns is the folder that
    [os.MkdirTemp] made, a [git clone --mirror] into that folder has ended
    without an error, and nothing else was called but the two lines of
    output.  The address cloned from is that of the repository in the
    workspace, in the SSH form exactly when CLONE_VIA reads [ssh] in any
    letter case, in the HTTPS form otherwise.  The dry-run switch plays no
    part. *)
Theorem cloneRepo_returns_a_cloned_folder
    (env : Env) (history history' : list Event) (repo : gostring)
    (config : settings.t) (tempDir : gostring) :
  run env (cloneRepo repo config) history = (history', Returned tempDir) ->
  exists text scheme output,
    let mkdir :=
      os_MkdirTemp (settings.bbWorkspace config ++ str "-" ++ repo ++ str "-*") in
    let clone :=
      git_clone_mirror
        (scheme ++ settings.bbWorkspace config ++ str "/" ++ repo ++ str ".git")
        tempDir in
    env _ history mkdir = Ok tempDir /\
    env _ (history ++ [Called mkdir; Called (fmt_Print text)]) clone = (output, None) /\
    history' = history ++ [Called mkdir; Called (fmt_Print text); Called clone;
                           Called (fmt_Print (output ++ LF))] /\
    scheme = (if streq (ToLower (settings.cloneVia config)) (str "ssh")
              then ssh_scheme else https_scheme).
Proof.
  unfold cloneRepo. rewrite run_bind, run_call.
  destruct (env _ history (os_MkdirTemp _)) as [dir|err] eqn:Emk; [|discriminate].
  unfold Println, Print. rewrite !run_bind, !run_call.
  set (scheme := if streq (ToLower (settings.cloneVia config)) (str "ssh")
                 then ssh_scheme else https_scheme).
  assert (Eurl : (if streq (ToLower (settings.cloneVia config)) (str "ssh")
                  then str "git@bitbucket.org:" ++ settings.bbWorkspace config ++ str "/"
                       ++ repo ++ str ".git"
                  else str "https://bitbucket.org/" ++ settings.bbWorkspace config
                       ++ str "/" ++ repo ++ str ".git")
                 = scheme ++ settings.bbWorkspace config ++ str "/" ++ repo ++ str ".git").
  { subst scheme. destruct (streq (ToLower (settings.cloneVia config)) (str "ssh"));
      reflexivity. }
  cbv zeta. rewrite Eurl. rewrite run_bind, run_call.
  match goal with
  | |- context [env ?R ?h (git_clone_mirror ?u ?d)] =>
      destruct (env R h (git_clone_mirror u d)) as [output [err|]] eqn:Eclone
  end; cbn [run bind]; [discriminate|].
  intros H. injection H as H1 H2. subst tempDir.
  eexists. exists scheme, output. cbv zeta.
  rewrite <- app_assoc in Eclone. cbn [app] in Eclone.
  split; [reflexivity|]. split; [exact Eclone|]. split; [|reflexivity].
  rewrite <- H1. rewrite <- !app_assoc. reflexivity.
Qed.

End Contents_more.

Lemma main_migrates_the_repositories_of_the_file_witness :
  exists config,
    main (lib := ascii_lib) None demo_Getenv (fun _ => Ok (str ("repo1" ++ nl ++ "my repo")))
    = Started (migrateRepos [str "repo1"; str "my-repo"] config) /\
    settings.dryRun config = true.
Proof.
  destruct (main_migrates_the_repositories_of_the_file (lib := ascii_lib) None demo_Getenv
              (fun _ => Ok (str ("repo1" ++ nl ++ "my repo")))
              (match main (lib := ascii_lib) None demo_Getenv
                       (fun _ => Ok (str ("repo1" ++ nl ++ "my repo"))) with
               | Started program => program
               | _ => Ret tt
               end) eq_refl) as [config [data [Hconfig [_ [Hdata Hprogram]]]]].
  exists config. injection Hdata as Hdata. subst data.
  injection Hconfig as Hconfig. subst config. split; reflexivity.
Defined.

Lemma missing_repository_stops_the_migration_witness :
  snd (run no_repository_env (migrateRepos_range [str "gone"; str "demo"] (demo_config false)) [])
  = Exited (str "Failed to get repo from bitbucket: %v") [a_string (str "404 Not Found")].
Proof.
  exact (f_equal snd
           (missing_repository_stops_the_migration no_repository_env [] (str "gone")
              [str "demo"] (demo_config false) (str "404 Not Found") eq_refl)).
Defined.

Lemma cloneRepo_returns_a_cloned_folder_witness :
  exists text output,
    fst (run (demo_env demo_response (Ok {| github.PR_Number := Some 1%Z |}) None)
           (cloneRepo (str "demo") (demo_config false)) [])
    = [ Called (os_MkdirTemp (str "acme-demo-*")); Called (fmt_Print text);
        Called (git_clone_mirror (str "git@bitbucket.org:acme/demo.git")
                  (str "/tmp/acme-demo-1"));
        Called (fmt_Print (output ++ LF)) ].
Proof.
  destruct (cloneRepo_returns_a_cloned_folder
              (demo_env demo_response (Ok {| github.PR_Number := Some 1%Z |}) None)
              []
              (fst (run (demo_env demo_response (Ok {| github.PR_Number := Some 1%Z |}) None)
                      (cloneRepo (str "demo") (demo_config false)) []))
              (str "demo") (demo_config false) (str "/tmp/acme-demo-1") eq_refl)
    as [text [scheme [output [_ [_ [Hh Hs]]]]]].
  exists text, output. rewrite Hh, Hs. reflexivity.
Defined.

(** ** The delivery of the records to the passes *)

Section Delivery.
Context {lib : GoLib}.

Lemma getPrs_returns_a_permutation
    (env : Env) (history history' : list Event)
    (owner repo destinationBranch : gostring) (prs : PullRequests) :
  run env (getPrs owner repo destinationBranch) history = (history', Returned prs) ->
  exists text opt response decoded,
    env _ (history ++ [Called (fmt_Print text)]) (bb_PullRequests_Gets opt) = Ok response /\
    decodePullRequests response = Ret (Ok decoded) /\
    Permutation (Values prs) (Values decoded).
Proof.
  unfold getPrs. unfold Println, Print. rewrite run_bind, run_call. cbv iota.
  rewrite run_bind, run_call.
  match goal with
  | |- context [env ?R ?h ?c] => destruct (env R h c) as [response|err] eqn:Eresp
  end; cbv iota; [|discriminate].
  rewrite run_bind.
  pose proof (decodePullRequests_calls (fun _ _ => false) response) as Hpure.
  destruct (decodePullRequests response) as [r|format args| |R c k] eqn:Edec; cbn [run];
    try discriminate.
  - destruct r as [decoded|err]; cbn [run]; [|discriminate].
    intros H. injection H as H1 H2. subst prs.
    eexists. eexists. exists response, decoded.
    split; [exact Eresp|]. split; [exact Edec|].
    cbn [Values]. apply (SortFunc_Permutation PullRequest ID).
  - inversion Hpure. discriminate.
Qed.

(** Steps through a program all of whose calls lie in the given stages. *)
Ltac within_stages :=
  repeat first
    [ progress cbv beta iota
    | solve [auto with stages calls]
    | match goal with
      | |- Forall_calls _ (bind _ _) => apply Forall_calls_bind; [| intros]
      | |- Forall_calls _ (Ret _) => apply Forall_calls_Ret
      | |- Forall_calls _ (Println _) => unfold Println, Print, call
      | |- Forall_calls _ (Do _ _) => apply Forall_calls_Do; [reflexivity | intros]
      | |- Forall_calls _ (match ?x with _ => _ end) => destruct x
      end ].

(** One stage of [migrateRepo] on both sides of an equation between runs. *)
Ltac same_stage :=
  rewrite ?run_bind;
  match goal with
  | |- context [match run ?e ?p ?h with _ => _ end] =>
      destruct (run e p h) as [? [?| |]]; cbn [and_then fst snd run]; try reflexivity
  end.

(** C6.  Whenever [getPrs] returns, the records it returns are in
    non-decreasing order of their numeric id, and they are the records that
    the answer of Bitbucket decodes to, none lost and none repeated.  These
    records are what both passes are given: whenever the pull requests are
    migrated, every run of [migrateRepo] is a part that makes no pull request
    and no issue, then [getPrs], then a second such part, and then the
    open-PR pass and the merged-PR pass (or the line that stands for a pass
    switched off) over the very list that [getPrs] returned, each ranging
    over it from the first record to the last. *)
Theorem getPrs_in_id_order
    (env : Env) (history history' : list Event)
    (owner repo destinationBranch : gostring) (prs : PullRequests) :
  run env (getPrs owner repo destinationBranch) history = (history', Returned prs) ->
  non_decreasing ID (Values prs) /\
  (exists text opt response decoded,
     env _ (history ++ [Called (fmt_Print text)]) (bb_PullRequests_Gets opt) = Ok response /\
     decodePullRequests response = Ret (Ok decoded) /\
     Permutation (Values prs) (Values decoded)) /\
  forall (repoName : gostring) (config : settings.t),
    settings.migrateOpenPrs config || settings.migrateClosedPrs config = true ->
    exists (before : Prog (bitbucket.Repository * gostring))
           (between : bitbucket.Repository -> gostring -> Prog github.Repository),
      Forall_calls (in_stages before_pull_requests) before /\
      (forall bbRepo repoFolder,
         Forall_calls (in_stages before_pull_requests) (between bbRepo repoFolder)) /\
      forall (env' : Env) (history0 : list Event),
        run env' (migrateRepo repoName config) history0
        = and_then (run env' before history0) (fun found history1 =>
          and_then (run env' (getPrs (settings.bbWorkspace config) repoName
                                (bitbucket.Mainbranch_Name (fst found))) history1)
            (fun prs' history2 =>
          and_then (run env' (between (fst found) (snd found)) history2)
            (fun ghRepo history3 =>
          run env'
            ((if settings.migrateOpenPrs config
              then migrateOpenPrs (settings.ghOwner config) ghRepo prs'
                     (settings.dryRun config)
              else Println [str "Skipping open PR's"]) ;;
             (if settings.migrateClosedPrs config
              then createClosedPrs (settings.ghOwner config) ghRepo prs'
                     (settings.dryRun config)
              else Println [str "Skipping closed PR's"]) ;;
             Println [str "done migrating repo"] ;;
             Print (str "-----------------------" ++ LF ++ LF) ;;
             Sleep GitHubRateLimitSleep)
            history3))).
Proof.
  intros E. split; [|split].
  - exact (Returns_only_run _ _ _ (getPrs_returns owner repo destinationBranch) _ _ _ _ E).
  - exact (getPrs_returns_a_permutation env history history' owner repo destinationBranch
             prs E).
  - intros repoName config Hprs.
    exists (Println [str "Getting bitbucket settings for"; repoName] ;;
            bbRepo <- getRepo (settings.bbWorkspace config) repoName ;;
            (if settings.revokeOldPerms config then
               Println [str "revoking old bitbucket permissions to prevent accidental writes"] ;;
               updatePermissionsToReadOnly (settings.bbWorkspace config) repoName
                 (settings.dryRun config)
             else Println [str "skipping revoking old bitbucket permissions"]) ;;
            repoFolder <- (if settings.migrateRepoContents config
                           then cloneRepo repoName config
                           else Ret []) ;;
            Ret (bbRepo, repoFolder)).
    exists (fun bbRepo repoFolder =>
              Println [str "Migrating to Github"] ;;
              ghRepo <- createRepo bbRepo config ;;
              (if settings.migrateRepoContents config
               then pushRepoToGithub repoFolder repoName config
               else Println [str "Skipping repo contents"]) ;;
              (if settings.migrateRepoSettings config then
                 updateRepo (settings.ghOwner config) ghRepo (settings.dryRun config) ;;
                 updateRepoTopics (settings.ghOwner config) ghRepo (settings.dryRun config) ;;
                 updateCustomProperties (settings.ghOwner config) ghRepo
                   (settings.dryRun config) (bitbucket.Project_Name bbRepo)
               else Println [str "Skipping repo settings"]) ;;
              Ret ghRepo).
    split; [solve [within_stages]|].
    split; [intros bbRepo repoFolder; solve [within_stages]|].
    intros env' history0. unfold migrateRepo. rewrite Hprs.
    do 9 (try same_stage).
Qed.

End Delivery.

Lemma getPrs_in_id_order_witness :
  non_decreasing ID [demo_merged_pr; demo_open_pr] /\
  exists decoded,
    decodePullRequests demo_response = Ret (Ok decoded) /\
    Permutation [demo_merged_pr; demo_open_pr] (Values decoded).
Proof.
  destruct (getPrs_in_id_order
              (demo_env demo_response (Ok {| github.PR_Number := Some 1%Z |}) None)
              []
              (fst (run (demo_env demo_response (Ok {| github.PR_Number := Some 1%Z |}) None)
                      (getPrs (str "acme") (str "demo") (str "main")) []))
              (str "acme") (str "demo") (str "main")
              {| Size := 2; Page := 1; Pagelen := 10; Next := []; Previous := [];
                 Values := [demo_merged_pr; demo_open_pr] |} eq_refl)
    as [Hsorted [[text [opt [response [decoded [Hresp [Hdec Hperm]]]]]] _]].
  split; [exact Hsorted|].
  exists decoded. injection Hresp as Hresp. subst response.
  split; [exact Hdec | exact Hperm].
Defined.

Section Settings_of_an_owner.
Context {lib : GoLib}.

(** One stage of [migrateRepo] that has returned, in the run [H] and in the
    calls of the goal. *)
Ltac returned H :=
  rewrite run_bind in H; rewrite calls_of_bind;
  match type of H with
  | context [match run ?e ?p ?h with _ => _ end] =>
      destruct (run e p h) as [? [?| |]]; try discriminate H
  end.

(** X3.  The owner of a configuration built by [main] is never empty, and
    [migrateRepo] hands the owner to [updateCustomProperties] as the
    organization.  So outside a dry run the custom-property update is not
    skipped when only a GitHub user is configured: the update makes its one
    call, with the owner in the place of the organization, and returns; and
    every run of [migrateRepo] that returns, with the settings migrated, has
    made that call, with the owner, the tag [bitbucket] and the cleaned name
    of a project. *)
Theorem custom_properties_are_updated_for_every_owner
    (godotenv_Load : option errtext) (Getenv : gostring -> gostring)
    (config : settings.t) (env : Env) (history : list Event)
    (ghRepo : github.Repository) (projectName : gostring) :
  main_config godotenv_Load Getenv = Started config ->
  run env (updateCustomProperties (settings.ghOwner config) ghRepo false projectName)
    history
  = (history ++
     [Called (gh_Repositories_CreateOrUpdateCustomProperties (settings.ghOwner config)
                (github.Name ghRepo)
                [ {| github.PropertyName := str "bitbucket"; github.Value := str "true" |};
                  {| github.PropertyName := str "project";
                     github.Value := cleanTopic projectName |} ])],
     Returned tt) /\
  (settings.dryRun config = false -> settings.migrateRepoSettings config = true ->
   forall (repoName : gostring) (history' : list Event),
     run env (migrateRepo repoName config) history = (history', Returned tt) ->
     exists name project,
       In (Called (gh_Repositories_CreateOrUpdateCustomProperties (settings.ghOwner config)
                     name
                     [ {| github.PropertyName := str "bitbucket";
                          github.Value := str "true" |};
                       {| github.PropertyName := str "project";
                          github.Value := cleanTopic project |} ]))
         (calls_of env (migrateRepo repoName config) history)).
Proof.
  intros H. apply main_config_Started in H.
  destruct H as [_ [_ [_ [_ [_ [Howner _]]]]]]. apply streq_nil in Howner.
  split.
  - unfold updateCustomProperties. rewrite Howner. reflexivity.
  - intros Hdry Hsettings repoName history' Hrun.
    cut (Exists
           (fun e => exists name project,
              e = Called (gh_Repositories_CreateOrUpdateCustomProperties
                            (settings.ghOwner config) name
                            [ {| github.PropertyName := str "bitbucket";
                                 github.Value := str "true" |};
                              {| github.PropertyName := str "project";
                                 github.Value := cleanTopic project |} ]))
           (calls_of env (migrateRepo repoName config) history)).
    { rewrite Exists_exists. intros [e [Hin [name [project He]]]]. subst e.
      exists name, project. exact Hin. }
    unfold migrateRepo in *. rewrite Hdry, Hsettings in *.
    do 8 (returned Hrun; apply Exists_app; right).
    rewrite run_bind in Hrun. rewrite calls_of_bind. apply Exists_app. left.
    do 2 (returned Hrun; apply Exists_app; right).
    unfold updateCustomProperties. rewrite Howner. cbn [calls_of call].
    apply Exists_cons_hd. eexists. eexists. reflexivity.
Qed.

End Settings_of_an_owner.

(** A start-up outside a dry run, for a user account, with the settings
    migrated and nothing else. *)
Lemma custom_properties_are_updated_for_every_owner_witness :
  snd (run (demo_env demo_response (Ok {| github.PR_Number := Some 1%Z |})
              (Some (str "404 Not Found")))
         (updateCustomProperties (str "ada") demo_ghRepo false (str "My Project")) [])
  = Returned tt /\
  exists name project,
    In (Called (gh_Repositories_CreateOrUpdateCustomProperties (str "ada") name
                  [ {| github.PropertyName := str "bitbucket"; github.Value := str "true" |};
                    {| github.PropertyName := str "project";
                       github.Value := cleanTopic project |} ]))
      (calls_of (demo_env demo_response (Ok {| github.PR_Number := Some 1%Z |}) None)
         (migrateRepo (str "demo")
            (match main_config None settings_Getenv with
             | Started config => config
             | _ => demo_config true
             end)) []).
Proof.
  split.
  - exact (f_equal snd
             (proj1 (custom_properties_are_updated_for_every_owner None demo_Getenv
                (match main_config None demo_Getenv with
                 | Started config => config
                 | _ => demo_config true
                 end)
                (demo_env demo_response (Ok {| github.PR_Number := Some 1%Z |})
                   (Some (str "404 Not Found")))
                [] demo_ghRepo (str "My Project") eq_refl))).
  - destruct (custom_properties_are_updated_for_every_owner None settings_Getenv
                (match main_config None settings_Getenv with
                 | Started config => config
                 | _ => demo_config true
                 end)
                (demo_env demo_response (Ok {| github.PR_Number := Some 1%Z |}) None)
                [] demo_ghRepo (str "My Project") eq_refl) as [_ Hrun].
    apply (Hrun eq_refl eq_refl (str "demo")
             (fst (run (demo_env demo_response (Ok {| github.PR_Number := Some 1%Z |}) None)
                     (migrateRepo (str "demo")
                        (match main_config None settings_Getenv with
                         | Started config => config
                         | _ => demo_config true
                         end)) []))).
    vm_compute. reflexivity.
Defined.
